(** * PolicyGenie decision engine: fraud ensemble, risk aggregator and
      claims adjudicator, embedded from [app/services/fraud_service.py],
      [app/services/risk_service.py], [app/routes/claim.py] and
      [app/config.py]; with them the cache manager
      ([app/core/cache_service.py]), the request validator
      ([app/schemas/claim_schema.py]), the what-if endpoint
      ([app/routes/whatif.py]) and the token chunking
      ([app/utils/chunking.py]).

    Modelling conventions.
    - Python floats and ints are idealised as exact rationals ([Q]); a
      [Q] is compared with [==] ([Qeq]).  [round(x, n)] is rounding to the
      nearest multiple of [10^-n], ties to the even neighbour.  There is
      no [nan] and no infinity.
    - A [str] is a [string]; [len], slicing, [split], [strip] and [lower]
      work on its characters as on ASCII text.
    - A Python [dict] with string keys is a [gmap string pyval]; a value
      decoded from JSON is a [pyval].
    - Code that can raise returns an [outcome]; [try ... except] is
      [try_except].  The text of an exception the interpreter raises is
      abbreviated.  A coroutine is the function it computes; the results
      of [asyncio.gather(..., return_exceptions=True)] are a list of
      outcomes.
    - [list(set(xs))] is the list of the elements of a [gset], in the
      order stdpp fixes; Python fixes none.
    - Library calls and external collaborators (regular expressions, the
      transformers pipelines, the cache tiers, the language model) are
      fields of environment records. *)

From Stdlib Require Import QArith Qround Qabs Lqa ZArith Lia Ascii.
From stdpp Require Import gmap strings list.

Set Warnings "-register-all".

(** ** Python values, exceptions and the error monad *)

Module Py.

Inductive exn_kind :=
| TypeError
| AttributeError
| ValueError
| JSONDecodeError
| ZeroDivisionError
| RuntimeError
| HTTPException (status_code : Z).

(** An exception object; [exn_msg] is [str(e)]. *)
Record exn := Exn { exn_class : exn_kind; exn_msg : string }.

Inductive outcome (A : Type) :=
| Return (a : A)
| Raise (e : exn).
Arguments Return {A} a.
Arguments Raise {A} e.

#[export] Instance outcome_ret : MRet outcome := fun _ a => Return a.
#[export] Instance outcome_bind : MBind outcome := fun _ _ k m =>
  match m with
  | Return a => k a
  | Raise e => Raise e
  end.

(** [try: body except Exception as e: handler(e)] *)
Definition try_except {A} (body : outcome A) (handler : exn -> outcome A)
  : outcome A :=
  match body with
  | Return a => Return a
  | Raise e => handler e
  end.

(** [isinstance(e, Exception)] for the value inside an [outcome] that
    [asyncio.gather(..., return_exceptions=True)] has turned into data. *)
Definition is_exception {A} (r : outcome A) : bool :=
  match r with Raise _ => true | Return _ => false end.

Definition raises {A} (m : outcome A) : Prop := exists e, m = Raise e.
Definition returns {A} (m : outcome A) : Prop := exists a, m = Return a.

Inductive pyval :=
| PNone
| PBool (b : bool)
| PNum (q : Q)
| PStr (s : string)
| PList (l : list pyval)
| PDict (d : gmap string pyval).

Abbreviation pydict := (gmap string pyval).

(** [bool] is a subclass of [int]: numeric view of a value. *)
Definition as_num (v : pyval) : option Q :=
  match v with
  | PNum q => Some q
  | PBool true => Some 1%Q
  | PBool false => Some 0%Q
  | _ => None
  end.

(** Truth value of an object ([if v:]). *)
Definition truthy (v : pyval) : bool :=
  match v with
  | PNone => false
  | PBool b => b
  | PNum q => negb (Qeq_bool q 0)
  | PStr s => negb (String.eqb s "")
  | PList l => match l with [] => false | _ => true end
  | PDict d => negb (bool_decide (d = ∅))
  end.

(** [d.get(key, default)] *)
Definition dict_get (d : pydict) (key : string) (default : pyval) : pyval :=
  match d !! key with Some v => v | None => default end.

(** [v == s] for a string literal [s]. *)
Definition eq_str (v : pyval) (s : string) : bool :=
  match v with PStr t => String.eqb t s | _ => false end.

(** [v.get] exists on dicts only. *)
Definition as_dict (v : pyval) : outcome pydict :=
  match v with
  | PDict d => Return d
  | _ => Raise (Exn AttributeError "object has no attribute 'get'")
  end.

(** [a + b]: lists and strings concatenate, numbers add. *)
Definition py_add (a b : pyval) : outcome pyval :=
  match a, b with
  | PList x, PList y => Return (PList (x ++ y))
  | PStr x, PStr y => Return (PStr (x +:+ y))
  | _, _ =>
      match as_num a, as_num b with
      | Some x, Some y => Return (PNum (x + y))
      | _, _ => Raise (Exn TypeError "unsupported operand type(s) for +")
      end
  end.

(** [a < b], [a > b] ... against a number: defined for numbers only. *)
Definition num_of (v : pyval) : outcome Q :=
  match as_num v with
  | Some q => Return q
  | None => Raise (Exn TypeError "comparison not supported between these types")
  end.

(** [len(v)] *)
Definition py_len (v : pyval) : outcome nat :=
  match v with
  | PStr s => Return (String.length s)
  | PList l => Return (length l)
  | PDict d => Return (size d)
  | _ => Raise (Exn TypeError "object has no len()")
  end.

(** Hashable values: the atoms; [list] and [dict] are unhashable. *)
Definition hashable (v : pyval) : bool :=
  match v with PList _ | PDict _ => false | _ => true end.

(** Key equality of hashable values ([True == 1 == 1.0]). *)
Definition key_eqb (a b : pyval) : bool :=
  match a, b with
  | PNone, PNone => true
  | PStr x, PStr y => String.eqb x y
  | _, _ =>
      match as_num a, as_num b with
      | Some x, Some y => Qeq_bool x y
      | _, _ => false
      end
  end.

(** *** Numbers *)

Definition nat_val (n : nat) : pyval := PNum (inject_Z (Z.of_nat n)).

(** Nearest integer, ties to even. *)
Definition round_half_even (x : Q) : Z :=
  let f := Qfloor x in
  match (x - inject_Z f ?= 1 # 2)%Q with
  | Lt => f
  | Gt => (f + 1)%Z
  | Eq => if Z.even f then f else (f + 1)%Z
  end.

(** [round(x, ndigits)] *)
Definition py_round (x : Q) (ndigits : nat) : Q :=
  let scale := inject_Z (10 ^ Z.of_nat ndigits) in
  (inject_Z (round_half_even (x * scale)) / scale)%Q.

(** [min(a, b)] returns [b] only when [b < a]; [max(a, b)] only when
    [b > a]. *)
Definition py_min (a b : Q) : Q := if Qlt_le_dec b a then b else a.
Definition py_max (a b : Q) : Q := if Qlt_le_dec a b then b else a.

Definition Qltb (a b : Q) : bool := if Qlt_le_dec a b then true else false.
Definition Qleb (a b : Q) : bool := if Qlt_le_dec b a then false else true.

(** [sum(xs)] *)
Definition py_sum (xs : list Q) : Q := foldl Qplus 0%Q xs.

(** [a / b] *)
Definition py_div (a b : Q) : outcome Q :=
  if Qeq_bool b 0 then Raise (Exn ZeroDivisionError "division by zero")
  else Return (a / b)%Q.

(** *** Text.  [text.split()] is stdpp's [String.words]. *)

(** [s[:n]] *)
Definition str_take (n : nat) (s : string) : string := String.substring 0 n s.

(** [s.count(c)] for a one-character needle. *)
Fixpoint str_count (c : ascii) (s : string) : nat :=
  match s with
  | EmptyString => 0
  | String a s' => (if Ascii.eqb a c then 1 else 0) + str_count c s'
  end.

Fixpoint lstrip (s : string) : string :=
  match s with
  | String a s' => if Ascii.is_space a then lstrip s' else s
  | EmptyString => EmptyString
  end.

(** [s.strip()] *)
Definition str_strip (s : string) : string :=
  String.rev (lstrip (String.rev (lstrip s))).

Definition lower_ascii (a : ascii) : ascii :=
  let n := nat_of_ascii a in
  if (65 <=? n)%nat && (n <=? 90)%nat then ascii_of_nat (n + 32) else a.

(** [s.lower()] *)
Fixpoint str_lower (s : string) : string :=
  match s with
  | EmptyString => EmptyString
  | String a s' => String (lower_ascii a) (str_lower s')
  end.

(** [s.startswith(p)], [s.endswith(p)] *)
Definition startswith (p s : string) : bool := String.prefix p s.
Definition endswith (p s : string) : bool :=
  String.prefix (String.rev p) (String.rev s).

(** [s[n:]] and [s[:-n]] *)
Definition str_drop (n : nat) (s : string) : string :=
  String.substring n (String.length s - n) s.
Definition str_drop_end (n : nat) (s : string) : string :=
  String.substring 0 (String.length s - n) s.

(** [x in s] for strings *)
Fixpoint contains (needle s : string) : bool :=
  String.prefix needle s ||
  match s with
  | EmptyString => false
  | String _ s' => contains needle s'
  end.

(** [sep.join(parts)] *)
Fixpoint join (sep : string) (parts : list string) : string :=
  match parts with
  | [] => ""
  | [p] => p
  | p :: rest => p +:+ sep +:+ join sep rest
  end.

(** [list(dict.fromkeys(xs))] on a list of hashable values: the first
    occurrence of every key, in order. *)
Fixpoint dedup_keys (seen xs : list pyval) : list pyval :=
  match xs with
  | [] => []
  | x :: rest =>
      if existsb (key_eqb x) seen then dedup_keys seen rest
      else x :: dedup_keys (x :: seen) rest
  end.

Fixpoint chars (s : string) : list pyval :=
  match s with
  | EmptyString => []
  | String a s' => PStr (String a EmptyString) :: chars s'
  end.

(** [list(dict.fromkeys(v))]: [v] must be iterable, its items hashable. *)
Definition list_fromkeys (v : pyval) : outcome (list pyval) :=
  match v with
  | PList l =>
      if forallb hashable l then Return (dedup_keys [] l)
      else Raise (Exn TypeError "unhashable type")
  | PStr s => Return (dedup_keys [] (chars s))
  | PDict d => Return (PStr <$> (map_to_list d).*1)
  | _ => Raise (Exn TypeError "object is not iterable")
  end.

End Py.

(** ** Configuration ([app/config.py]) *)

Module Config.

Record Settings := {
  cache_ttl : Z;
  fraud_threshold : Q;
  auto_approve_threshold : Z;
  auto_reject_threshold : Z;
  requires_human_review_min : Z;
  requires_human_review_max : Z
}.

(** The defaults of the [Field(...)] declarations. *)
Definition default_settings : Settings := {|
  cache_ttl := 3600;
  fraud_threshold := 0.75;
  auto_approve_threshold := 30;
  auto_reject_threshold := 85;
  requires_human_review_min := 70;
  requires_human_review_max := 85
|}.

(** The [ge]/[le] constraints pydantic enforces when it loads settings. *)
Definition validated (s : Settings) : Prop :=
  (0 <= fraud_threshold s <= 1)%Q /\
  (0 <= auto_approve_threshold s <= 100)%Z /\
  (0 <= auto_reject_threshold s <= 100)%Z /\
  (0 <= requires_human_review_min s <= 100)%Z /\
  (0 <= requires_human_review_max s <= 100)%Z.

End Config.

(** ** Fraud ensemble ([app/services/fraud_service.py]) *)

Module Fraud.
Import Py Config.

(** What a detector returns: [{"score": ..., "indicators": [...]}]. *)
Record DetectionResult := {
  score : Q;
  dr_indicators : list string
}.

(** The dict [detect_fraud] returns.  Keys that only one of its two
    shapes carries are optional. *)
Record FraudAssessment := {
  fraud_score : Q;
  is_suspicious : bool;
  confidence : Q;
  indicators : list string;
  risk_level : string;
  recommendation : string;
  detection_methods : option (Q * Q * Q * Q);
  timestamp : option string;
  explainability : option (list (string * Q));
  error : option string
}.

(** Library calls and collaborators of one [detect_fraud] call. *)
Record Env := {
  (** [re.compile(p, re.IGNORECASE).search(text)] found a match *)
  re_search : string -> string -> bool;
  (** [re.findall(p, text)] *)
  re_findall : string -> string -> list string;
  (** [hashlib.md5(text.encode()).hexdigest()] *)
  md5_hexdigest : string -> string;
  (** [f"{x:.2f}"] *)
  format_2f : Q -> string;
  (** [datetime.utcnow().isoformat()] *)
  utcnow_isoformat : string;
  (** building the two pipelines and the isolation forest in
      [_load_models] *)
  build_pipelines : outcome unit;
  (** [self._fraud_classifier(text)[0]]: label and score *)
  fraud_classifier : string -> outcome (string * Q);
  (** [self._sentiment_analyzer(text)[0]]: label and score *)
  sentiment_analyzer : string -> outcome (string * Q);
  (** [np.array(features).reshape(1, -1)] *)
  np_array : list pyval -> outcome unit;
  (** keys the TTL and size policy of the memory tier have dropped, and
      keys whose Redis expiry has passed, by the time of this call *)
  memory_expired : gset string;
  redis_expired : gset string;
  (** whether the Redis round trips of this call fail *)
  redis_get_fails : bool;
  redis_set_fails : bool
}.

(** The singletons [fraud_detector] and [cache_manager]. *)
Record State := {
  models_loaded : bool;
  memory_cache : gmap string FraudAssessment;
  redis_enabled : bool;
  redis_store : gmap string FraudAssessment
}.

Definition initial_state (redis : bool) : State := {|
  models_loaded := false;
  memory_cache := ∅;
  redis_enabled := redis;
  redis_store := ∅
|}.

Definition set_models_loaded (st : State) : State :=
  {| models_loaded := true; memory_cache := memory_cache st;
     redis_enabled := redis_enabled st; redis_store := redis_store st |}.

Definition set_memory_cache (m : gmap string FraudAssessment) (st : State)
  : State :=
  {| models_loaded := models_loaded st; memory_cache := m;
     redis_enabled := redis_enabled st; redis_store := redis_store st |}.

Definition set_redis_store (m : gmap string FraudAssessment) (st : State)
  : State :=
  {| models_loaded := models_loaded st; memory_cache := memory_cache st;
     redis_enabled := redis_enabled st; redis_store := m |}.

(** Entries still alive once the keys in [gone] have been dropped. *)
Definition live (gone : gset string) (m : gmap string FraudAssessment)
  : gmap string FraudAssessment :=
  filter (fun kv => kv.1 ∉ gone) m.

Section Detector.
Context (E : Env) (settings : Settings).

(** [_compile_fraud_patterns] *)
Definition _fraud_patterns : list string := [
  "\b(fake|forged|counterfeit|fabricated)\b";
  "\b(urgent|immediately|asap|right now)\b.*\b(claim|payment)\b";
  "\b(multiple|several|many)\b.*\b(claims|accidents|incidents)\b";
  "\$\d{4,}.*\b(cash|payment|reimburse)\b";
  "\b(pre-existing|prior|previous)\b.*\b(condition|injury|damage)\b";
  "\b(witness|proof|evidence)\b.*\b(unavailable|lost|missing)\b"
].

(** [_load_models] *)
Definition _load_models (st : State) : outcome unit * State :=
  if models_loaded st then (Return (), st)
  else match build_pipelines E with
       | Return _ => (Return (), set_models_loaded st)
       | Raise e => (Raise e, st)
       end.

(** One turn of the loop over [self._fraud_patterns]. *)
Definition pattern_step (text : string) (acc : Q * list string)
  (pattern : string) : Q * list string :=
  if re_search E pattern text
  then ((acc.1 + 0.15)%Q, acc.2 ++ ["Pattern match: " +:+ str_take 50 pattern])
  else acc.

(** [_pattern_based_detection] *)
Definition _pattern_based_detection (text : string) : DetectionResult :=
  let acc := foldl (pattern_step text) (0%Q, []) _fraud_patterns in
  let acc :=
    if (length (String.words text) <? 20)%nat
    then ((acc.1 + 0.1)%Q, acc.2 ++ ["Unusually brief description"])
    else acc in
  let acc :=
    if (3 <? str_count "!" text)%nat
    then ((acc.1 + 0.05)%Q, acc.2 ++ ["Excessive urgency markers"])
    else acc in
  let dates := re_findall E "\d{1,2}[/-]\d{1,2}[/-]\d{2,4}" text in
  let acc :=
    if (5 <? length dates)%nat
    then ((acc.1 + 0.1)%Q, acc.2 ++ ["Multiple conflicting dates"])
    else acc in
  {| score := py_min acc.1 1; dr_indicators := acc.2 |}.

(** [_ml_based_detection] *)
Definition _ml_based_detection (text : string) : outcome DetectionResult :=
  try_except
    (let text_chunk := str_take 512 text in
     result ← fraud_classifier E text_chunk;
     if bool_decide (result.1 ∈ ["LABEL_1"; "POSITIVE"; "FRAUD"])
     then
       let score := result.2 in
       mret {| score := score;
               dr_indicators :=
                 ["ML detected fraud signals (confidence: "
                    +:+ format_2f E score +:+ ")"] |}
     else
       mret {| score := (1 - result.2)%Q; dr_indicators := [] |})
    (fun e => Return {| score := 0.5; dr_indicators := [] |}).

(** [_sentiment_based_detection] *)
Definition _sentiment_based_detection (text : string)
  : outcome DetectionResult :=
  try_except
    (sentiment ← sentiment_analyzer E (str_take 512 text);
     if String.eqb sentiment.1 "NEGATIVE" && Qltb 0.95 sentiment.2
     then mret {| score := 0.3;
                  dr_indicators :=
                    ["Extremely negative sentiment (possible manipulation)"] |}
     else if String.eqb sentiment.1 "POSITIVE" && Qltb 0.95 sentiment.2
     then mret {| score := 0.2;
                  dr_indicators := ["Unusually positive sentiment"] |}
     else mret {| score := 0; dr_indicators := [] |})
    (fun e => Return {| score := 0; dr_indicators := [] |}).

(** [_extract_features] *)
Definition _extract_features (text : string) (metadata : option pydict)
  : outcome unit :=
  let features :=
    [nat_val (String.length text);
     nat_val (length (String.words text));
     nat_val (str_count "!" text);
     nat_val (str_count "?" text);
     nat_val (length (re_findall E "\d+" text))] in
  let features :=
    match metadata with
    | Some md =>
        if truthy (PDict md)
        then features ++ [dict_get md "claim_amount" (PNum 0);
                          dict_get md "previous_claims" (PNum 0)]
        else features
    | None => features
    end in
  np_array E features.

(** [np.mean([len(w) for w in text.split()]) > bound]; the mean of no
    words is [nan], which compares false. *)
Definition mean_word_length_gt (text : string) (bound : Q) : bool :=
  let lens := (fun w => inject_Z (Z.of_nat (String.length w)))
                <$> String.words text in
  match lens with
  | [] => false
  | _ => Qltb bound (py_sum lens / inject_Z (Z.of_nat (length lens)))
  end.

(** [_statistical_anomaly_detection] *)
Definition _statistical_anomaly_detection (text : string)
  (metadata : option pydict) : outcome DetectionResult :=
  try_except
    (_extract_features text metadata;;
     let long_words := mean_word_length_gt text 10 in
     let claim_amount :=
       match metadata with
       | Some md => if truthy (PDict md)
                    then dict_get md "claim_amount" (PNum 0) else PNum 0
       | None => PNum 0
       end in
     let acc : Q * list string := (0%Q, []) in
     let acc :=
       if long_words
       then ((acc.1 + 0.1)%Q, acc.2 ++ ["Unusually complex language"])
       else acc in
     amount ← num_of claim_amount;
     let acc :=
       if Qltb 50000 amount
       then ((acc.1 + 0.15)%Q, acc.2 ++ ["High claim amount"])
       else acc in
     mret {| score := py_min acc.1 1; dr_indicators := acc.2 |})
    (fun e => Return {| score := 0; dr_indicators := [] |}).

(** [np.var(scores)]: the mean squared deviation from the mean. *)
Definition np_var (scores : list Q) : Q :=
  let n := inject_Z (Z.of_nat (length scores)) in
  let mean := (py_sum scores / n)%Q in
  (py_sum ((fun s => (s - mean) * (s - mean))%Q <$> scores) / n)%Q.

(** [_calculate_confidence] *)
Definition _calculate_confidence (scores : list Q) : Q :=
  if (length scores <? 2)%nat then 0.5%Q
  else
    let variance := np_var scores in
    let confidence := (1 - py_min (variance * 2) 0.5)%Q in
    py_round confidence 3.

(** [_assess_risk_level] *)
Definition _assess_risk_level (score : Q) (indicators : list string)
  : string * string :=
  if Qleb 0.85 score then
    ("CRITICAL",
     "REJECT - High fraud probability. Escalate to fraud investigation unit.")
  else if Qleb 0.75 score then
    ("HIGH",
     "FLAG - Suspicious activity detected. Mandatory manual review required.")
  else if Qleb 0.50 score then
    ("MEDIUM",
     "REVIEW - Some fraud indicators present. Recommend additional verification.")
  else if Qleb 0.30 score then
    ("LOW", "PROCEED - Low risk, but monitor for patterns.")
  else
    ("MINIMAL", "APPROVE - No significant fraud indicators detected.").

(** [_generate_shap_explanation]: the fixed [top_features]. *)
Definition _generate_shap_explanation (text : string) : list (string * Q) :=
  [("urgency_words", 0.3%Q); ("claim_amount", 0.25%Q);
   ("sentiment_score", 0.2%Q)].

(** [CacheManager.get], namespace ["default"]: memory tier first, then
    Redis, whose hits are copied into the memory tier. *)
Definition cache_get (st : State) (key : string)
  : option FraudAssessment * State :=
  let cache_key := "default:" +:+ key in
  let mem := live (memory_expired E) (memory_cache st) in
  let st := set_memory_cache mem st in
  match mem !! cache_key with
  | Some v => (Some v, st)
  | None =>
      if redis_enabled st && negb (redis_get_fails E) then
        let red := live (redis_expired E) (redis_store st) in
        let st := set_redis_store red st in
        match red !! cache_key with
        | Some v => (Some v, set_memory_cache (<[cache_key := v]> mem) st)
        | None => (None, st)
        end
      else (None, st)
  end.

(** [CacheManager.set], namespace ["default"]; it never raises. *)
Definition cache_set (st : State) (key : string) (value : FraudAssessment)
  : State :=
  let cache_key := "default:" +:+ key in
  let st := set_memory_cache (<[cache_key := value]> (memory_cache st)) st in
  if redis_enabled st && negb (redis_set_fails E)
  then set_redis_store (<[cache_key := value]> (redis_store st)) st
  else st.

(** The loop over [results]: exceptions are skipped, the scores of the
    other results are appended in order. *)
Definition collect_step (acc : list Q * list string)
  (result : outcome DetectionResult) : list Q * list string :=
  match result with
  | Raise _ => acc
  | Return r => (acc.1 ++ [score r], acc.2 ++ dr_indicators r)
  end.

Definition collect (results : list (outcome DetectionResult))
  : list Q * list string :=
  foldl collect_step ([], []) results.

Definition weights : list Q := [0.2; 0.4; 0.2; 0.2]%Q.

(** [sum(s * w for s, w in zip(fraud_scores, weights[:n])) / sum(weights[:n])]
    with [n = len(fraud_scores)] *)
Definition ensemble_score (fraud_scores : list Q) : outcome Q :=
  let used := take (length fraud_scores) weights in
  py_div (py_sum (zip_with Qmult fraud_scores used)) (py_sum used).

(** [xs[i] if len(xs) > i else 0] *)
Definition nth_or_zero (xs : list Q) (i : nat) : Q := default 0%Q (xs !! i).

(** The part of [detect_fraud] from the aggregation to the cache write,
    given what [asyncio.gather(..., return_exceptions=True)] returned. *)
Definition aggregate (st : State) (cache_key text : string)
  (results : list (outcome DetectionResult)) (enable_shap : bool)
  : outcome FraudAssessment * State :=
  let acc := collect results in
  let fraud_scores := acc.1 in
  let indicators := acc.2 in
  match ensemble_score fraud_scores with
  | Raise e => (Raise e, st)
  | Return final_score =>
      let level := _assess_risk_level final_score indicators in
      let result := {|
        fraud_score := py_round final_score 3;
        is_suspicious := Qltb (fraud_threshold settings) final_score;
        confidence := _calculate_confidence fraud_scores;
        indicators := elements (list_to_set indicators : gset string);
        risk_level := level.1;
        recommendation := level.2;
        detection_methods :=
          Some (nth_or_zero fraud_scores 0, nth_or_zero fraud_scores 1,
                nth_or_zero fraud_scores 2, nth_or_zero fraud_scores 3);
        timestamp := Some (utcnow_isoformat E);
        explainability :=
          if enable_shap then Some (_generate_shap_explanation text)
          else None;
        error := None
      |} in
      (Return result, cache_set st cache_key result)
  end.

(** The four detector coroutines handed to [asyncio.gather]. *)
Definition gather_detectors (text : string) (metadata : option pydict)
  : list (outcome DetectionResult) :=
  [Return (_pattern_based_detection text);
   _ml_based_detection text;
   _sentiment_based_detection text;
   _statistical_anomaly_detection text metadata].

(** The [try] block of [detect_fraud], given what the gathered detectors
    return on a cache miss. *)
Definition detect_fraud_try (st : State) (text : string)
  (results : list (outcome DetectionResult)) (enable_shap : bool)
  : outcome FraudAssessment * State :=
  let cache_key := "fraud:" +:+ md5_hexdigest E text in
  let looked := cache_get st cache_key in
  match looked.1 with
  | Some cached_result => (Return cached_result, looked.2)
  | None => aggregate looked.2 cache_key text results enable_shap
  end.

(** The [except Exception as e] block of [detect_fraud]. *)
Definition degraded (e : exn) : FraudAssessment := {|
  fraud_score := 0.5;
  is_suspicious := false;
  confidence := 0;
  indicators := ["Error in detection"];
  risk_level := "UNKNOWN";
  recommendation := "Manual review required due to system error";
  detection_methods := None;
  timestamp := None;
  explainability := None;
  error := Some (exn_msg e)
|}.

(** [detect_fraud] with the return value of [asyncio.gather] given:
    [_load_models] runs before the [try], the [except] block turns an
    exception of the [try] block into the degraded assessment. *)
Definition detect_fraud_on (results : list (outcome DetectionResult))
  (st : State) (text : string) (enable_shap : bool)
  : outcome FraudAssessment * State :=
  let loaded := _load_models st in
  match loaded.1 with
  | Raise e => (Raise e, loaded.2)
  | Return _ =>
      let r := detect_fraud_try loaded.2 text results enable_shap in
      (try_except r.1 (fun e => Return (degraded e)), r.2)
  end.

(** [AdvancedFraudDetector.detect_fraud] and the module-level
    [detect_fraud] that forwards to it. *)
Definition detect_fraud (st : State) (text : string)
  (metadata : option pydict) (enable_shap : bool)
  : outcome FraudAssessment * State :=
  detect_fraud_on (gather_detectors text metadata) st text enable_shap.

End Detector.
End Fraud.

(** ** Risk aggregator ([app/services/risk_service.py]) *)

Module Risk.
Import Py Config.

(** [{"score": ..., "factors": [...]}]; the substitute for a failed task
    is [{"score": 50}], without ["factors"]. *)
Record BaseScore := {
  bs_score : option Q;
  bs_factors : option (list string)
}.

(** The dicts of [_analyze_financial_sentiment] and
    [_assess_external_factors]; the substitute for a failed task is [{}]. *)
Record Adjustment := {
  risk_adjustment : option Q;
  adj_factors : option (list string);
  financial_sentiment : option string;
  adj_confidence : option Q
}.

Definition empty_adjustment : Adjustment :=
  {| risk_adjustment := None; adj_factors := None;
     financial_sentiment := None; adj_confidence := None |}.

Record Premium := {
  annual : Q;
  monthly : Q;
  base_rate : Q;
  risk_multiplier : Q;
  currency : string
}.

Record Compliance := {
  compliant : bool;
  issues : list string;
  warnings : list string;
  regulations_checked : list string
}.

Record RiskBreakdown := {
  base_risk : Q;
  financial_risk : Q;
  external_factors : Q;
  fraud_risk : Q
}.

(** An entry of the dict [_run_scenario_analysis] returns. *)
Inductive Scenario :=
| SmokingCessation (risk_score_change : Q) (premium_savings : string)
| CreditImprovement (target_score : Z) (estimated_benefit : string).

(** The dict [assess_risk] returns.  ["risk_score"] and ["decision"] are
    in each of its three shapes, the other keys are optional. *)
Record RiskAssessment := {
  risk_score : Q;
  decision : string;
  reason : option string;
  recommendation : option string;
  fraud_details : option Fraud.FraudAssessment;
  error : option string;
  confidence : option Q;
  premium_estimate : option Premium;
  policy_type_echo : option string;
  coverage_amount_echo : option (option Q);
  risk_breakdown : option RiskBreakdown;
  risk_factors : option (list string);
  recommendations : option (list string);
  detailed_assessment : option string;
  timestamp : option string;
  compliance : option Compliance;
  scenario_analysis : option (list (string * Scenario))
}.

Section Pure.
Context (settings : Settings).

(** [_aggregate_risk_score] *)
Definition _aggregate_risk_score (base_score : BaseScore)
  (financial external : Adjustment) (fraud : option Fraud.FraudAssessment)
  : Q :=
  let score := default 50%Q (bs_score base_score) in
  let score := (score + default 0 (risk_adjustment financial))%Q in
  let score := (score + default 0 (risk_adjustment external))%Q in
  let score :=
    match fraud with
    | Some f =>
        if Qltb 0.5 (Fraud.fraud_score f)
        then (score + Fraud.fraud_score f * 30)%Q
        else score
    | None => score
    end in
  py_min (py_max score 0) 100.

(** [_make_underwriting_decision] *)
Definition _make_underwriting_decision (risk_score : Q) : string * Q :=
  if Qleb risk_score (inject_Z (auto_approve_threshold settings)) then
    ("APPROVE", 0.95%Q)
  else if Qleb (inject_Z (auto_reject_threshold settings)) risk_score then
    ("REJECT", 0.90%Q)
  else if Qleb (inject_Z (requires_human_review_min settings)) risk_score
          && Qleb risk_score (inject_Z (requires_human_review_max settings))
  then
    ("MANUAL_REVIEW", 0.70%Q)
  else if Qltb risk_score (inject_Z (requires_human_review_min settings)) then
    ("APPROVE", 0.80%Q)
  else
    ("REJECT", 0.85%Q).

(** The table [base_rates] with its fallback:
    [base_rates.get(policy_type, 1000)]. *)
Definition base_rates : gmap string Q :=
  list_to_map [("life", 500%Q); ("health", 3000%Q);
               ("auto", 1200%Q); ("home", 800%Q)].

(** [_calculate_premium] *)
Definition _calculate_premium (risk_score coverage_amount : Q)
  (policy_type : string) : Premium :=
  let base_rate := default 1000%Q (base_rates !! policy_type) in
  let risk_multiplier := (1 + risk_score / 100)%Q in
  let annual_premium :=
    (coverage_amount / 100000 * base_rate * risk_multiplier)%Q in
  {| annual := py_round annual_premium 2;
     monthly := py_round (annual_premium / 12) 2;
     base_rate := base_rate;
     risk_multiplier := py_round risk_multiplier 2;
     currency := "USD" |}.

End Pure.
(** Library calls and collaborators of one [assess_risk] call. *)
Record Env := {
  (** [json.loads(s)] and [json.dumps(v)] *)
  json_loads : string -> outcome pyval;
  json_dumps : pyval -> string;
  (** the three searches of [_extract_from_text]: the age as [int] of the
      first group, whether a smoking word occurs, the occupation group *)
  search_age : string -> option Z;
  search_smoking : string -> bool;
  search_occupation : string -> option string;
  (** [f"{v}"] *)
  format_value : pyval -> string;
  (** building the FinBERT pipeline in [_load_models] *)
  build_financial_pipeline : outcome unit;
  (** the profile text of [_analyze_financial_sentiment], given
      [len(claims_history)] *)
  financial_text : pydict -> nat -> string;
  (** [self._financial_analyzer(text)[0]]: label and score *)
  financial_analyzer : string -> outcome (string * Q);
  (** [datetime.now().month] and [datetime.utcnow().isoformat()] *)
  current_month : Z;
  utcnow_isoformat : string;
  (** embedding the query, [retrieve(..., k=3)] and joining [docs[0]] *)
  retrieve_context : string -> outcome string;
  (** the prompt of [_generate_detailed_assessment] and
      [generate_response(prompt)] *)
  assessment_prompt : pydict -> Q -> string -> outcome string;
  generate_response : string -> outcome string;
  (** the collaborators of the fraud ensemble *)
  fraud_env : Fraud.Env
}.

(** The singleton [risk_assessor] and the fraud singletons. *)
Record State := {
  models_loaded : bool;
  has_financial_analyzer : bool;
  fraud_state : Fraud.State
}.

Definition set_fraud_state (fs : Fraud.State) (st : State) : State :=
  {| models_loaded := models_loaded st;
     has_financial_analyzer := has_financial_analyzer st;
     fraud_state := fs |}.

Section Assessor.
Context (E : Env) (settings : Settings).

(** [_load_models]: a failure is logged and leaves the analyzer unset. *)
Definition _load_models (st : State) : State :=
  if models_loaded st then st
  else match build_financial_pipeline E with
       | Return _ =>
           {| models_loaded := true; has_financial_analyzer := true;
              fraud_state := fraud_state st |}
       | Raise _ =>
           {| models_loaded := false; has_financial_analyzer := false;
              fraud_state := fraud_state st |}
       end.

(** [_extract_from_text] *)
Definition _extract_from_text (text : string) : pydict :=
  let data : pydict := ∅ in
  let data :=
    match search_age E text with
    | Some n => <["age" := PNum (inject_Z n)]> data
    | None => data
    end in
  let data :=
    if search_smoking E text then <["smoking" := PBool true]> data
    else data in
  match search_occupation E text with
  | Some w => <["occupation" := PStr w]> data
  | None => data
  end.

(** [v.lower()] exists on strings only. *)
Definition py_lower (v : pyval) : outcome pyval :=
  match v with
  | PStr s => Return (PStr (str_lower s))
  | _ => Raise (Exn AttributeError "object has no attribute 'lower'")
  end.

(** [_parse_applicant_data] *)
Definition _parse_applicant_data (data : pyval) : outcome pydict :=
  let data :=
    match data with
    | PStr s =>
        match json_loads E s with
        | Return v => v
        | Raise _ => PDict (_extract_from_text s)
        end
    | _ => data
    end in
  d ← as_dict data;
  gender ← py_lower (dict_get d "gender" (PStr ""));
  occupation ← py_lower (dict_get d "occupation" (PStr ""));
  location ← py_lower (dict_get d "location" (PStr ""));
  mret (list_to_map [
    ("age", dict_get d "age" (PNum 0));
    ("gender", gender);
    ("occupation", occupation);
    ("location", location);
    ("health_status", dict_get d "health_status" (PStr "unknown"));
    ("smoking", dict_get d "smoking" (PBool false));
    ("credit_score", dict_get d "credit_score" (PNum 650));
    ("claims_history", dict_get d "claims_history" (PList []));
    ("coverage_years", dict_get d "coverage_years" (PNum 0))
  ] : pydict).

(** [_calculate_base_risk_score] *)
Definition _calculate_base_risk_score (data : pydict) (policy_type : string)
  : outcome BaseScore :=
  let acc : Q * list string := (50%Q, []) in
  let age_v := dict_get data "age" (PNum 0) in
  age ← num_of age_v;
  let acc :=
    if Qltb 0 age && (Qltb age 25 || Qltb 55 age) then
      let age_penalty := (Qabs (age - (25 + 55) / 2) * 0.3)%Q in
      ((acc.1 + py_min age_penalty 15)%Q,
       acc.2 ++ ["Age (" +:+ format_value E age_v
                 +:+ ") outside optimal range"])
    else acc in
  let occupation := dict_get data "occupation" (PStr "") in
  let acc :=
    if existsb (eq_str occupation) ["construction"; "mining"; "logging"]
    then ((acc.1 + 10)%Q,
          acc.2 ++ ["High-risk occupation: " +:+ format_value E occupation])
    else acc in
  let acc :=
    if truthy (dict_get data "smoking" PNone)
    then ((acc.1 * 2)%Q,
          acc.2 ++ ["Smoking status (risk multiplier: 2.0x)"])
    else acc in
  let claims := dict_get data "claims_history" (PList []) in
  acc ← (if truthy claims then
           n ← py_len claims;
           let claims_penalty := inject_Z (Z.of_nat n * 5) in
           mret ((acc.1 + py_min claims_penalty 20)%Q,
                 acc.2 ++ [format_value E (nat_val n)
                           +:+ " previous claims on record"])
         else mret acc);
  let credit_v := dict_get data "credit_score" (PNum 650) in
  credit ← num_of credit_v;
  let acc :=
    if Qltb credit 600 then
      ((acc.1 + 15)%Q,
       acc.2 ++ ["Low credit score (" +:+ format_value E credit_v +:+ ")"])
    else if Qltb 750 credit then
      ((acc.1 - 5)%Q,
       acc.2 ++ ["Excellent credit score (" +:+ format_value E credit_v
                 +:+ ")"])
    else acc in
  mret {| bs_score := Some (py_min (py_max acc.1 0) 100);
          bs_factors := Some acc.2 |}.

(** [_analyze_financial_sentiment] *)
Definition _analyze_financial_sentiment (st : State) (data : pydict)
  : outcome Adjustment :=
  try_except
    (if negb (has_financial_analyzer st) then
       mret {| risk_adjustment := Some 0%Q; adj_factors := None;
               financial_sentiment := None; adj_confidence := None |}
     else
       n ← py_len (dict_get data "claims_history" (PList []));
       result ← financial_analyzer E (financial_text E data n);
       let adjustment :=
         if String.eqb result.1 "negative" then (result.2 * 10)%Q
         else if String.eqb result.1 "positive" then (- result.2 * 5)%Q
         else 0%Q in
       mret {| risk_adjustment := Some adjustment; adj_factors := None;
               financial_sentiment := Some result.1;
               adj_confidence := Some result.2 |})
    (fun e =>
       Return {| risk_adjustment := Some 0%Q; adj_factors := None;
                 financial_sentiment := None; adj_confidence := None |}).

(** One turn of the loop over [high_risk_keywords]. *)
Definition keyword_step (location : string) (acc : Q * list string)
  (keyword : string) : Q * list string :=
  if contains keyword location
  then ((acc.1 + 5)%Q,
        acc.2 ++ ["High-risk location: " +:+ keyword +:+ " zone"])
  else acc.

(** [_assess_external_factors] *)
Definition _assess_external_factors (data : pydict) : outcome Adjustment :=
  loc ← py_lower (dict_get data "location" (PStr ""));
  let location := match loc with PStr s => s | _ => "" end in
  let acc :=
    foldl (keyword_step location) (0%Q, [])
      ["coastal"; "flood"; "seismic"; "hurricane"; "tornado"] in
  let acc :=
    if bool_decide (current_month E ∈ [6; 7; 8; 9]%Z)
       && (contains "coastal" location || contains "florida" location)
    then ((acc.1 + 3)%Q, acc.2 ++ ["Hurricane season - coastal area"])
    else acc in
  mret {| risk_adjustment := Some acc.1; adj_factors := Some acc.2;
          financial_sentiment := None; adj_confidence := None |}.

(** [_retrieve_policy_context] *)
Definition _retrieve_policy_context (policy_type : string) : outcome string :=
  try_except
    (retrieve_context E
       ("Underwriting guidelines for " +:+ policy_type +:+ " insurance"))
    (fun e => Return "").

(** [_generate_recommendations] *)
Definition _generate_recommendations (risk_score : Q) (data : pydict)
  : outcome (list string) :=
  let recs : list string := [] in
  let recs :=
    if truthy (dict_get data "smoking" PNone)
    then recs ++ ["Smoking cessation program can reduce premium by up to 30%"]
    else recs in
  credit ← num_of (dict_get data "credit_score" (PNum 650));
  let recs :=
    if Qltb credit 700
    then recs ++ ["Improving credit score can qualify for better rates"]
    else recs in
  n ← py_len (dict_get data "claims_history" (PList []));
  let recs :=
    if (2 <? n)%nat
    then recs ++ ["Consider higher deductible to lower premium"]
    else recs in
  let recs :=
    if Qltb 70 risk_score
    then recs ++
         ["Additional medical examination may improve risk assessment"]
    else recs in
  mret (match recs with
        | [] => ["Maintain current health and financial status for continued favorable rates"]
        | _ => recs
        end).

(** [_generate_detailed_assessment] *)
Definition _generate_detailed_assessment (data : pydict) (risk_score : Q)
  (policy_context : string) (enable_explainability : bool) : outcome string :=
  if negb enable_explainability then mret ""
  else
    try_except
      (prompt ← assessment_prompt E data risk_score policy_context;
       generate_response E prompt)
      (fun e => Return "Detailed assessment unavailable").

(** [_check_compliance] *)
Definition _check_compliance (data : pydict) (policy_type : string)
  : outcome Compliance :=
  age ← num_of (dict_get data "age" (PNum 0));
  let issues :=
    if Qltb age 18 then ["Applicant under minimum age (18)"] else [] in
  let warnings :=
    if Qltb 80 age && String.eqb policy_type "life"
    then ["Age exceeds typical underwriting guidelines for life insurance"]
    else [] in
  let warnings :=
    if negb (truthy (dict_get data "gender" PNone))
       || negb (truthy (dict_get data "age" PNone))
    then warnings ++ ["Incomplete demographic data may impact compliance"]
    else warnings in
  mret {| compliant := match issues with [] => true | _ => false end;
          issues := issues;
          warnings := warnings;
          regulations_checked := ["ACA"; "HIPAA"; "State Insurance Codes"] |}.

(** The signature of the recursive call
    [self.assess_risk(modified_data, policy_type, enable_fraud_check=False,
    enable_explainability=False)]. *)
Definition nested_call : Type :=
  State -> pyval -> string -> outcome RiskAssessment * State.

(** [_run_scenario_analysis] *)
Definition _run_scenario_analysis (nested : nested_call) (st : State)
  (data : pydict) (policy_type : string)
  : outcome (list (string * Scenario)) * State :=
  let first : outcome (list (string * Scenario)) * State :=
    if truthy (dict_get data "smoking" PNone) then
      let modified_data := <["smoking" := PBool false]> data in
      let r := nested st (PDict modified_data) policy_type in
      (no_smoking_result ← r.1;
       age ← num_of (dict_get data "age" (PNum 50));
       mret [("smoking_cessation",
              SmokingCessation (risk_score no_smoking_result - age)%Q
                "Up to 30% reduction")],
       r.2)
    else (mret [], st) in
  (scenarios ← first.1;
   current_credit ← num_of (dict_get data "credit_score" (PNum 650));
   if Qltb current_credit 750
   then mret (scenarios ++
              [("credit_improvement",
                CreditImprovement 750 "5-10% premium reduction")])
   else mret scenarios,
   first.2).

(** The dict returned when the fraud check flags the application. *)
Definition fraud_rejection (fraud_result : Fraud.FraudAssessment)
  : RiskAssessment := {|
  risk_score := 100;
  decision := "REJECT";
  reason := Some "Application flagged for potential fraud";
  recommendation := Some "Escalate to fraud investigation unit";
  fraud_details := Some fraud_result;
  error := None; confidence := None; premium_estimate := None;
  policy_type_echo := None; coverage_amount_echo := None;
  risk_breakdown := None; risk_factors := None; recommendations := None;
  detailed_assessment := None; timestamp := None; compliance := None;
  scenario_analysis := None
|}.

(** The dict returned by the [except Exception as e] block. *)
Definition fallback (e : exn) : RiskAssessment := {|
  risk_score := 50;
  decision := "MANUAL_REVIEW";
  reason := Some ("Error in automated assessment: " +:+ exn_msg e);
  recommendation := Some "Requires manual underwriting review";
  fraud_details := None;
  error := Some (exn_msg e);
  confidence := None; premium_estimate := None;
  policy_type_echo := None; coverage_amount_echo := None;
  risk_breakdown := None; risk_factors := None; recommendations := None;
  detailed_assessment := None; timestamp := None; compliance := None;
  scenario_analysis := None
|}.

(** [coverage_amount or 100000] *)
Definition coverage_or_default (coverage_amount : option Q) : Q :=
  match coverage_amount with
  | Some c => if Qeq_bool c 0 then 100000%Q else c
  | None => 100000%Q
  end.

(** The [try] block of [assess_risk] past the fraud check: scoring,
    decision, premium and the assembly of the result. *)
Definition assess_risk_score (nested : nested_call) (st : State)
  (structured_data : pydict) (policy_type : string)
  (coverage_amount : option Q) (enable_explainability : bool)
  (base_score : BaseScore) (financial_analysis external_factors : Adjustment)
  (policy_context : string) (fraud_result : option Fraud.FraudAssessment)
  : outcome RiskAssessment * State :=
  let final_score :=
    _aggregate_risk_score base_score financial_analysis
      external_factors fraud_result in
  let verdict := _make_underwriting_decision settings final_score in
  let premium :=
    _calculate_premium final_score
      (coverage_or_default coverage_amount) policy_type in
  match _generate_detailed_assessment structured_data final_score
          policy_context enable_explainability with
  | Raise e => (Raise e, st)
  | Return detailed =>
      match _generate_recommendations final_score structured_data with
      | Raise e => (Raise e, st)
      | Return recs =>
          match _check_compliance structured_data policy_type with
          | Raise e => (Raise e, st)
          | Return comp =>
              let result scen := {|
                risk_score := py_round final_score 2;
                decision := verdict.1;
                reason := None; recommendation := None;
                fraud_details := None; error := None;
                confidence := Some verdict.2;
                premium_estimate := Some premium;
                policy_type_echo := Some policy_type;
                coverage_amount_echo := Some coverage_amount;
                risk_breakdown := Some {|
                  base_risk := default 50%Q (bs_score base_score);
                  financial_risk :=
                    default 0%Q (risk_adjustment financial_analysis);
                  external_factors :=
                    default 0%Q (risk_adjustment external_factors);
                  fraud_risk :=
                    from_option Fraud.fraud_score 0%Q fraud_result |};
                risk_factors := Some (default [] (bs_factors base_score));
                recommendations := Some recs;
                detailed_assessment := Some detailed;
                timestamp := Some (utcnow_isoformat E);
                compliance := Some comp;
                scenario_analysis := scen |} in
              if enable_explainability then
                let s := _run_scenario_analysis nested st
                           structured_data policy_type in
                (scenarios ← s.1; mret (result (Some scenarios)), s.2)
              else (Return (result None), st)
          end
      end
  end.

(** The [try] block of [assess_risk]. *)
Definition assess_risk_try (nested : nested_call) (st : State)
  (applicant_data : pyval) (policy_type : string)
  (coverage_amount : option Q)
  (enable_fraud_check enable_explainability : bool)
  : outcome RiskAssessment * State :=
  match _parse_applicant_data applicant_data with
  | Raise e => (Raise e, st)
  | Return structured_data =>
      let r0 := _calculate_base_risk_score structured_data policy_type in
      let r1 := _analyze_financial_sentiment st structured_data in
      let r2 := _assess_external_factors structured_data in
      let r3 := _retrieve_policy_context policy_type in
      let r4 :=
        if enable_fraud_check then
          let fraud_text := json_dumps E applicant_data in
          let r := Fraud.detect_fraud (fraud_env E) settings (fraud_state st)
                     fraud_text (Some structured_data) false in
          (Some r.1, set_fraud_state r.2 st)
        else (None, st) in
      let st := r4.2 in
      let base_score :=
        match r0 with
        | Return b => b
        | Raise _ => {| bs_score := Some 50%Q; bs_factors := None |}
        end in
      let financial_analysis :=
        match r1 with Return a => a | Raise _ => empty_adjustment end in
      let external_factors :=
        match r2 with Return a => a | Raise _ => empty_adjustment end in
      let policy_context := match r3 with Return c => c | Raise _ => "" end in
      let fraud_result :=
        match r4.1 with Some (Return f) => Some f | _ => None end in
      match fraud_result with
      | Some f =>
          if Fraud.is_suspicious f then (Return (fraud_rejection f), st)
          else assess_risk_score nested st structured_data policy_type
                 coverage_amount enable_explainability base_score
                 financial_analysis external_factors policy_context
                 fraud_result
      | None =>
          assess_risk_score nested st structured_data policy_type
            coverage_amount enable_explainability base_score
            financial_analysis external_factors policy_context fraud_result
      end
  end.

(** [AdvancedRiskAssessor.assess_risk], the recursive call abstracted. *)
Definition assess_risk_with (nested : nested_call) (st : State)
  (applicant_data : pyval) (policy_type : string)
  (coverage_amount : option Q)
  (enable_fraud_check enable_explainability : bool)
  : outcome RiskAssessment * State :=
  let st := _load_models st in
  let r := assess_risk_try nested st applicant_data policy_type
             coverage_amount enable_fraud_check enable_explainability in
  (try_except r.1 (fun e => Return (fallback e)), r.2).

End Assessor.

(** The recursive call is made with [enable_explainability=False], and
    such a call makes no further recursive call. *)
Definition no_nested_call : nested_call :=
  fun st _ _ => (Raise (Exn RuntimeError "no recursive call"), st).

(** The recursive call of the scenario analysis, answered by the
    collaborators [E']. *)
Definition nested_assess_risk (E' : Env) (settings : Settings) : nested_call :=
  fun st modified_data policy_type =>
    assess_risk_with E' settings no_nested_call st modified_data policy_type
      None false false.

(** [assess_risk]: [E] answers the call itself, [E'] the recursive call
    of the scenario analysis. *)
Definition assess_risk (E E' : Env) (settings : Settings) (st : State)
  (applicant_data : pyval) (policy_type : string)
  (coverage_amount : option Q)
  (enable_fraud_check enable_explainability : bool)
  : outcome RiskAssessment * State :=
  assess_risk_with E settings (nested_assess_risk E' settings)
    st applicant_data policy_type coverage_amount
    enable_fraud_check enable_explainability.

Definition initial_state (redis : bool) : State := {|
  models_loaded := false;
  has_financial_analyzer := false;
  fraud_state := Fraud.initial_state redis
|}.

End Risk.

(** ** Claims adjudicator ([app/routes/claim.py]) *)

Module Claim.
Import Py Config.

(** [ClaimRequest] ([app/schemas/claim_schema.py]) *)
Record ClaimRequest := {
  claim_description : option string;
  incident_date : option string;
  incident_location : option string;
  claim_amount : option Q;
  policy_number : option string;
  claimant_name : option string;
  submitted_documents : option (list string);
  contact_email : option string;
  contact_phone : option string;
  query : option string
}.

(** [ClaimResponse(result=...)] *)
Record ClaimResponse := { result : pydict }.

(** Library calls and collaborators of one request. *)
Record Env := {
  fraud_env : Fraud.Env;
  (** [llm_service.generate_embeddings(texts)] *)
  generate_embeddings : list string -> outcome (list (list Q));
  (** [retrieve(embedding)] of the RAG service, which never raises *)
  retrieve : list Q -> list (list string);
  (** [get_claim_prompt(context, claim_data)] *)
  get_claim_prompt : string -> ClaimRequest -> string;
  (** [generate_response_async(prompt, temperature=0.1)] *)
  generate_response_async : string -> outcome string;
  (** [json.loads(text)] *)
  json_loads : string -> outcome pyval;
  (** [f"{x:.3f}"] and [f"{v}"] *)
  format_3f : Q -> string;
  format_value : pyval -> string
}.

(** The collaborators a run has called, in order. *)
Inductive Call :=
| DetectFraud (text : string)
| GenerateEmbeddings (texts : list string)
| Retrieve
| GenerateResponse (prompt : string).

(** What a request leaves behind: the response or the exception of the
    endpoint, the fraud singletons, and the calls made. *)
Record Run := {
  response : outcome ClaimResponse;
  final_state : Fraud.State;
  calls : list Call
}.

Definition nl : string := String (ascii_of_nat 10) EmptyString.

Definition str_list (l : list string) : pyval := PList (PStr <$> l).

(** [a or b] on optional strings, the empty string being false. *)
Definition str_or (a : option string) (b : string) : string :=
  match a with
  | Some s => if String.eqb s "" then b else s
  | None => b
  end.

(** The looped items of [for d in v]. *)
Definition py_iter (v : pyval) : outcome (list pyval) :=
  match v with
  | PList l => Return l
  | PStr s => Return (chars s)
  | PDict d => Return (PStr <$> (map_to_list d).*1)
  | _ => Raise (Exn TypeError "object is not iterable")
  end.

Section Endpoint.
Context (E : Env) (settings : Settings).

(** One turn of the loop over the fences in [_clean_json]. *)
Definition strip_fence (text fence : string) : string :=
  if startswith fence text then str_drop (String.length fence) text
  else text.

(** [_clean_json] *)
Definition _clean_json (raw : string) : outcome pyval :=
  let text := str_strip raw in
  let text := foldl strip_fence text ["```json"; "```"] in
  let text := if endswith "```" text then str_drop_end 3 text else text in
  let text := str_strip text in
  json_loads E text.

(** [_build_under_investigation_response] *)
Definition _build_under_investigation_response
  (fraud_result : Fraud.FraudAssessment) (claim_data : ClaimRequest)
  : pydict :=
  list_to_map [
    ("verdict", PStr "UNDER_INVESTIGATION");
    ("coverage_applicable", PBool false);
    ("fraud_risk", PStr "HIGH");
    ("fraud_score", PNum (py_round (Fraud.fraud_score fraud_result) 3));
    ("missing_documents", PList []);
    ("fraud_signals_found", str_list (Fraud.indicators fraud_result));
    ("reason", PStr
       ("Our automated fraud detection system identified one or more high-risk signals "
        +:+ "in this claim submission. In keeping with company policy and regulatory "
        +:+ "obligations, this claim has been escalated to a senior claims investigator "
        +:+ "for manual review."));
    ("claimant_message", PStr
       ("Dear Claimant," +:+ nl +:+ nl
        +:+ "Thank you for submitting your claim. Our system has flagged certain aspects "
        +:+ "of this submission for further review by our specialist claims team. A "
        +:+ "dedicated investigator will contact you within 2–3 business days."
        +:+ nl +:+ nl
        +:+ "You are welcome to re-submit with additional supporting documentation at "
        +:+ "any time. We appreciate your patience and understanding."
        +:+ nl +:+ nl
        +:+ "Warm regards," +:+ nl +:+ "PolicyGenie Claims Department"));
    ("required_documents_checklist", str_list [
       "Government-issued photo ID";
       "Original policy certificate";
       "Incident report / police report";
       "Two independent witness statements";
       "Photographs of damage / evidence";
       "Itemised cost estimate or receipts"]);
    ("estimated_coverage_amount", PNum 0);
    ("policy_references", PList []);
    ("next_steps", str_list [
       "A senior claims investigator will contact you within 2–3 business days.";
       "Gather all supporting documents and keep them ready.";
       "Do not repair or dispose of damaged items until the investigation is complete.";
       "You may re-submit with additional evidence at any time via this portal."]);
    ("internal_notes", PStr
       ("ML fraud score: " +:+ format_3f E (Fraud.fraud_score fraud_result)
        +:+ ". Signals: "
        +:+ format_value E (str_list (Fraud.indicators fraud_result))
        +:+ ". Requires manual investigation before any payment."))
  ].

(** The guard shared by the two enrichment functions:
    [not result.get("claimant_message") or
     len(result.get("claimant_message", "")) < 30] *)
Definition lacks_message (result : pydict) : outcome bool :=
  if negb (truthy (dict_get result "claimant_message" PNone)) then mret true
  else
    n ← py_len (dict_get result "claimant_message" (PStr ""));
    mret (n <? 30)%nat.

(** [_enrich_pending_response] *)
Definition _enrich_pending_response (result : pydict) : outcome pydict :=
  let missing := dict_get result "missing_documents" (PList []) in
  lacking ← lacks_message result;
  if (lacking : bool) then
    missing_list ←
      (if truthy missing then
         items ← py_iter missing;
         mret (join nl ((fun d => "  • " +:+ format_value E d) <$> items))
       else mret "  • See required documents checklist below");
    mret (<["claimant_message" := PStr
      ("Dear Claimant," +:+ nl +:+ nl
       +:+ "Thank you for reaching out to us. Your claim appears to be largely valid "
       +:+ "and we genuinely want to help you through this process." +:+ nl +:+ nl
       +:+ "However, we are unable to proceed to approval at this stage because the "
       +:+ "following required document(s) have not been submitted:" +:+ nl +:+ nl
       +:+ missing_list +:+ nl +:+ nl
       +:+ "Please gather these documents and re-submit your claim through this portal. "
       +:+ "Once we receive the complete documentation, your claim will be processed "
       +:+ "as a priority." +:+ nl +:+ nl
       +:+ "We are here to support you — please don't hesitate to contact our "
       +:+ "helpline if you need assistance obtaining any of these documents."
       +:+ nl +:+ nl
       +:+ "Warm regards," +:+ nl +:+ "PolicyGenie Claims Department")]> result)
  else mret result.

(** [_enrich_rejected_response] *)
Definition _enrich_rejected_response (result : pydict) : outcome pydict :=
  lacking ← lacks_message result;
  if (lacking : bool) then
    let reason :=
      dict_get result "reason"
        (PStr "The incident does not fall within the covered perils of your policy.") in
    mret (<["claimant_message" := PStr
      ("Dear Claimant," +:+ nl +:+ nl
       +:+ "Thank you for submitting your claim. After careful review against your "
       +:+ "policy terms and conditions, we regret to inform you that this claim "
       +:+ "cannot be approved at this time." +:+ nl +:+ nl
       +:+ "Reason: " +:+ format_value E reason +:+ nl +:+ nl
       +:+ "If you believe this decision is incorrect or if you have additional "
       +:+ "information that may change the outcome, you have the right to appeal "
       +:+ "within 30 days by contacting our disputes resolution team." +:+ nl +:+ nl
       +:+ "We value your trust in PolicyGenie and remain committed to serving you."
       +:+ nl +:+ nl
       +:+ "Warm regards," +:+ nl +:+ "PolicyGenie Claims Department")]> result)
  else mret result.

Definition empty_verification : pyval :=
  PDict (list_to_map [
    ("declared_and_verified", PList []);
    ("declared_but_unverified", PList []);
    ("missing", PList [])]).

(** STAGE D, the [except (json.JSONDecodeError, ValueError)] block: the
    result that stands in for a reply that does not parse. *)
Definition parse_fallback (fraud_score : Q) (parse_err : exn) (raw : string)
  : pydict :=
  list_to_map [
    ("verdict", PStr "UNDER_INVESTIGATION");
    ("coverage_applicable", PBool false);
    ("fraud_risk", PStr "MEDIUM");
    ("fraud_score", PNum fraud_score);
    ("document_verification", empty_verification);
    ("document_guidance", PList []);
    ("missing_documents", PList []);
    ("fraud_signals_found",
     str_list ["System could not fully evaluate the claim narrative"]);
    ("reason",
     PStr "Claim routed for manual review due to a processing anomaly.");
    ("claimant_message", PStr
       ("Dear Claimant," +:+ nl +:+ nl
        +:+ "Your claim is being reviewed by our team. "
        +:+ "We will contact you within 2–3 business days." +:+ nl +:+ nl
        +:+ "Warm regards," +:+ nl +:+ "PolicyGenie Claims Department"));
    ("required_documents_checklist",
     str_list ["Incident report"; "Photo evidence"; "Policy certificate"]);
    ("estimated_coverage_amount", PNum 0);
    ("policy_references", PList []);
    ("next_steps", str_list
       ["Await contact from a claims representative within 2–3 business days."]);
    ("internal_notes", PStr
       ("LLM parse error: " +:+ exn_msg parse_err +:+ ". Raw: "
        +:+ str_take 200 raw))
  ].

(** STAGE D *)
Definition parse_result (fraud_score : Q) (raw : string) : outcome pyval :=
  try_except (_clean_json raw)
    (fun parse_err =>
       match exn_class parse_err with
       | JSONDecodeError | ValueError =>
           Return (PDict (parse_fallback fraud_score parse_err raw))
       | _ => Raise parse_err
       end).

(** STAGE E.  A decoded value that is no dict raises here in the model;
    in the source it raises at the item assignment of this stage or, when
    both membership tests happen to pass, at the first [result.get] of
    stage F or G.  No collaborator is called in between. *)
Definition ensure_keys (result : pyval) : outcome pydict :=
  match result with
  | PDict d =>
      let d :=
        if bool_decide (is_Some (d !! "document_verification")) then d
        else <["document_verification" := empty_verification]> d in
      let d :=
        if bool_decide (is_Some (d !! "document_guidance")) then d
        else <["document_guidance" := PList []]> d in
      Return d
  | _ => Raise (Exn TypeError "result is not a dict")
  end.

(** STAGE F: the ML fraud override. *)
Definition fraud_override (fraud_score : Q) (result : pydict)
  : outcome pydict :=
  if Qleb 0.65 fraud_score
     && eq_str (dict_get result "verdict" PNone) "APPROVED"
  then
    let result := <["verdict" := PStr "UNDER_INVESTIGATION"]> result in
    let result := <["fraud_risk" := PStr "HIGH"]> result in
    let result := <["fraud_score" := PNum fraud_score]> result in
    notes ← py_add
      (PStr ("LLM overridden: ML=" +:+ format_3f E fraud_score +:+ ". "))
      (dict_get result "internal_notes" (PStr ""));
    mret (<["internal_notes" := notes]> result)
  else mret result.

(** The list [all_insufficient] of STAGE G. *)
Definition all_insufficient (result : pydict) : outcome (list pyval) :=
  doc_ver ← as_dict (dict_get result "document_verification" (PDict ∅));
  let unverif := dict_get doc_ver "declared_but_unverified" (PList []) in
  let missing := dict_get doc_ver "missing" (PList []) in
  merged ← py_add (dict_get result "missing_documents" (PList [])) unverif;
  merged ← py_add merged missing;
  list_fromkeys merged.

(** STAGE G: the pending-documents override. *)
Definition pending_override (result : pydict) : outcome pydict :=
  insufficient ← all_insufficient result;
  let result := <["missing_documents" := PList insufficient]> result in
  if truthy (PList insufficient)
     && eq_str (dict_get result "verdict" PNone) "APPROVED"
  then mret (<["verdict" := PStr "PENDING_DOCUMENTS"]> result)
  else mret result.

(** STAGE I: the messages. *)
Definition enrich (result : pydict) : outcome pydict :=
  let verdict := dict_get result "verdict" (PStr "UNDER_INVESTIGATION") in
  if eq_str verdict "PENDING_DOCUMENTS" then _enrich_pending_response result
  else if eq_str verdict "REJECTED" then _enrich_rejected_response result
  else mret result.

(** [result["fraud_score"] = round(max(fraud_score, result.get("fraud_score", 0.0)), 3)] *)
Definition report_fraud_score (fraud_score : Q) (result : pydict)
  : outcome pydict :=
  reported ← num_of (dict_get result "fraud_score" (PNum 0));
  mret (<["fraud_score" := PNum (py_round (py_max fraud_score reported) 3)]>
          result).

(** STAGES E to I and the reported score: everything after the parse. *)
Definition override_checks (fraud_score : Q) (submitted_docs : list string)
  (parsed : pyval) : outcome pydict :=
  result ← ensure_keys parsed;
  result ← fraud_override fraud_score result;
  result ← pending_override result;
  let result := <["submitted_documents_echo" := str_list submitted_docs]>
                  result in
  result ← enrich result;
  report_fraud_score fraud_score result.

(** [except HTTPException: raise] and
    [except Exception as e: raise HTTPException(500, ...)] *)
Definition to_http (e : exn) : exn :=
  match exn_class e with
  | HTTPException _ => e
  | _ => Exn (HTTPException 500) ("Claims processing failed: " +:+ exn_msg e)
  end.

(** STAGE B: the policy context, empty when retrieval fails. *)
Definition retrieve_context (text_for_fraud : string) : string * list Call :=
  match generate_embeddings E [text_for_fraud] with
  | Raise _ => ("", [GenerateEmbeddings [text_for_fraud]])
  | Return embeddings =>
      match embeddings with
      | [] => ("", [GenerateEmbeddings [text_for_fraud]])
      | first :: _ =>
          let docs := retrieve E first in
          (match docs with
           | [] => ""
           | d0 :: _ =>
               match d0 with [] => "" | _ => join (nl +:+ nl) d0 end
           end,
           [GenerateEmbeddings [text_for_fraud]; Retrieve])
      end
  end.

(** [request.claim_description or request.query or ""] *)
Definition text_for_fraud (request : ClaimRequest) : string :=
  str_or (claim_description request) (str_or (query request) "").

(** [request.submitted_documents or []] *)
Definition submitted_docs (request : ClaimRequest) : list string :=
  default [] (submitted_documents request).

(** [claim_data]: the dumped request with the submitted documents set. *)
Definition claim_data (request : ClaimRequest) : ClaimRequest := {|
  claim_description := claim_description request;
  incident_date := incident_date request;
  incident_location := incident_location request;
  claim_amount := claim_amount request;
  policy_number := policy_number request;
  claimant_name := claimant_name request;
  submitted_documents := Some (submitted_docs request);
  contact_email := contact_email request;
  contact_phone := contact_phone request;
  query := query request
|}.

(** The prompt of STAGE C, built on the context of STAGE B. *)
Definition claim_prompt (request : ClaimRequest) : string :=
  get_claim_prompt E (retrieve_context (text_for_fraud request)).1
    (claim_data request).

(** STAGES B to I, run when the pre-filter has not flagged the claim. *)
Definition adjudicate (st : Fraud.State) (request : ClaimRequest)
  (fraud_score : Q) (calls : list Call) : Run :=
  (* STAGE B *)
  let rag := retrieve_context (text_for_fraud request) in
  let calls := calls ++ rag.2 in
  (* STAGE C *)
  let prompt := claim_prompt request in
  let calls := calls ++ [GenerateResponse prompt] in
  match generate_response_async E prompt with
  | Raise e =>
      {| response := Raise (to_http e); final_state := st; calls := calls |}
  | Return raw =>
      (* STAGES D to I *)
      let final :=
        parsed ← parse_result fraud_score raw;
        override_checks fraud_score (submitted_docs request) parsed in
      {| response :=
           match final with
           | Return r => Return {| result := r |}
           | Raise e => Raise (to_http e)
           end;
         final_state := st; calls := calls |}
  end.

(** [process_claim_endpoint] *)
Definition process_claim_endpoint (st : Fraud.State) (request : ClaimRequest)
  : Run :=
  if String.eqb (str_strip (text_for_fraud request)) "" then
    {| response :=
         Raise (Exn (HTTPException 400) "claim_description cannot be empty.");
       final_state := st; calls := [] |}
  else
    (* STAGE A *)
    let fr := Fraud.detect_fraud (fraud_env E) settings st
                (text_for_fraud request) None false in
    let calls := [DetectFraud (text_for_fraud request)] in
    match fr.1 with
    | Raise e =>
        {| response := Raise (to_http e); final_state := fr.2;
           calls := calls |}
    | Return fraud_result =>
        if Fraud.is_suspicious fraud_result then
          {| response := Return {| result :=
               _build_under_investigation_response fraud_result
                 (claim_data request) |};
             final_state := fr.2; calls := calls |}
        else
          adjudicate fr.2 request (Fraud.fraud_score fraud_result) calls
    end.

End Endpoint.
End Claim.

(** ** The specification's wording of composite rules *)

Module SpecWords.
Import Py Config.

(** The decision ladder as the specification words it: guarded rules in
    order, the first rule whose guard holds decides. *)
Definition ladder_rules (s : Settings) (score : Q) : list (bool * string) :=
  [(Qleb score (inject_Z (auto_approve_threshold s)), "APPROVE");
   (Qleb (inject_Z (auto_reject_threshold s)) score, "REJECT");
   (Qleb (inject_Z (requires_human_review_min s)) score
    && Qleb score (inject_Z (requires_human_review_max s)), "MANUAL_REVIEW");
   (Qltb score (inject_Z (requires_human_review_min s)), "APPROVE")].

Fixpoint first_match (rules : list (bool * string)) (otherwise : string)
  : string :=
  match rules with
  | [] => otherwise
  | (guard, verdict) :: rest =>
      if guard then verdict else first_match rest otherwise
  end.

Definition ladder (s : Settings) (score : Q) : string :=
  first_match (ladder_rules s score) "REJECT".

Definition decide_for (s : Settings) (score : Q) : string :=
  (Risk._make_underwriting_decision s score).1.



Definition unit_interval (x : Q) : Prop := (0 <= x <= 1)%Q.
Definition percent (x : Q) : Prop := (0 <= x <= 100)%Q.

(** The interface contract of the classification collaborator: the score
    of a label is a probability. *)
Definition classifier_sound (E : Fraud.Env) : Prop :=
  forall text label sc,
    Fraud.fraud_classifier E text = Return (label, sc) -> unit_interval sc.

(** The weighted average of the specification,
    [sum(score_i * weight_i) / sum(weight_i)], over score-weight pairs. *)
Definition weighted_average (pairs : list (Q * Q)) : Q :=
  (foldr Qplus 0 ((fun p => p.1 * p.2) <$> pairs)
   / foldr Qplus 0 (snd <$> pairs))%Q.

(** Every cached assessment, in either tier, carries a score in [0,1]. *)
Definition sound_map (m : gmap string Fraud.FraudAssessment) : Prop :=
  map_Forall (fun _ v => unit_interval (Fraud.fraud_score v)) m.

Definition cache_sound (st : Fraud.State) : Prop :=
  sound_map (Fraud.memory_cache st) /\ sound_map (Fraud.redis_store st).

(** The states of the fraud singletons a process can be in: the state at
    start-up, and the state any [detect_fraud] call leaves behind. *)
Inductive reachable (settings : Settings) : Fraud.State -> Prop :=
| reachable_initial (redis : bool) :
    reachable settings (Fraud.initial_state redis)
| reachable_call (E : Fraud.Env) (st : Fraud.State) (text : string)
    (metadata : option pydict) (enable_shap : bool) :
    reachable settings st ->
    classifier_sound E ->
    reachable settings
      (Fraud.detect_fraud E settings st text metadata enable_shap).2.

(** The override rules of the adjudicator in the order of the
    specification: an approval is replaced by an investigation when the
    pre-filter score is at least 0.65, else by a request for documents
    when the insufficiency list is not empty; any other verdict stands. *)
Definition is_approved (verdict : option pyval) : bool :=
  match verdict with
  | Some v => eq_str v "APPROVED"
  | None => false
  end.

Definition overridden_verdict (fraud_score : Q) (verdict : option pyval)
  (insufficient : list pyval) : option pyval :=
  if is_approved verdict then
    if Qleb 0.65 fraud_score then Some (PStr "UNDER_INVESTIGATION")
    else match insufficient with
         | [] => verdict
         | _ => Some (PStr "PENDING_DOCUMENTS")
         end
  else verdict.


End SpecWords.

(** ** Concrete collaborators and inputs *)

Module Scenarios.
Import Py Config.

(** A detector result with no indicators. *)
Definition scored (s : Q) : Fraud.DetectionResult :=
  {| Fraud.score := s; Fraud.dr_indicators := [] |}.

(** Fraud collaborators: every pattern search answers [matches], the two
    pipelines answer as given, the cache tiers are reachable and nothing
    has expired. *)
Definition fraud_env (matches : bool) (build : outcome unit)
  (classifier sentiment : string -> outcome (string * Q)) : Fraud.Env := {|
  Fraud.re_search := fun _ _ => matches;
  Fraud.re_findall := fun _ _ => [];
  Fraud.md5_hexdigest := fun text => text;
  Fraud.format_2f := fun _ => "0.00";
  Fraud.utcnow_isoformat := "2024-01-01T00:00:00";
  Fraud.build_pipelines := build;
  Fraud.fraud_classifier := classifier;
  Fraud.sentiment_analyzer := sentiment;
  Fraud.np_array := fun _ => Return ();
  Fraud.memory_expired := ∅;
  Fraud.redis_expired := ∅;
  Fraud.redis_get_fails := false;
  Fraud.redis_set_fails := false
|}.

Definition model_unavailable : exn := Exn RuntimeError "model unavailable".

(** Nothing looks like fraud: no pattern, label [LABEL_0] with
    confidence 0.9, a mildly positive tone. *)
Definition quiet_env : Fraud.Env :=
  fraud_env false (Return ())
    (fun _ => Return ("LABEL_0", 0.9%Q))
    (fun _ => Return ("POSITIVE", 0.6%Q)).

(** The classifier raises; the tone is extremely negative. *)
Definition broken_classifier_env : Fraud.Env :=
  fraud_env false (Return ())
    (fun _ => Raise model_unavailable)
    (fun _ => Return ("NEGATIVE", 0.99%Q)).

(** The pipelines cannot be built. *)
Definition unloadable_env : Fraud.Env :=
  fraud_env false (Raise model_unavailable)
    (fun _ => Return ("LABEL_0", 0.9%Q))
    (fun _ => Return ("POSITIVE", 0.6%Q)).

(** Everything looks like fraud: all patterns match, label [FRAUD] with
    confidence 1, an extremely negative tone.  On a short narrative the
    ensemble score is [0.2*1 + 0.4*1 + 0.2*0.3 + 0.2*0 = 0.66]. *)
Definition alarming_env : Fraud.Env :=
  fraud_env true (Return ())
    (fun _ => Return ("FRAUD", 1%Q))
    (fun _ => Return ("NEGATIVE", 0.99%Q)).

Definition narrative : string := "My car was hit in the parking lot".

(** A narrative that each of the six fraud patterns matches. *)
Definition alarming_narrative : string :=
  "fake urgent claim: multiple claims, $5000 cash, prior damage, witness lost".

(** What [asyncio.gather] would return had every detector raised. *)
Definition all_failed : list (outcome Fraud.DetectionResult) :=
  [Raise model_unavailable; Raise model_unavailable;
   Raise model_unavailable; Raise model_unavailable].

(** Settings whose suspicion threshold is lowered to 0.5. *)
Definition strict_settings : Settings := {|
  cache_ttl := 3600;
  fraud_threshold := 0.5;
  auto_approve_threshold := 30;
  auto_reject_threshold := 85;
  requires_human_review_min := 70;
  requires_human_review_max := 85
|}.

(** Risk collaborators around given fraud collaborators: strings that are
    no JSON, a neutral financial tone, no policy context. *)
Definition risk_env (fe : Fraud.Env) : Risk.Env := {|
  Risk.json_loads := fun _ => Raise (Exn JSONDecodeError "Expecting value");
  Risk.json_dumps := fun _ => "applicant";
  Risk.search_age := fun _ => None;
  Risk.search_smoking := fun _ => false;
  Risk.search_occupation := fun _ => None;
  Risk.format_value := fun _ => "";
  Risk.build_financial_pipeline := Return ();
  Risk.financial_text := fun _ _ => "";
  Risk.financial_analyzer := fun _ => Return ("neutral", 0.8%Q);
  Risk.current_month := 1;
  Risk.utcnow_isoformat := "2024-01-01T00:00:00";
  Risk.retrieve_context := fun _ => Return "";
  Risk.assessment_prompt := fun _ _ _ => Return "";
  Risk.generate_response := fun _ => Return "Assessment.";
  Risk.fraud_env := fe
|}.

(** A well-formed applicant, and one whose gender is a number. *)
Definition applicant : pyval :=
  PDict (list_to_map [
    ("age", PNum 40); ("gender", PStr "F"); ("occupation", PStr "Teacher");
    ("smoking", PBool true); ("credit_score", PNum 720)]).

Definition malformed_applicant : pyval :=
  PDict (list_to_map [("age", PNum 40); ("gender", PNum 5)]).

(** A reply of the language model that approves the claim although a
    document is missing. *)
Definition approving_reply : pydict :=
  list_to_map [
    ("verdict", PStr "APPROVED");
    ("fraud_risk", PStr "LOW");
    ("fraud_score", PNum 0.1);
    ("missing_documents", PList [PStr "Police report"]);
    ("internal_notes", PStr "All checks passed.")].

(** Claim collaborators around given fraud collaborators: retrieval finds
    nothing, the language model answers [raw], which decodes to
    [decoded]. *)
Definition claim_env (fe : Fraud.Env) (raw : string) (decoded : outcome pyval)
  : Claim.Env := {|
  Claim.fraud_env := fe;
  Claim.generate_embeddings := fun _ => Return [[0%Q]];
  Claim.retrieve := fun _ => [];
  Claim.get_claim_prompt := fun context _ => context;
  Claim.generate_response_async := fun _ => Return raw;
  Claim.json_loads := fun _ => decoded;
  Claim.format_3f := fun _ => "0.000";
  Claim.format_value := fun _ => ""
|}.

Definition request : Claim.ClaimRequest := {|
  Claim.claim_description := Some narrative;
  Claim.incident_date := None;
  Claim.incident_location := None;
  Claim.claim_amount := Some 1200%Q;
  Claim.policy_number := None;
  Claim.claimant_name := None;
  Claim.submitted_documents := Some ["Photographs"];
  Claim.contact_email := None;
  Claim.contact_phone := None;
  Claim.query := None
|}.

(** A reply that rejects the claim. *)
Definition rejecting_reply : pydict :=
  list_to_map [
    ("verdict", PStr "REJECTED");
    ("fraud_risk", PStr "LOW");
    ("internal_notes", PStr "Not covered.")].

(** The document verification of a reply: one declared document could not
    be verified, one required document is missing. *)
Definition verification : pydict :=
  list_to_map [
    ("declared_but_unverified", PList [PStr "Photographs"]);
    ("missing", PList [PStr "Police report"])].

(** An approving reply that carries a document verification. *)
Definition verified_reply : pydict :=
  <["document_verification" := PDict verification]> approving_reply.

Definition alarming_request : Claim.ClaimRequest := {|
  Claim.claim_description := Some alarming_narrative;
  Claim.incident_date := None;
  Claim.incident_location := None;
  Claim.claim_amount := Some 5000%Q;
  Claim.policy_number := None;
  Claim.claimant_name := None;
  Claim.submitted_documents := Some ["Photographs"];
  Claim.contact_email := None;
  Claim.contact_phone := None;
  Claim.query := None
|}.

End Scenarios.

(** ** Cache manager ([app/core/cache_service.py]) *)

Module Cache.
Import Py.

(** Library calls and the behaviour of the two tiers during one call. *)
Record Env := {
  (** [json.dumps(value)] and [json.loads(value)] *)
  json_dumps : pyval -> outcome string;
  json_loads : string -> outcome pyval;
  (** keys the TTL and size policy of the [TTLCache] have dropped, and
      keys whose Redis expiry has passed, by the time of this call *)
  memory_expired : gset string;
  redis_expired : gset string;
  (** whether the Redis round trips of this call fail *)
  redis_get_fails : bool;
  redis_set_fails : bool;
  redis_delete_fails : bool;
  (** whether a key matches a glob pattern of [scan_iter] *)
  glob_match : string -> string -> bool;
  (** how [clear_namespace] fares in Redis: [None] when the scan and
      every deletion succeed, else the keys deleted before the failure *)
  redis_clear_stops : option (gset string)
}.

(** The singleton [cache_manager]: the [TTLCache], whether Redis is in
    use, and the Redis database, which holds serialized values. *)
Record State := {
  memory : gmap string pyval;
  redis_enabled : bool;
  redis : gmap string string
}.

(** [CacheManager()]: Redis is off until [initialize_redis] succeeds. *)
Definition initial_state : State :=
  {| memory := ∅; redis_enabled := false; redis := ∅ |}.

Definition set_memory (m : gmap string pyval) (st : State) : State :=
  {| memory := m; redis_enabled := redis_enabled st; redis := redis st |}.

Definition set_redis (m : gmap string string) (st : State) : State :=
  {| memory := memory st; redis_enabled := redis_enabled st; redis := m |}.

(** Entries still alive once the keys in [gone] have been dropped. *)
Definition live {V} (gone : gset string) (m : gmap string V)
  : gmap string V :=
  filter (fun kv => kv.1 ∉ gone) m.

(** [_generate_key] *)
Definition _generate_key (key namespace : string) : string :=
  namespace +:+ ":" +:+ key.

Section Manager.
Context (E : Env).

(** [get]: memory tier first, then Redis, whose hits are decoded and
    copied into the memory tier; a Redis error is logged and reads as a
    miss. *)
Definition get (st : State) (key namespace : string)
  : option pyval * State :=
  let cache_key := _generate_key key namespace in
  let mem := live (memory_expired E) (memory st) in
  let st := set_memory mem st in
  match mem !! cache_key with
  | Some v => (Some v, st)
  | None =>
      if redis_enabled st then
        if redis_get_fails E then (None, st)
        else
          let red := live (redis_expired E) (redis st) in
          let st := set_redis red st in
          match red !! cache_key with
          | Some value =>
              if String.eqb value "" then (None, st)
              else
                match json_loads E value with
                | Return deserialized =>
                    (Some deserialized,
                     set_memory (<[cache_key := deserialized]> mem) st)
                | Raise _ => (None, st)
                end
          | None => (None, st)
          end
      else (None, st)
  end.

(** [set]: the memory tier always, Redis when it is in use and the value
    serializes and the write succeeds. *)
Definition set (st : State) (key : string) (value : pyval)
  (namespace : string) : bool * State :=
  let cache_key := _generate_key key namespace in
  let st := set_memory (<[cache_key := value]> (memory st)) st in
  let st :=
    if redis_enabled st then
      match json_dumps E value with
      | Return serialized =>
          if redis_set_fails E then st
          else set_redis (<[cache_key := serialized]> (redis st)) st
      | Raise _ => st
      end
    else st in
  (true, st).

(** [delete]: a failure of the Redis deletion is logged only. *)
Definition delete (st : State) (key namespace : string) : bool * State :=
  let cache_key := _generate_key key namespace in
  let mem := live (memory_expired E) (memory st) in
  let st := set_memory (base.delete cache_key mem) st in
  let st :=
    if redis_enabled st && negb (redis_delete_fails E)
    then set_redis (base.delete cache_key (redis st)) st
    else st in
  (true, st).


(** [get_stats] *)
Definition get_stats (st : State) : nat * nat * bool :=
  (size (live (memory_expired E) (memory st)), 1000%nat, redis_enabled st).

End Manager.
End Cache.

(** ** Request validation ([app/schemas/claim_schema.py]) *)

Module Schema.
Import Py Claim.



End Schema.

(** ** What-if endpoint ([app/routes/whatif.py]) *)

Module WhatIf.
Import Py Config.

Record WhatIfRequest := {
  original_data : pydict;
  modified_data : pydict;
  policy_type : string
}.

(** The dict under ["changes"], with the two entries of its
    ["premium_delta"] side by side. *)
Record Changes := {
  risk_score_delta : Q;
  premium_delta_annual : Q;
  premium_delta_monthly : Q;
  decision_changed : bool
}.

Record WhatIfResult := {
  original : Risk.RiskAssessment;
  modified : Risk.RiskAssessment;
  changes : Changes
}.

Section Endpoint.
Context (E : Risk.Env) (settings : Settings).

(** [result["premium_estimate"]]: the key is absent from the fallback
    and from the fraud rejection, and the [KeyError] of a missing key
    reads as the quoted key. *)
Definition premium_estimate_of (r : Risk.RiskAssessment)
  : string + Risk.Premium :=
  match Risk.premium_estimate r with
  | Some p => inr p
  | None => inl "'premium_estimate'"
  end.

(** The [try] block: its result, or the text [str(e)] of the exception
    it raises.  Both calls are made with [enable_fraud_check=False] and
    [enable_explainability=False]; the entries of ["changes"] are
    evaluated in the order of the dict display. *)
Definition what_if_try (st : Risk.State) (request : WhatIfRequest)
  : (string + WhatIfResult) * Risk.State :=
  let o := Risk.assess_risk E E settings st (PDict (original_data request))
             (policy_type request) None false false in
  match o.1 with
  | Raise e => (inl (exn_msg e), o.2)
  | Return original_result =>
      let m := Risk.assess_risk E E settings o.2
                 (PDict (modified_data request)) (policy_type request)
                 None false false in
      match m.1 with
      | Raise e => (inl (exn_msg e), m.2)
      | Return modified_result =>
          let delta := (Risk.risk_score modified_result
                        - Risk.risk_score original_result)%Q in
          (match premium_estimate_of modified_result with
           | inl msg => inl msg
           | inr pm =>
               match premium_estimate_of original_result with
               | inl msg => inl msg
               | inr po =>
                   inr {| original := original_result;
                          modified := modified_result;
                          changes := {|
                            risk_score_delta := delta;
                            premium_delta_annual :=
                              (Risk.annual pm - Risk.annual po)%Q;
                            premium_delta_monthly :=
                              (Risk.monthly pm - Risk.monthly po)%Q;
                            decision_changed :=
                              negb (String.eqb
                                      (Risk.decision original_result)
                                      (Risk.decision modified_result)) |} |}
               end
           end, m.2)
      end
  end.

(** [what_if_endpoint]: [except Exception as e: raise HTTPException(500,
    str(e))]. *)
Definition what_if_endpoint (st : Risk.State) (request : WhatIfRequest)
  : outcome WhatIfResult * Risk.State :=
  let r := what_if_try st request in
  (match r.1 with
   | inr res => Return res
   | inl msg => Raise (Exn (HTTPException 500) msg)
   end, r.2).

End Endpoint.
End WhatIf.

(** ** Contracts and orderings used in the statements *)

Module Contracts.
Import Py Config SpecWords.



(** The interface contract of the financial-sentiment collaborator: the
    score of a label is a probability. *)
Definition financial_sound (E : Risk.Env) : Prop :=
  forall text label sc,
    Risk.financial_analyzer E text = Return (label, sc) -> unit_interval sc.



(** How severe an underwriting decision is. *)
Definition decision_rank (decision : string) : nat :=
  if String.eqb decision "APPROVE" then 0
  else if String.eqb decision "MANUAL_REVIEW" then 1
  else 2.

End Contracts.


(** ** Token chunking ([app/utils/chunking.py]) *)

Module Chunking.
Import Py.





End Chunking.

(** ** Further scenarios *)

Module Cases.
Import Py Config.



Definition approving_env : Claim.Env :=
  Scenarios.claim_env Scenarios.quiet_env "{}"
    (Return (PDict Scenarios.approving_reply)).

(** The fraud models cannot be loaded. *)
Definition unloadable_claim_env : Claim.Env :=
  Scenarios.claim_env Scenarios.unloadable_env "{}" (Return (PDict ∅)).

(** A request whose narrative is white space, one that has no narrative,
    and one that uses the legacy field. *)
Definition described (description legacy : option string)
  : Claim.ClaimRequest := {|
  Claim.claim_description := description;
  Claim.incident_date := None;
  Claim.incident_location := None;
  Claim.claim_amount := None;
  Claim.policy_number := None;
  Claim.claimant_name := None;
  Claim.submitted_documents := None;
  Claim.contact_email := None;
  Claim.contact_phone := None;
  Claim.query := legacy
|}.

Definition legacy_request : Claim.ClaimRequest :=
  described None (Some Scenarios.narrative).

(** Applicant records: complete, without an age, with a number for the
    gender. *)
Definition complete_record : pydict :=
  list_to_map [
    ("age", PNum 40); ("gender", PStr "F"); ("occupation", PStr "Teacher");
    ("smoking", PBool false); ("credit_score", PNum 720)].

Definition ageless_record : pydict :=
  list_to_map [("gender", PStr "F"); ("credit_score", PNum 720)].

Definition malformed_record : pydict :=
  list_to_map [("age", PNum 40); ("gender", PNum 5)].

Definition what_if_request : WhatIf.WhatIfRequest := {|
  WhatIf.original_data := complete_record;
  WhatIf.modified_data := malformed_record;
  WhatIf.policy_type := "life"
|}.

(** Cache collaborators: every value serializes to one text, which
    decodes to a string; the keys in [dropped] have left the memory tier;
    the Redis deletion fails when [stuck]. *)
Definition cache_env (dropped : gset string) (stuck : bool) : Cache.Env := {|
  Cache.json_dumps := fun _ => Return "[1]";
  Cache.json_loads := fun s => Return (PStr s);
  Cache.memory_expired := dropped;
  Cache.redis_expired := ∅;
  Cache.redis_get_fails := false;
  Cache.redis_set_fails := false;
  Cache.redis_delete_fails := stuck;
  Cache.glob_match := fun _ _ => false;
  Cache.redis_clear_stops := None
|}.

(** The manager with Redis in use. *)
Definition redis_state : Cache.State :=
  {| Cache.memory := ∅; Cache.redis_enabled := true; Cache.redis := ∅ |}.


End Cases.

(** * Properties *)

(** ** Rounding, [min] and [max] *)

Module PyFacts.
Import Py.

Lemma py_min_spec (a b : Q) :
  (py_min a b <= a /\ py_min a b <= b /\ (py_min a b == a \/ py_min a b == b))%Q.
Proof.
  unfold py_min. destruct (Qlt_le_dec b a); repeat split;
    try lra; auto using Qeq_refl.
Qed.

Lemma py_max_spec (a b : Q) :
  (a <= py_max a b /\ b <= py_max a b /\ (py_max a b == a \/ py_max a b == b))%Q.
Proof.
  unfold py_max. destruct (Qlt_le_dec a b); repeat split;
    try lra; auto using Qeq_refl.
Qed.

(** The clamp [min(max(x, lo), hi)]. *)
Lemma clamp_bounds (x lo hi : Q) :
  (lo <= hi -> lo <= py_min (py_max x lo) hi <= hi)%Q.
Proof.
  intros Hle.
  destruct (py_max_spec x lo) as (_ & Hlo & _).
  destruct (py_min_spec (py_max x lo) hi) as (_ & Hhi & [He | He]);
    split; try lra.
Qed.

Lemma Qltb_true (a b : Q) : Qltb a b = true <-> (a < b)%Q.
Proof.
  unfold Qltb. destruct (Qlt_le_dec a b); split; intros; try easy; lra.
Qed.

Lemma Qltb_false (a b : Q) : Qltb a b = false <-> (b <= a)%Q.
Proof.
  unfold Qltb. destruct (Qlt_le_dec a b); split; intros; try easy; lra.
Qed.

Lemma Qleb_true (a b : Q) : Qleb a b = true <-> (a <= b)%Q.
Proof.
  unfold Qleb. destruct (Qlt_le_dec b a); split; intros; try easy; lra.
Qed.

Lemma Qleb_false (a b : Q) : Qleb a b = false <-> (b < a)%Q.
Proof.
  unfold Qleb. destruct (Qlt_le_dec b a); split; intros; try easy; lra.
Qed.


(** Rounding never crosses an integer. *)
Lemma round_half_even_ge (x : Q) (n : Z) :
  (inject_Z n <= x)%Q -> (n <= round_half_even x)%Z.
Proof.
  intros Hn. unfold round_half_even.
  assert (n <= Qfloor x)%Z as Hf.
  { rewrite <- (Qfloor_Z n). by apply Qfloor_resp_le. }
  destruct (x - inject_Z (Qfloor x) ?= 1 # 2)%Q;
    [destruct (Z.even (Qfloor x)) | |]; lia.
Qed.

Lemma round_half_even_le (x : Q) (n : Z) :
  (x <= inject_Z n)%Q -> (round_half_even x <= n)%Z.
Proof.
  intros Hn. unfold round_half_even.
  pose proof (Qfloor_le x) as Hlo.
  assert (Qfloor x <= n)%Z as Hf.
  { rewrite <- (Qfloor_Z n). by apply Qfloor_resp_le. }
  destruct (Z.eq_dec (Qfloor x) n) as [Heq | Hne].
  - rewrite Heq in *.
    assert ((x - inject_Z n ?= 1 # 2)%Q = Lt) as ->; [| lia].
    apply (proj1 (Qlt_alt _ _)). lra.
  - destruct (x - inject_Z (Qfloor x) ?= 1 # 2)%Q;
      [destruct (Z.even (Qfloor x)) | |]; lia.
Qed.

Lemma scale_pos (ndigits : nat) : (0 < inject_Z (10 ^ Z.of_nat ndigits))%Q.
Proof.
  change 0%Q with (inject_Z 0). rewrite <- Zlt_Qlt.
  apply Z.pow_pos_nonneg; lia.
Qed.

(** [round(x, n)] stays within integer bounds. *)
Lemma py_round_bounds (x : Q) (ndigits : nat) (lo hi : Z) :
  (inject_Z lo <= x <= inject_Z hi)%Q ->
  (inject_Z lo <= py_round x ndigits <= inject_Z hi)%Q.
Proof.
  intros [Hlo Hhi]. unfold py_round.
  pose proof (scale_pos ndigits) as Hs.
  set (s := (10 ^ Z.of_nat ndigits)%Z) in *.
  assert (lo * s <= round_half_even (x * inject_Z s))%Z as H1.
  { apply round_half_even_ge. rewrite inject_Z_mult. nra. }
  assert (round_half_even (x * inject_Z s) <= hi * s)%Z as H2.
  { apply round_half_even_le. rewrite inject_Z_mult. nra. }
  rewrite Zle_Qle, inject_Z_mult in H1, H2.
  split.
  - apply Qle_shift_div_l; [done | lra].
  - apply Qle_shift_div_r; [done | lra].
Qed.


End PyFacts.

(** ** Underwriting decision and premium *)

Module RiskFacts.
Import Py Config Risk SpecWords PyFacts.

(** The default settings and the settings of the scenarios satisfy the
    constraints of the configuration. *)
Lemma scenario_settings_validated :
  validated default_settings /\ validated Scenarios.strict_settings.
Proof. split; repeat split; cbn; lia || (vm_compute; discriminate). Qed.

Lemma decision_is_ladder (s : Settings) (score : Q) :
  decide_for s score = ladder s score.
Proof.
  unfold decide_for, ladder, ladder_rules, _make_underwriting_decision.
  cbn [first_match].
  repeat match goal with |- context [if ?b then _ else _] => destruct b end;
    reflexivity.
Qed.

(** A score at the approval threshold is approved, whatever the other
    thresholds are. *)
Lemma decision_at_approve (s : Settings) :
  decide_for s (inject_Z (auto_approve_threshold s)) = "APPROVE".
Proof.
  unfold decide_for, _make_underwriting_decision.
  assert (Qleb (inject_Z (auto_approve_threshold s))
               (inject_Z (auto_approve_threshold s)) = true) as ->.
  { apply Qleb_true. lra. }
  reflexivity.
Qed.

Lemma decision_at_reject (s : Settings) :
  (auto_approve_threshold s < auto_reject_threshold s)%Z ->
  decide_for s (inject_Z (auto_reject_threshold s)) = "REJECT".
Proof.
  intros Hlt. unfold decide_for, _make_underwriting_decision.
  rewrite Zlt_Qlt in Hlt.
  assert (Qleb (inject_Z (auto_reject_threshold s))
               (inject_Z (auto_approve_threshold s)) = false) as ->.
  { by apply Qleb_false. }
  assert (Qleb (inject_Z (auto_reject_threshold s))
               (inject_Z (auto_reject_threshold s)) = true) as ->.
  { apply Qleb_true. lra. }
  reflexivity.
Qed.

(** Inside the review band, strictly between the two automatic
    thresholds, the decision is a manual review. *)
Lemma decision_in_band (s : Settings) (score : Z) :
  (auto_approve_threshold s < score < auto_reject_threshold s)%Z ->
  (requires_human_review_min s <= score <= requires_human_review_max s)%Z ->
  decide_for s (inject_Z score) = "MANUAL_REVIEW".
Proof.
  intros [Ha Hr] [Hmin Hmax]. unfold decide_for, _make_underwriting_decision.
  rewrite Zlt_Qlt in Ha, Hr. rewrite Zle_Qle in Hmin, Hmax.
  assert (Qleb (inject_Z score) (inject_Z (auto_approve_threshold s)) = false)
    as -> by (by apply Qleb_false).
  assert (Qleb (inject_Z (auto_reject_threshold s)) (inject_Z score) = false)
    as -> by (by apply Qleb_false).
  assert (Qleb (inject_Z (requires_human_review_min s)) (inject_Z score) = true)
    as -> by (by apply Qleb_true).
  assert (Qleb (inject_Z score) (inject_Z (requires_human_review_max s)) = true)
    as -> by (by apply Qleb_true).
  reflexivity.
Qed.

(** C5.  The underwriting decision is the ordered ladder
    [score <= auto_approve -> APPROVE], else [score >= auto_reject -> REJECT],
    else [review_min <= score <= review_max -> MANUAL_REVIEW], else
    [score < review_min -> APPROVE], else [REJECT], for every score and all
    thresholds.  A score at [auto_approve_threshold] is approved; a score at
    [auto_reject_threshold] is rejected when the approval threshold lies
    below it; one unit inside the review band the decision is a manual
    review when that score lies strictly between the automatic thresholds.
    With the default thresholds: 30 is approved, 85 rejected, 71 and 84 go
    to manual review. *)
Theorem underwriting_decision_ladder :
  (forall s score, decide_for s score = ladder s score) /\
  (forall s, decide_for s (inject_Z (auto_approve_threshold s)) = "APPROVE") /\
  (forall s,
     (auto_approve_threshold s < auto_reject_threshold s)%Z ->
     decide_for s (inject_Z (auto_reject_threshold s)) = "REJECT") /\
  (forall s,
     (auto_approve_threshold s < requires_human_review_min s + 1
        < auto_reject_threshold s)%Z ->
     (requires_human_review_min s + 1 <= requires_human_review_max s)%Z ->
     decide_for s (inject_Z (requires_human_review_min s + 1))
       = "MANUAL_REVIEW") /\
  (forall s,
     (auto_approve_threshold s < requires_human_review_max s - 1
        < auto_reject_threshold s)%Z ->
     (requires_human_review_min s <= requires_human_review_max s - 1)%Z ->
     decide_for s (inject_Z (requires_human_review_max s - 1))
       = "MANUAL_REVIEW") /\
  decide_for default_settings 30 = "APPROVE" /\
  decide_for default_settings 85 = "REJECT" /\
  decide_for default_settings 71 = "MANUAL_REVIEW" /\
  decide_for default_settings 84 = "MANUAL_REVIEW".
Proof.
  split; [exact decision_is_ladder |].
  split; [exact decision_at_approve |].
  split; [exact decision_at_reject |].
  split; [intros s H1 H2; apply decision_in_band; lia |].
  split; [intros s H1 H2; apply decision_in_band; lia |].
  repeat split; reflexivity.
Qed.




Lemma underwriting_decision_ladder_witness :
  (auto_approve_threshold default_settings
     < auto_reject_threshold default_settings)%Z /\
  decide_for default_settings
    (inject_Z (auto_reject_threshold default_settings)) = "REJECT" /\
  decide_for default_settings
    (inject_Z (requires_human_review_min default_settings + 1))
  = "MANUAL_REVIEW" /\
  decide_for default_settings
    (inject_Z (requires_human_review_max default_settings - 1))
  = "MANUAL_REVIEW".
Proof.
  destruct underwriting_decision_ladder
    as (_ & _ & Hreject & Hlow & Hhigh & _).
  split; [reflexivity |].
  split; [apply (Hreject default_settings); reflexivity |].
  split; [apply (Hlow default_settings); cbn; lia |].
  apply (Hhigh default_settings); cbn; lia.
Defined.

End RiskFacts.

(** ** Fraud ensemble *)

Module FraudFacts.
Import Py Config Fraud SpecWords PyFacts.

(** Rounding respects [==]. *)
Lemma round_half_even_proper (x y : Q) :
  (x == y)%Q -> round_half_even x = round_half_even y.
Proof.
  intros Hxy. unfold round_half_even.
  rewrite (Qfloor_comp _ _ Hxy).
  assert ((x - inject_Z (Qfloor y) ?= 1 # 2)%Q
          = (y - inject_Z (Qfloor y) ?= 1 # 2)%Q) as ->; [| done].
  apply Qcompare_comp; [by rewrite Hxy | done].
Qed.

Lemma py_round_proper (x y : Q) (n : nat) :
  (x == y)%Q -> (py_round x n == py_round y n)%Q.
Proof.
  intros Hxy. unfold py_round.
  set (s := inject_Z (10 ^ Z.of_nat n)%Z).
  assert (round_half_even (x * s) = round_half_even (y * s)) as ->; [| done].
  apply round_half_even_proper. by rewrite Hxy.
Qed.

Lemma py_round_unit (x : Q) (n : nat) :
  unit_interval x -> unit_interval (py_round x n).
Proof. intros [H0 H1]. apply (py_round_bounds x n 0 1). done. Qed.

Section Detectors.
Context (E : Env).

Lemma pattern_step_nonneg (text : string) (acc : Q * list string) (p : string) :
  (0 <= acc.1)%Q -> (0 <= (pattern_step E text acc p).1)%Q.
Proof.
  intros H. unfold pattern_step.
  destruct (re_search E p text); cbn; lra.
Qed.

Lemma pattern_fold_nonneg (text : string) (ps : list string)
  (acc : Q * list string) :
  (0 <= acc.1)%Q -> (0 <= (foldl (pattern_step E text) acc ps).1)%Q.
Proof.
  revert acc. induction ps as [| p ps IH]; intros acc H; cbn; [done |].
  apply IH. by apply pattern_step_nonneg.
Qed.

(** The pattern detector: a sum of increments, capped at 1. *)
Lemma pattern_score_unit (text : string) :
  unit_interval (score (_pattern_based_detection E text)).
Proof.
  unfold _pattern_based_detection. cbv zeta. cbn [score].
  match goal with |- unit_interval (py_min ?a _) => set (total := a) end.
  assert (0 <= total)%Q as Hnn.
  { subst total.
    pose proof (pattern_fold_nonneg text _fraud_patterns (0%Q, [])) as H0.
    repeat match goal with
           | |- context [if ?b then _ else _] => destruct b
           end; cbn [fst]; try lra;
      specialize (H0 ltac:(cbn; lra)); lra. }
  destruct (py_min_spec total 1) as (? & ? & [He | He]); split; lra.
Qed.

(** The sentiment detector reports 0, 0.2 or 0.3 and never raises. *)
Lemma sentiment_result (text : string) :
  exists r, _sentiment_based_detection E text = Return r /\
            (score r == 0 \/ score r == 0.2 \/ score r == 0.3)%Q.
Proof.
  unfold _sentiment_based_detection.
  destruct (sentiment_analyzer E (str_take 512 text)) as [[label sc] | e];
    cbn.
  - repeat match goal with
           | |- context [if ?b then _ else _] => destruct b
           end; cbn; eexists; split; try reflexivity; cbn; auto using Qeq_refl.
  - eexists; split; [reflexivity |]. left. apply Qeq_refl.
Qed.

(** The statistical detector reports at most 0.25 and never raises. *)
Lemma statistical_result (text : string) (metadata : option pydict) :
  exists r, _statistical_anomaly_detection E text metadata = Return r /\
            (0 <= score r <= 1 # 4)%Q.
Proof.
  unfold _statistical_anomaly_detection.
  destruct (_extract_features E text metadata) as [[] | e]; cbn;
    [| eexists; split; [reflexivity | cbn; lra]].
  match goal with
  | |- context [num_of ?v] => destruct (num_of v) as [amount | e]
  end; cbn; [| eexists; split; [reflexivity | cbn; lra]].
  eexists; split; [reflexivity |]. cbn [score].
  unfold py_min.
  destruct (mean_word_length_gt text 10), (Qltb 50000 amount); cbn [fst];
    destruct (Qlt_le_dec _ _); lra.
Qed.

(** The model detector never raises: a failing classifier yields 0.5. *)
Lemma ml_result (text : string) :
  exists r, _ml_based_detection E text = Return r /\
    (forall e, fraud_classifier E (str_take 512 text) = Raise e ->
               r = {| score := 0.5; dr_indicators := [] |}) /\
    (classifier_sound E -> unit_interval (score r)).
Proof.
  unfold _ml_based_detection. cbv zeta.
  destruct (fraud_classifier E (str_take 512 text)) as [[label sc] | e] eqn:Hc;
    cbn.
  - destruct (bool_decide _); cbn; eexists; (split; [reflexivity |]);
      (split; [intros ? [=] |]); intros Hs; destruct (Hs _ _ _ Hc);
      split; cbn; lra.
  - eexists; split; [reflexivity |]. split; [done |].
    intros _. split; cbn; lra.
Qed.

End Detectors.
(** *** The aggregation *)

Lemma collect_step_scores (acc : list Q * list string)
  (r : outcome DetectionResult) :
  (collect_step acc r).1
  = acc.1 ++ match r with Return d => [score d] | Raise _ => [] end.
Proof. destruct r; cbn; by rewrite ?app_nil_r. Qed.

Lemma collect_from_scores (rs : list (outcome DetectionResult))
  (acc : list Q * list string) :
  (foldl collect_step acc rs).1
  = acc.1 ++ (rs ≫= fun r =>
                match r with Return d => [score d] | Raise _ => [] end).
Proof.
  revert acc. induction rs as [| r rs IH]; intros acc; cbn.
  - by rewrite app_nil_r.
  - rewrite IH, collect_step_scores. by rewrite <- app_assoc.
Qed.

(** The scores the loop keeps: those of the results that are no
    exception, in the order of the results. *)
Lemma collect_scores (rs : list (outcome DetectionResult)) :
  (collect rs).1
  = rs ≫= fun r => match r with Return d => [score d] | Raise _ => [] end.
Proof. unfold collect. by rewrite collect_from_scores. Qed.

Lemma collect_all_failed (rs : list (outcome DetectionResult)) :
  Forall (fun r => is_exception r = true) rs -> (collect rs).1 = [].
Proof.
  intros Hall. rewrite collect_scores.
  induction Hall as [| r rs Hr _ IH]; [done |].
  destruct r; [discriminate | cbn; exact IH].
Qed.

Lemma collect_unit (rs : list (outcome DetectionResult)) :
  Forall (fun r => forall d, r = Return d -> unit_interval (score d)) rs ->
  Forall unit_interval (collect rs).1.
Proof.
  intros Hall. rewrite collect_scores.
  induction Hall as [| r rs Hr _ IH]; cbn; [constructor |].
  destruct r as [d | e]; cbn; [| exact IH].
  constructor; [by apply Hr | exact IH].
Qed.

(** No score at all: the division raises. *)
Lemma ensemble_score_empty :
  ensemble_score [] = Raise (Exn ZeroDivisionError "division by zero").
Proof. reflexivity. Qed.

Lemma ensemble_score_four (a b c d : Q) :
  ensemble_score [a; b; c; d]
  = Return ((0 + a * 0.2 + b * 0.4 + c * 0.2 + d * 0.2)
            / (0 + 0.2 + 0.4 + 0.2 + 0.2))%Q.
Proof. reflexivity. Qed.

(** The weighted average of scores in [0,1] is in [0,1], however many
    scores there are. *)
Lemma ensemble_score_unit (scores : list Q) (x : Q) :
  Forall unit_interval scores ->
  ensemble_score scores = Return x -> unit_interval x.
Proof.
  unfold unit_interval. intros Hall Hx.
  destruct scores as [| a [| b [| c [| d rest]]]].
  - discriminate.
  - apply Forall_cons in Hall as [[Ha0 Ha1] _].
    injection Hx as <-. cbn.
    split; [apply Qle_shift_div_l | apply Qle_shift_div_r]; lra.
  - apply Forall_cons in Hall as [[Ha0 Ha1] Hall].
    apply Forall_cons in Hall as [[Hb0 Hb1] _].
    injection Hx as <-. cbn.
    split; [apply Qle_shift_div_l | apply Qle_shift_div_r]; lra.
  - apply Forall_cons in Hall as [[Ha0 Ha1] Hall].
    apply Forall_cons in Hall as [[Hb0 Hb1] Hall].
    apply Forall_cons in Hall as [[Hc0 Hc1] _].
    injection Hx as <-. cbn.
    split; [apply Qle_shift_div_l | apply Qle_shift_div_r]; lra.
  - apply Forall_cons in Hall as [[Ha0 Ha1] Hall].
    apply Forall_cons in Hall as [[Hb0 Hb1] Hall].
    apply Forall_cons in Hall as [[Hc0 Hc1] Hall].
    apply Forall_cons in Hall as [[Hd0 Hd1] _].
    unfold ensemble_score in Hx. cbn [length] in Hx.
    replace (take (S (S (S (S (length rest))))) weights) with weights in Hx
      by (cbn; by destruct (length rest)).
    injection Hx as <-. cbn.
    replace (zip_with Qmult rest []) with (@nil Q) by (by destruct rest).
    cbn.
    split; [apply Qle_shift_div_l | apply Qle_shift_div_r]; lra.
Qed.

Section Aggregation.
Context (E : Env) (settings : Settings).

Lemma aggregate_raise (st : State) (key text : string)
  (rs : list (outcome DetectionResult)) (shap : bool) (e : exn) :
  ensemble_score (collect rs).1 = Raise e ->
  aggregate E settings st key text rs shap = (Raise e, st).
Proof. intros He. unfold aggregate. cbv zeta. by rewrite He. Qed.

Lemma aggregate_return (st : State) (key text : string)
  (rs : list (outcome DetectionResult)) (shap : bool) (x : Q) :
  ensemble_score (collect rs).1 = Return x ->
  exists res,
    aggregate E settings st key text rs shap
      = (Return res, cache_set E st key res) /\
    fraud_score res = py_round x 3 /\
    is_suspicious res = Qltb (fraud_threshold settings) x /\
    detection_methods res
      = Some (nth_or_zero (collect rs).1 0, nth_or_zero (collect rs).1 1,
              nth_or_zero (collect rs).1 2, nth_or_zero (collect rs).1 3) /\
    error res = None.
Proof.
  intros Hx. unfold aggregate. cbv zeta. rewrite Hx.
  eexists. split; [reflexivity |]. cbn. done.
Qed.

(** Every detector failed: the aggregation raises [ZeroDivisionError]. *)
Lemma aggregate_all_failed (st : State) (key text : string)
  (rs : list (outcome DetectionResult)) (shap : bool) :
  Forall (fun r => is_exception r = true) rs ->
  aggregate E settings st key text rs shap
  = (Raise (Exn ZeroDivisionError "division by zero"), st).
Proof.
  intros Hall. apply aggregate_raise.
  by rewrite (collect_all_failed rs Hall).
Qed.

(** The four gathered detectors never hand an exception to the loop. *)
Lemma gather_detectors_succeed (text : string) (metadata : option pydict) :
  exists m s t,
    _ml_based_detection E text = Return m /\
    _sentiment_based_detection E text = Return s /\
    _statistical_anomaly_detection E text metadata = Return t /\
    gather_detectors E text metadata
    = [Return (_pattern_based_detection E text); Return m; Return s; Return t].
Proof.
  destruct (ml_result E text) as (m & Hm & _).
  destruct (sentiment_result E text) as (s & Hs & _).
  destruct (statistical_result E text metadata) as (t & Ht & _).
  exists m, s, t. unfold gather_detectors. by rewrite Hm, Hs, Ht.
Qed.

Lemma gather_detectors_unit (text : string) (metadata : option pydict) :
  classifier_sound E ->
  Forall (fun r => forall d, r = Return d -> unit_interval (score d))
         (gather_detectors E text metadata).
Proof.
  intros Hsound.
  destruct (ml_result E text) as (m & Hm & _ & Hmu).
  destruct (sentiment_result E text) as (s & Hs & Hsu).
  destruct (statistical_result E text metadata) as (t & Ht & Htu).
  unfold gather_detectors. rewrite Hm, Hs, Ht.
  constructor; [intros d [= <-]; apply pattern_score_unit |].
  constructor; [intros d [= <-]; by apply Hmu |].
  constructor.
  { intros d [= <-]. unfold unit_interval.
    destruct Hsu as [-> | [-> | ->]]; lra. }
  constructor; [| constructor].
  intros d [= <-]. unfold unit_interval. lra.
Qed.

End Aggregation.

(** *** The cache *)

Section Cache.
Context (E : Env) (settings : Settings).

Lemma live_sound (gone : gset string) (m : gmap string FraudAssessment) :
  sound_map m -> sound_map (live gone m).
Proof.
  intros Hm k v Hkv. unfold live in Hkv.
  apply map_lookup_filter_Some in Hkv as [Hkv _]. by apply (Hm k).
Qed.

Lemma insert_sound (k : string) (v : FraudAssessment)
  (m : gmap string FraudAssessment) :
  unit_interval (fraud_score v) -> sound_map m -> sound_map (<[k := v]> m).
Proof. intros Hv Hm. unfold sound_map. by apply map_Forall_insert_2. Qed.

Lemma cache_get_sound (st : State) (key : string) :
  cache_sound st ->
  cache_sound (cache_get E st key).2 /\
  forall v, (cache_get E st key).1 = Some v -> unit_interval (fraud_score v).
Proof.
  intros [Hmem Hred]. unfold cache_get. cbv zeta.
  pose proof (live_sound (memory_expired E) _ Hmem) as Hmem'.
  pose proof (live_sound (redis_expired E) _ Hred) as Hred'.
  destruct (live (memory_expired E) (memory_cache st) !! _) as [v |] eqn:Hm.
  { split; [by split |]. intros ? [= <-]. by apply (Hmem' _ _ Hm). }
  cbn [redis_enabled set_memory_cache].
  destruct (redis_enabled st && negb (redis_get_fails E)).
  - cbn [redis_store set_memory_cache set_redis_store].
    destruct (live (redis_expired E) (redis_store st) !! _) as [v |] eqn:Hr.
    + pose proof (Hred' _ _ Hr) as Hv.
      split; [| by intros ? [= <-]].
      split; cbn; [by apply insert_sound | done].
    + split; [by split | done].
  - split; [by split | done].
Qed.

Lemma cache_set_sound (st : State) (key : string) (v : FraudAssessment) :
  unit_interval (fraud_score v) -> cache_sound st ->
  cache_sound (cache_set E st key v).
Proof.
  intros Hv [Hmem Hred]. unfold cache_set. cbv zeta.
  cbn [redis_enabled set_memory_cache].
  destruct (redis_enabled st && negb (redis_set_fails E));
    split; cbn; try done; by apply insert_sound.
Qed.

Lemma load_models_sound (st : State) :
  cache_sound st -> cache_sound (_load_models E st).2.
Proof.
  intros Hs. unfold _load_models.
  destruct (models_loaded st); [done |].
  by destruct (build_pipelines E).
Qed.

End Cache.

(** *** [detect_fraud] *)

Section Ensemble.
Context (E : Env) (settings : Settings).

Lemma detect_fraud_on_loaded (rs : list (outcome DetectionResult))
  (st : State) (text : string) (shap : bool) :
  (_load_models E st).1 = Return () ->
  detect_fraud_on E settings rs st text shap
  = (try_except
       (detect_fraud_try E settings (_load_models E st).2 text rs shap).1
       (fun e => Return (degraded e)),
     (detect_fraud_try E settings (_load_models E st).2 text rs shap).2).
Proof. intros Hload. unfold detect_fraud_on. cbv zeta. by rewrite Hload. Qed.

Lemma detect_fraud_on_unloaded (rs : list (outcome DetectionResult))
  (st : State) (text : string) (shap : bool) (e : exn) :
  (_load_models E st).1 = Raise e ->
  detect_fraud_on E settings rs st text shap = (Raise e, (_load_models E st).2).
Proof. intros Hload. unfold detect_fraud_on. cbv zeta. by rewrite Hload. Qed.

Lemma detect_fraud_try_miss (rs : list (outcome DetectionResult))
  (st : State) (text : string) (shap : bool) :
  let key := "fraud:" +:+ md5_hexdigest E text in
  (cache_get E st key).1 = None ->
  detect_fraud_try E settings st text rs shap
  = aggregate E settings (cache_get E st key).2 key text rs shap.
Proof.
  intros key Hmiss. subst key. unfold detect_fraud_try. cbv zeta.
  by rewrite Hmiss.
Qed.

(** Past the model loading, [detect_fraud] returns an assessment. *)
Lemma detect_fraud_on_returns (rs : list (outcome DetectionResult))
  (st : State) (text : string) (shap : bool) :
  (_load_models E st).1 = Return () ->
  exists r, (detect_fraud_on E settings rs st text shap).1 = Return r.
Proof.
  intros Hload. rewrite (detect_fraud_on_loaded _ _ _ _ Hload). cbn [fst].
  destruct (detect_fraud_try _ _ _ _ _ _).1; cbn; eauto.
Qed.

(** The score invariant: a call from a sound cache, on detector results
    with scores in [0,1], reports a score in [0,1] and leaves a sound
    cache. *)
Lemma detect_fraud_on_sound (rs : list (outcome DetectionResult))
  (st : State) (text : string) (shap : bool) :
  cache_sound st ->
  Forall (fun r => forall d, r = Return d -> unit_interval (score d)) rs ->
  (forall r, (detect_fraud_on E settings rs st text shap).1 = Return r ->
             unit_interval (fraud_score r)) /\
  cache_sound (detect_fraud_on E settings rs st text shap).2.
Proof.
  intros Hst Hrs.
  pose proof (load_models_sound E st Hst) as Hloaded.
  destruct (_load_models E st).1 as [[] | e] eqn:Hload.
  2: { rewrite (detect_fraud_on_unloaded _ _ _ _ _ Hload). by split. }
  rewrite (detect_fraud_on_loaded _ _ _ _ Hload). cbn [fst snd].
  unfold detect_fraud_try. cbv zeta.
  set (key := "fraud:" +:+ md5_hexdigest E text).
  destruct (cache_get_sound E _ key Hloaded) as [Hst' Hhit].
  destruct (cache_get E (_load_models E st).2 key).1 as [v |] eqn:Hlook.
  { cbn. split; [| done]. intros r [= <-]. by apply Hhit. }
  destruct (ensemble_score (collect rs).1) as [x | e] eqn:Hx.
  - destruct (aggregate_return E settings (cache_get E (_load_models E st).2 key).2
                key text rs shap x Hx) as (res & -> & Hscore & _).
    assert (unit_interval (fraud_score res)) as Hres.
    { rewrite Hscore. apply py_round_unit.
      eapply ensemble_score_unit; [by apply collect_unit | exact Hx]. }
    cbn. split; [by intros r [= <-] | by apply cache_set_sound].
  - rewrite (aggregate_raise E settings _ key text rs shap e Hx). cbn.
    split; [| done]. intros r [= <-]. cbn. unfold unit_interval. lra.
Qed.

End Ensemble.

Lemma reachable_sound (settings : Settings) (st : State) :
  reachable settings st -> cache_sound st.
Proof.
  induction 1 as [redis | E st text md shap _ IH Hsound].
  - split; cbn; unfold sound_map; apply map_Forall_empty.
  - apply (detect_fraud_on_sound E settings); [exact IH |].
    by apply gather_detectors_unit.
Qed.

(** *** The claims about the ensemble *)

Lemma four_scores_average (a b c d : Q) :
  ((0 + a * 0.2 + b * 0.4 + c * 0.2 + d * 0.2) / (0 + 0.2 + 0.4 + 0.2 + 0.2)
   == weighted_average [(a, 0.2); (b, 0.4); (c, 0.2); (d, 0.2)])%Q.
Proof. unfold weighted_average. cbn. field. Qed.

Lemma aggregate_four (E : Env) (settings : Settings) (st : State)
  (key text : string) (shap : bool) (r1 r2 r3 r4 : DetectionResult) :
  exists res,
    (aggregate E settings st key text
       [Return r1; Return r2; Return r3; Return r4] shap).1 = Return res /\
    (fraud_score res
     == py_round (weighted_average [(score r1, 0.2); (score r2, 0.4);
                                    (score r3, 0.2); (score r4, 0.2)]) 3)%Q /\
    detection_methods res = Some (score r1, score r2, score r3, score r4).
Proof.
  destruct (aggregate_return E settings st key text
              [Return r1; Return r2; Return r3; Return r4] shap _
              (ensemble_score_four (score r1) (score r2) (score r3) (score r4)))
    as (res & Hagg & Hscore & _ & Hmethods & _).
  exists res. rewrite Hagg. split; [done |]. split; [| exact Hmethods].
  rewrite Hscore. apply py_round_proper, four_scores_average.
Qed.

(** On a cache miss past the model loading, [detect_fraud] aggregates the
    scores of its four detectors, none of which can fail. *)
Lemma detect_fraud_miss (E : Env) (settings : Settings) (st : State)
  (text : string) (metadata : option pydict) (shap : bool) :
  (_load_models E st).1 = Return () ->
  (cache_get E (_load_models E st).2
     ("fraud:" +:+ md5_hexdigest E text)).1 = None ->
  exists res m s t,
    (detect_fraud E settings st text metadata shap).1 = Return res /\
    _ml_based_detection E text = Return m /\
    _sentiment_based_detection E text = Return s /\
    _statistical_anomaly_detection E text metadata = Return t /\
    (fraud_score res
     == py_round (weighted_average
                    [(score (_pattern_based_detection E text), 0.2);
                     (score m, 0.4); (score s, 0.2); (score t, 0.2)]) 3)%Q /\
    detection_methods res
    = Some (score (_pattern_based_detection E text), score m, score s, score t).
Proof.
  intros Hload Hmiss.
  destruct (gather_detectors_succeed E text metadata)
    as (m & s & t & Hm & Hs & Ht & Hgather).
  unfold detect_fraud. rewrite (detect_fraud_on_loaded _ _ _ _ _ _ Hload).
  rewrite (detect_fraud_try_miss _ _ _ _ _ _ Hmiss), Hgather. cbn [fst].
  destruct (aggregate_four E settings
              (cache_get E (_load_models E st).2
                 ("fraud:" +:+ md5_hexdigest E text)).2
              ("fraud:" +:+ md5_hexdigest E text) text shap
              (_pattern_based_detection E text) m s t)
    as (res & Hagg & Hscore & Hmethods).
  exists res, m, s, t. rewrite Hagg.
  exact (conj eq_refl (conj Hm (conj Hs (conj Ht (conj Hscore Hmethods))))).
Qed.

(** The ceiling of a freshly computed score.  The sentiment detector
    reports at most 0.3 and the statistical detector at most 0.25, so with
    a classifier that reports probabilities the weighted average is at most
    [0.2 + 0.4 + 0.06 + 0.05 = 0.71]: a suspicion threshold of 0.71 or
    more, such as the default 0.75, is never exceeded by a fresh
    assessment. *)
Lemma fresh_score_ceiling (E : Env) (settings : Settings) (st : State)
  (text : string) (metadata : option pydict) (shap : bool) :
  classifier_sound E ->
  (_load_models E st).1 = Return () ->
  (cache_get E (_load_models E st).2
     ("fraud:" +:+ md5_hexdigest E text)).1 = None ->
  (0.71 <= fraud_threshold settings)%Q ->
  exists res,
    (detect_fraud E settings st text metadata shap).1 = Return res /\
    is_suspicious res = false.
Proof.
  intros Hsound Hload Hmiss Hthreshold.
  destruct (ml_result E text) as (m & Hm & _ & Hmu).
  destruct (sentiment_result E text) as (s & Hs & Hsu).
  destruct (statistical_result E text metadata) as (t & Ht & [Ht0 Ht1]).
  destruct (pattern_score_unit E text) as [Hp0 Hp1].
  destruct (Hmu Hsound) as [Hm0 Hm1].
  unfold detect_fraud. rewrite (detect_fraud_on_loaded _ _ _ _ _ _ Hload).
  rewrite (detect_fraud_try_miss _ _ _ _ _ _ Hmiss). cbn [fst].
  unfold gather_detectors. rewrite Hm, Hs, Ht.
  destruct (aggregate_return E settings
              (cache_get E (_load_models E st).2
                 ("fraud:" +:+ md5_hexdigest E text)).2
              ("fraud:" +:+ md5_hexdigest E text) text
              [Return (_pattern_based_detection E text); Return m; Return s;
               Return t] shap _
              (ensemble_score_four
                 (score (_pattern_based_detection E text)) (score m)
                 (score s) (score t)))
    as (res & Hagg & _ & Hflag & _).
  exists res. rewrite Hagg. split; [done |].
  rewrite Hflag. apply Qltb_false.
  eapply Qle_trans; [| exact Hthreshold].
  apply Qle_shift_div_r; [lra |].
  destruct Hsu as [-> | [-> | ->]]; lra.
Qed.




(** When the result gathered for the model detector is an exception, the
    loop pairs the three remaining scores with the first three weights:
    the sentiment score takes the weight 0.4 of the model. *)
Lemma aggregate_pairs_scores_with_weight_prefix (E : Env)
  (settings : Settings) (st : State) (key text : string) (shap : bool)
  (r1 r3 r4 : DetectionResult) (e : exn) :
  exists res,
    (aggregate E settings st key text
       [Return r1; Raise e; Return r3; Return r4] shap).1 = Return res /\
    (fraud_score res
     == py_round (weighted_average
                    [(score r1, 0.2); (score r3, 0.4); (score r4, 0.2)]) 3)%Q /\
    detection_methods res = Some (score r1, score r3, score r4, 0%Q).
Proof.
  destruct (aggregate_return E settings st key text
              [Return r1; Raise e; Return r3; Return r4] shap _ eq_refl)
    as (res & Hagg & Hscore & _ & Hmethods & _).
  exists res. rewrite Hagg. split; [done |]. split; [| exact Hmethods].
  rewrite Hscore. apply py_round_proper.
  unfold weighted_average. cbn. field.
Qed.

(** C3 as stated fails.  With a classifier that raises, a short narrative
    without pattern matches and an extremely negative tone, the pattern,
    sentiment and statistical scores are 0.1, 0.3 and 0.  Renormalizing
    them over the weights [0.2, 0.2, 0.2] would give 0.133; the ensemble
    reports 0.28, the model detector having contributed 0.5 at weight
    0.4.  Nor is 0.133 what the loop computes when it is handed an
    exception in the place of the model result: it then reports 0.175. *)
Lemma failed_model_is_not_renormalized :
  fraud_classifier Scenarios.broken_classifier_env
    (str_take 512 Scenarios.narrative) = Raise Scenarios.model_unavailable /\
  (score (_pattern_based_detection Scenarios.broken_classifier_env
            Scenarios.narrative) == 0.1)%Q /\
  (exists s,
     _sentiment_based_detection Scenarios.broken_classifier_env
       Scenarios.narrative = Return s /\ (score s == 0.3)%Q) /\
  (exists t,
     _statistical_anomaly_detection Scenarios.broken_classifier_env
       Scenarios.narrative None = Return t /\ (score t == 0)%Q) /\
  (py_round (weighted_average [(0.1, 0.2); (0.3, 0.2); (0, 0.2)]%Q) 3
   == 0.133)%Q /\
  (exists res,
     (detect_fraud Scenarios.broken_classifier_env default_settings
        (initial_state false) Scenarios.narrative None false).1 = Return res /\
     (fraud_score res == 0.28)%Q /\
     ~ (fraud_score res == 0.133)%Q /\
     detection_methods res = Some (0.1, 0.5, 0.3, 0)%Q) /\
  (exists res,
     (aggregate Scenarios.broken_classifier_env default_settings
        (initial_state false) "fraud:example" Scenarios.narrative
        [Return (Scenarios.scored 0.1); Raise Scenarios.model_unavailable;
         Return (Scenarios.scored 0.3); Return (Scenarios.scored 0)]
        false).1 = Return res /\
     (fraud_score res == 0.175)%Q /\
     ~ (fraud_score res == 0.133)%Q).
Proof.
  split; [reflexivity |]. split; [by vm_compute |].
  split; [eexists; split; [reflexivity | by vm_compute] |].
  split; [eexists; split; [reflexivity | by vm_compute] |].
  split; [by vm_compute |]. split.
  - eexists. split; [reflexivity |]. split; [by vm_compute |].
    split; [vm_compute; congruence | reflexivity].
  - eexists. split; [reflexivity |].
    split; [by vm_compute | vm_compute; congruence].
Qed.

(** C3, amended.  When the classifier of the model-based detector fails
    while the pattern, sentiment and statistical detectors succeed, the
    model detector absorbs the failure and reports the neutral score 0.5
    without indicators; the aggregation weighs the four scores with
    [0.2, 0.4, 0.2, 0.2], which sum to 1.0, and a result is produced rather
    than an error. *)
Theorem failed_model_scores_neutral :
  forall E settings st text metadata shap e,
    (_load_models E st).1 = Return () ->
    (cache_get E (_load_models E st).2
       ("fraud:" +:+ md5_hexdigest E text)).1 = None ->
    fraud_classifier E (str_take 512 text) = Raise e ->
    exists res s t,
      (detect_fraud E settings st text metadata shap).1 = Return res /\
      _ml_based_detection E text
      = Return {| score := 0.5; dr_indicators := [] |} /\
      _sentiment_based_detection E text = Return s /\
      _statistical_anomaly_detection E text metadata = Return t /\
      (fraud_score res
       == py_round (weighted_average
                      [(score (_pattern_based_detection E text), 0.2);
                       (0.5, 0.4); (score s, 0.2); (score t, 0.2)]) 3)%Q /\
      detection_methods res
      = Some (score (_pattern_based_detection E text), 0.5%Q,
              score s, score t).
Proof.
  intros E settings st text metadata shap e Hload Hmiss Hfail.
  destruct (detect_fraud_miss E settings st text metadata shap Hload Hmiss)
    as (res & m & s & t & Hres & Hm & Hs & Ht & Hscore & Hmethods).
  destruct (ml_result E text) as (m' & Hm' & Hneutral & _).
  rewrite Hm in Hm'. injection Hm' as <-.
  rewrite (Hneutral e Hfail) in *.
  exists res, s, t. done.
Qed.

Lemma failed_model_scores_neutral_witness :
  exists res s t,
    (detect_fraud Scenarios.broken_classifier_env default_settings
       (initial_state false) Scenarios.narrative None false).1 = Return res /\
    _ml_based_detection Scenarios.broken_classifier_env Scenarios.narrative
    = Return {| score := 0.5; dr_indicators := [] |} /\
    _sentiment_based_detection Scenarios.broken_classifier_env
      Scenarios.narrative = Return s /\
    _statistical_anomaly_detection Scenarios.broken_classifier_env
      Scenarios.narrative None = Return t /\
    (fraud_score res
     == py_round (weighted_average
                    [(score (_pattern_based_detection
                               Scenarios.broken_classifier_env
                               Scenarios.narrative), 0.2);
                     (0.5, 0.4); (score s, 0.2); (score t, 0.2)]) 3)%Q /\
    detection_methods res
    = Some (score (_pattern_based_detection Scenarios.broken_classifier_env
                     Scenarios.narrative), 0.5%Q, score s, score t).
Proof.
  apply (failed_model_scores_neutral Scenarios.broken_classifier_env
           default_settings (initial_state false) Scenarios.narrative None
           false Scenarios.model_unavailable); reflexivity.
Defined.

(** C6 as stated fails.  [_load_models] runs before the [try] block and
    re-raises what building the pipelines raised: with pipelines that
    cannot be built, [detect_fraud] raises to its caller. *)
Lemma detect_fraud_raises_when_loading_fails :
  (detect_fraud Scenarios.unloadable_env default_settings
     (initial_state false) Scenarios.narrative None false).1
  = Raise Scenarios.model_unavailable.
Proof. reflexivity. Qed.

Lemma degraded_fields (e : exn) :
  (fraud_score (degraded e) == 0.5)%Q /\
  is_suspicious (degraded e) = false /\
  risk_level (degraded e) = "UNKNOWN" /\
  indicators (degraded e) = ["Error in detection"] /\
  recommendation (degraded e) = "Manual review required due to system error" /\
  error (degraded e) = Some (exn_msg e).
Proof. repeat split. Qed.

(** C6, amended.  Once [_load_models] has succeeded, the ensemble never
    raises to the caller: whatever the gathered detectors return, the call
    returns an assessment; an exception of the guarded block yields the
    degraded assessment with [fraud_score = 0.5], [is_suspicious = false],
    [risk_level = UNKNOWN], the indicator "Error in detection" and the
    error text; and on a cache miss the failure of every detector is such
    an exception, the division by the empty weight sum. *)
Theorem detect_fraud_absorbs_failures :
  forall E settings rs st text shap,
    (_load_models E st).1 = Return () ->
    let run := detect_fraud_on E settings rs st text shap in
    let guarded :=
      detect_fraud_try E settings (_load_models E st).2 text rs shap in
    (exists r, run.1 = Return r) /\
    (forall e, guarded.1 = Raise e ->
       run.1 = Return (degraded e) /\
       (fraud_score (degraded e) == 0.5)%Q /\
       is_suspicious (degraded e) = false /\
       risk_level (degraded e) = "UNKNOWN" /\
       indicators (degraded e) = ["Error in detection"] /\
       error (degraded e) = Some (exn_msg e)) /\
    (Forall (fun r => is_exception r = true) rs ->
     (cache_get E (_load_models E st).2
        ("fraud:" +:+ md5_hexdigest E text)).1 = None ->
     run.1 = Return (degraded (Exn ZeroDivisionError "division by zero"))).
Proof.
  intros E settings rs st text shap Hload run guarded.
  split; [by apply detect_fraud_on_returns |].
  subst run guarded. rewrite (detect_fraud_on_loaded _ _ _ _ _ _ Hload).
  cbn [fst]. split.
  - intros e He. rewrite He. cbn.
    destruct (degraded_fields e) as (H1 & H2 & H3 & H4 & _ & H6). done.
  - intros Hall Hmiss.
    rewrite (detect_fraud_try_miss _ _ _ _ _ _ Hmiss).
    by rewrite (aggregate_all_failed _ _ _ _ _ _ _ Hall).
Qed.

Lemma detect_fraud_absorbs_failures_witness :
  (_load_models Scenarios.quiet_env (initial_state false)).1 = Return () /\
  (detect_fraud_try Scenarios.quiet_env default_settings
     (_load_models Scenarios.quiet_env (initial_state false)).2
     Scenarios.narrative Scenarios.all_failed false).1
  = Raise (Exn ZeroDivisionError "division by zero") /\
  risk_level (degraded (Exn ZeroDivisionError "division by zero"))
  = "UNKNOWN" /\
  (detect_fraud_on Scenarios.quiet_env default_settings Scenarios.all_failed
     (initial_state false) Scenarios.narrative false).1
  = Return (degraded (Exn ZeroDivisionError "division by zero")).
Proof.
  destruct (detect_fraud_absorbs_failures Scenarios.quiet_env
              default_settings Scenarios.all_failed (initial_state false)
              Scenarios.narrative false eq_refl)
    as (_ & Hraise & Hall).
  split; [reflexivity |]. split; [reflexivity |]. split.
  - destruct (Hraise _ eq_refl) as (_ & _ & _ & Hlevel & _). exact Hlevel.
  - apply Hall; [repeat constructor | reflexivity].
Defined.

End FraudFacts.

(** ** Risk assessment: bounds and fallback *)

Module AssessFacts.
Import Py Config Risk SpecWords PyFacts.

Lemma aggregate_risk_score_percent (base_score : BaseScore)
  (financial external : Adjustment) (fraud : option Fraud.FraudAssessment) :
  percent (_aggregate_risk_score base_score financial external fraud).
Proof. unfold _aggregate_risk_score. cbv zeta. apply clamp_bounds. lra. Qed.

Lemma py_round_percent (x : Q) (n : nat) : percent x -> percent (py_round x n).
Proof. intros [H0 H1]. apply (py_round_bounds x n 0 100). done. Qed.

Section Assessor.
Context (E : Env) (settings : Settings).

Lemma assess_risk_score_percent (nested : nested_call) (st : State)
  (structured_data : pydict) (policy_type : string)
  (coverage_amount : option Q) (enable_explainability : bool)
  (base_score : BaseScore) (financial external : Adjustment)
  (policy_context : string) (fraud_result : option Fraud.FraudAssessment)
  (r : RiskAssessment) :
  (assess_risk_score E settings nested st structured_data policy_type
     coverage_amount enable_explainability base_score financial external
     policy_context fraud_result).1 = Return r ->
  percent (risk_score r).
Proof.
  unfold assess_risk_score. cbv zeta.
  pose proof (py_round_percent _ 2
                (aggregate_risk_score_percent base_score financial external
                   fraud_result)) as Hscore.
  destruct (_generate_detailed_assessment _ _ _ _ _); [| discriminate].
  destruct (_generate_recommendations _ _); [| discriminate].
  destruct (_check_compliance _ _); [| discriminate].
  destruct enable_explainability; cbn [fst].
  - destruct (_run_scenario_analysis _ _ _ _).1; [| discriminate].
    cbn. by intros [= <-].
  - by intros [= <-].
Qed.

Lemma assess_risk_try_percent (nested : nested_call) (st : State)
  (applicant_data : pyval) (policy_type : string)
  (coverage_amount : option Q) (fraud_check explain : bool)
  (r : RiskAssessment) :
  (assess_risk_try E settings nested st applicant_data policy_type
     coverage_amount fraud_check explain).1 = Return r ->
  percent (risk_score r).
Proof.
  unfold assess_risk_try.
  destruct (_parse_applicant_data E applicant_data); [| discriminate].
  cbv zeta.
  match goal with
  | |- (match ?fr with _ => _ end).1 = _ -> _ => destruct fr as [f |]
  end; [destruct (Fraud.is_suspicious f) |];
    try apply assess_risk_score_percent.
  cbn. intros [= <-]. cbn. unfold percent. lra.
Qed.

(** A failing parse of the applicant data is one way into the [except]
    block. *)
Lemma assess_risk_try_parse_error (nested : nested_call) (st : State)
  (applicant_data : pyval) (policy_type : string)
  (coverage_amount : option Q) (fraud_check explain : bool) (e : exn) :
  _parse_applicant_data E applicant_data = Raise e ->
  (assess_risk_try E settings nested st applicant_data policy_type
     coverage_amount fraud_check explain).1 = Raise e.
Proof. intros He. unfold assess_risk_try. by rewrite He. Qed.

(** [assess_risk] returns, with a score between 0 and 100; what its
    [try] block raises it turns into the fallback. *)
Lemma assess_risk_with_total (nested : nested_call) (st : State)
  (applicant_data : pyval) (policy_type : string)
  (coverage_amount : option Q) (fraud_check explain : bool) :
  exists r,
    (assess_risk_with E settings nested st applicant_data policy_type
       coverage_amount fraud_check explain).1 = Return r /\
    percent (risk_score r) /\
    (forall e,
       (assess_risk_try E settings nested (_load_models E st) applicant_data
          policy_type coverage_amount fraud_check explain).1 = Raise e ->
       r = fallback e).
Proof.
  unfold assess_risk_with. cbv zeta. cbn [fst].
  destruct (assess_risk_try _ _ _ _ _ _ _ _ _).1 as [r | e] eqn:Htry; cbn.
  - exists r. split; [done |]. split; [| done].
    by apply assess_risk_try_percent in Htry.
  - exists (fallback e). split; [done |].
    split; [cbn; unfold percent; lra |]. by intros ? [= <-].
Qed.

End Assessor.
(** C10.  Whatever escapes the [try] block of [assess_risk] after model
    loading, [assess_risk] does not raise: it returns the fallback with
    [risk_score = 50] and [decision = MANUAL_REVIEW] that carries the error
    text; such an escape happens, for one, when the applicant data cannot
    be parsed.  The call returns a result in every case. *)
Theorem assess_risk_falls_back :
  forall E E' settings st data policy_type coverage fraud_check explain,
    (exists r,
       (assess_risk E E' settings st data policy_type coverage fraud_check
          explain).1 = Return r) /\
    (forall e,
       (assess_risk_try E settings (nested_assess_risk E' settings)
          (_load_models E st) data policy_type coverage fraud_check
          explain).1 = Raise e ->
       (assess_risk E E' settings st data policy_type coverage fraud_check
          explain).1 = Return (fallback e) /\
       (risk_score (fallback e) == 50)%Q /\
       decision (fallback e) = "MANUAL_REVIEW" /\
       error (fallback e) = Some (exn_msg e) /\
       reason (fallback e)
       = Some ("Error in automated assessment: " +:+ exn_msg e)) /\
    (forall e,
       _parse_applicant_data E data = Raise e ->
       (assess_risk E E' settings st data policy_type coverage fraud_check
          explain).1 = Return (fallback e)).
Proof.
  intros E E' settings st data policy_type coverage fraud_check explain.
  destruct (assess_risk_with_total E settings (nested_assess_risk E' settings)
              st data policy_type coverage fraud_check explain)
    as (r & Hrun & _ & Hfallback).
  unfold assess_risk. rewrite Hrun.
  split; [by exists r |]. split.
  - intros e He. rewrite (Hfallback e He). by repeat split.
  - intros e He. f_equal. apply Hfallback.
    by apply assess_risk_try_parse_error.
Qed.

Lemma assess_risk_falls_back_witness :
  _parse_applicant_data (Scenarios.risk_env Scenarios.quiet_env)
    Scenarios.malformed_applicant
  = Raise (Exn AttributeError "object has no attribute 'lower'") /\
  (assess_risk_try (Scenarios.risk_env Scenarios.quiet_env) default_settings
     (nested_assess_risk (Scenarios.risk_env Scenarios.quiet_env)
        default_settings)
     (_load_models (Scenarios.risk_env Scenarios.quiet_env)
        (initial_state false))
     Scenarios.malformed_applicant "auto" None true true).1
  = Raise (Exn AttributeError "object has no attribute 'lower'") /\
  decision (fallback (Exn AttributeError "object has no attribute 'lower'"))
  = "MANUAL_REVIEW" /\
  (assess_risk (Scenarios.risk_env Scenarios.quiet_env)
     (Scenarios.risk_env Scenarios.quiet_env) default_settings
     (initial_state false) Scenarios.malformed_applicant "auto" None true
     true).1
  = Return (fallback (Exn AttributeError "object has no attribute 'lower'")).
Proof.
  destruct (assess_risk_falls_back
              (Scenarios.risk_env Scenarios.quiet_env)
              (Scenarios.risk_env Scenarios.quiet_env)
              default_settings (initial_state false)
              Scenarios.malformed_applicant "auto" None true true)
    as (_ & Hraise & Hparse).
  split; [reflexivity |]. split; [reflexivity |]. split.
  - destruct (Hraise _ eq_refl) as (_ & _ & Hdecision & _). exact Hdecision.
  - apply Hparse. reflexivity.
Defined.

End AssessFacts.

(** ** Score ranges *)

Module RangeFacts.
Import Py Config SpecWords PyFacts FraudFacts AssessFacts.

(** C8.  The fraud ensemble reports a [fraud_score] in [0,1]: each
    detector score is non-negative and at most 1 (the pattern and
    statistical scores are capped, the sentiment score is a constant, the
    model score is the classifier's probability or its complement), the
    weighted average keeps the bounds, and so do the cached assessments of
    every state the singletons can reach.  The risk aggregator reports a
    [risk_score] in [0,100]: the aggregate is clamped, the fraud
    short-circuit returns 100 and the error fallback 50. *)
Theorem scores_within_bounds :
  (forall settings E st text metadata shap,
     reachable settings st -> classifier_sound E ->
     (forall r,
        (Fraud.detect_fraud E settings st text metadata shap).1 = Return r ->
        unit_interval (Fraud.fraud_score r)) /\
     Forall (fun d => forall r, d = Return r -> unit_interval (Fraud.score r))
            (Fraud.gather_detectors E text metadata)) /\
  (forall scores x,
     Forall unit_interval scores ->
     Fraud.ensemble_score scores = Return x -> unit_interval x) /\
  (forall base financial external fraud,
     percent (Risk._aggregate_risk_score base financial external fraud)) /\
  (forall E E' settings st data policy_type coverage fraud_check explain,
     exists r,
       (Risk.assess_risk E E' settings st data policy_type coverage
          fraud_check explain).1 = Return r /\
       percent (Risk.risk_score r)) /\
  (forall f, (Risk.risk_score (Risk.fraud_rejection f) == 100)%Q) /\
  (forall e, (Risk.risk_score (Risk.fallback e) == 50)%Q).
Proof.
  split; [| split; [| split; [| split; [| split]]]].
  - intros settings E st text metadata shap Hreach Hsound.
    split.
    + apply (detect_fraud_on_sound E settings).
      * by apply (reachable_sound settings).
      * by apply gather_detectors_unit.
    + by apply gather_detectors_unit.
  - exact ensemble_score_unit.
  - exact aggregate_risk_score_percent.
  - intros E E' settings st data policy_type coverage fraud_check explain.
    destruct (assess_risk_with_total E settings
                (Risk.nested_assess_risk E' settings) st data policy_type
                coverage fraud_check explain) as (r & Hrun & Hpercent & _).
    by exists r.
  - done.
  - done.
Qed.

Lemma quiet_classifier_sound : classifier_sound Scenarios.quiet_env.
Proof. intros text label sc [= <- <-]. unfold unit_interval. lra. Qed.

Lemma scores_within_bounds_witness :
  reachable default_settings (Fraud.initial_state false) /\
  classifier_sound Scenarios.quiet_env /\
  (exists r,
     (Fraud.detect_fraud Scenarios.quiet_env default_settings
        (Fraud.initial_state false) Scenarios.narrative None false).1
     = Return r /\
     unit_interval (Fraud.fraud_score r)) /\
  Forall unit_interval [0.2; 0.8]%Q /\
  exists x,
    Fraud.ensemble_score [0.2; 0.8]%Q = Return x /\ unit_interval x.
Proof.
  destruct scores_within_bounds as (Hfraud & Hensemble & _).
  assert (Forall unit_interval [0.2; 0.8]%Q) as Hscores.
  { constructor; [split; by vm_compute |].
    constructor; [split; by vm_compute | constructor]. }
  split; [constructor |]. split; [exact quiet_classifier_sound |].
  split; [| split; [exact Hscores |]].
  - eexists. split; [reflexivity |].
    apply (proj1 (Hfraud default_settings Scenarios.quiet_env
                    (Fraud.initial_state false) Scenarios.narrative None
                    false (reachable_initial default_settings false)
                    quiet_classifier_sound)).
    reflexivity.
  - eexists. split; [reflexivity |].
    apply (Hensemble [0.2; 0.8]%Q _ Hscores). reflexivity.
Defined.

End RangeFacts.

(** ** Claims adjudication *)

Module ClaimFacts.
Import Py Config Claim SpecWords PyFacts.

Section Stages.
Context (E : Env).

Lemma eq_str_true (v : pyval) (s : string) :
  eq_str v s = true <-> v = PStr s.
Proof.
  destruct v; cbn; try (split; [discriminate | intros [=]]).
  rewrite String.eqb_eq. split; [by intros -> | by intros [= ->]].
Qed.

Lemma verdict_is (d : pydict) (s : string) :
  eq_str (dict_get d "verdict" PNone) s = true
  <-> d !! "verdict" = Some (PStr s).
Proof.
  rewrite eq_str_true. unfold dict_get.
  destruct (d !! "verdict") as [v |]; split;
    try congruence; try discriminate.
Qed.

(** STAGE E keeps every key the reply has. *)
Lemma ensure_keys_spec (parsed : pyval) (d' : pydict) :
  ensure_keys parsed = Return d' ->
  exists d, parsed = PDict d /\
    is_Some (d' !! "document_verification") /\
    (forall k v, d !! k = Some v -> d' !! k = Some v) /\
    (forall k, k <> "document_verification" -> k <> "document_guidance" ->
               d' !! k = d !! k).
Proof.
  destruct parsed as [| | | | | d]; try discriminate.
  cbn. intros [= <-]. exists d. split; [done |].
  repeat case_bool_decide;
    repeat match goal with
           | H : context [<[_ := _]> _ !! _] |- _ =>
               rewrite lookup_insert_ne in H by done
           end;
    (split; [| split]);
    try (intros k v Hk;
         repeat (rewrite lookup_insert_ne;
                 [| intros <-; rewrite Hk in *; naive_solver]);
         exact Hk);
    try (intros; by simplify_map_eq);
    try (by simplify_map_eq).
Qed.

(** STAGE F. *)
Lemma fraud_override_spec (fraud_score : Q) (d d' : pydict) :
  fraud_override E fraud_score d = Return d' ->
  (forall k, k <> "verdict" -> k <> "fraud_risk" -> k <> "fraud_score" ->
             k <> "internal_notes" -> d' !! k = d !! k) /\
  ((0.65 <= fraud_score)%Q /\ d !! "verdict" = Some (PStr "APPROVED") ->
   d' !! "verdict" = Some (PStr "UNDER_INVESTIGATION") /\
   d' !! "fraud_risk" = Some (PStr "HIGH") /\
   d' !! "fraud_score" = Some (PNum fraud_score)) /\
  (~ ((0.65 <= fraud_score)%Q /\ d !! "verdict" = Some (PStr "APPROVED")) ->
   d' = d).
Proof.
  unfold fraud_override.
  destruct (Qleb 0.65 fraud_score) eqn:Hfs;
    [destruct (eq_str (dict_get d "verdict" PNone) "APPROVED") eqn:Hv |];
    cbn [andb].
  - apply Qleb_true in Hfs. apply verdict_is in Hv.
    destruct (py_add _ _) as [notes |]; [| discriminate].
    cbn. intros [= <-].
    split; [intros; by simplify_map_eq |].
    split; [intros _; by simplify_map_eq | intros Hn; by destruct Hn].
  - intros [= <-]. split; [done |]. split; [| done].
    intros [_ Hd]. apply verdict_is in Hd. congruence.
  - intros [= <-]. split; [done |]. split; [| done].
    intros [Hle _]. apply Qleb_true in Hle. congruence.
Qed.

(** The list of STAGE G reads two keys only. *)
Lemma all_insufficient_ext (d d' : pydict) :
  d' !! "document_verification" = d !! "document_verification" ->
  d' !! "missing_documents" = d !! "missing_documents" ->
  all_insufficient d' = all_insufficient d.
Proof.
  intros H1 H2. unfold all_insufficient, dict_get. by rewrite H1, H2.
Qed.

(** STAGE G. *)
Lemma pending_override_spec (d d' : pydict) :
  pending_override d = Return d' ->
  exists l,
    all_insufficient d = Return l /\
    d' !! "missing_documents" = Some (PList l) /\
    (forall k, k <> "verdict" -> k <> "missing_documents" ->
               d' !! k = d !! k) /\
    (l <> [] /\ d !! "verdict" = Some (PStr "APPROVED") ->
     d' !! "verdict" = Some (PStr "PENDING_DOCUMENTS")) /\
    (~ (l <> [] /\ d !! "verdict" = Some (PStr "APPROVED")) ->
     d' !! "verdict" = d !! "verdict").
Proof.
  unfold pending_override.
  destruct (all_insufficient d) as [l |]; [| discriminate].
  cbn. exists l. split; [done |].
  assert (dict_get (<["missing_documents" := PList l]> d) "verdict" PNone
          = dict_get d "verdict" PNone) as Hget.
  { unfold dict_get. by simplify_map_eq. }
  rewrite Hget in H.
  destruct (eq_str (dict_get d "verdict" PNone) "APPROVED") eqn:Hv.
  - apply verdict_is in Hv. destruct l as [| x l]; cbn in H;
      injection H as <-.
    + split; [by simplify_map_eq |].
      split; [intros; by simplify_map_eq |].
      split; [by intros [? _] | intros _; by simplify_map_eq].
    + split; [by simplify_map_eq |].
      split; [intros; by simplify_map_eq |].
      split; [intros _; by simplify_map_eq | intros Hn; by destruct Hn].
  - rewrite andb_false_r in H. injection H as <-.
    split; [by simplify_map_eq |].
    split; [intros; by simplify_map_eq |].
    split; [| intros _; by simplify_map_eq].
    intros [_ Hd]. apply verdict_is in Hd. congruence.
Qed.

Lemma is_approved_true (verdict : option pyval) :
  is_approved verdict = true <-> verdict = Some (PStr "APPROVED").
Proof.
  destruct verdict as [v |]; cbn; [| split; discriminate].
  rewrite eq_str_true. split; [by intros -> | by intros [= ->]].
Qed.

(** STAGE I touches the claimant message only. *)
Lemma enrich_spec (d d' : pydict) :
  enrich E d = Return d' ->
  forall k, k <> "claimant_message" -> d' !! k = d !! k.
Proof.
  unfold enrich. cbv zeta.
  destruct (eq_str _ "PENDING_DOCUMENTS");
    [| destruct (eq_str _ "REJECTED")].
  - unfold _enrich_pending_response. cbv zeta.
    destruct (lacks_message d) as [[] |]; cbn; try discriminate.
    + destruct (truthy _); cbn.
      * destruct (py_iter _); cbn; [| discriminate].
        intros [= <-] k Hk. by simplify_map_eq.
      * intros [= <-] k Hk. by simplify_map_eq.
    + by intros [= <-].
  - unfold _enrich_rejected_response.
    destruct (lacks_message d) as [[] |]; cbn; try discriminate.
    + intros [= <-] k Hk. by simplify_map_eq.
    + by intros [= <-].
  - by intros [= <-].
Qed.

Lemma report_fraud_score_spec (fraud_score : Q) (d d' : pydict) :
  report_fraud_score fraud_score d = Return d' ->
  forall k, k <> "fraud_score" -> d' !! k = d !! k.
Proof.
  unfold report_fraud_score.
  destruct (num_of _); cbn; [| discriminate].
  intros [= <-] k Hk. by simplify_map_eq.
Qed.

(** A reply without the key ["document_verification"] has the same
    insufficiency list as the reply completed by STAGE E. *)
Lemma all_insufficient_ensure_keys (d dE : pydict) :
  ensure_keys (PDict d) = Return dE ->
  all_insufficient dE = all_insufficient d.
Proof.
  cbn. intros [= <-].
  unfold all_insufficient, dict_get.
  repeat case_bool_decide;
    repeat match goal with
           | H : context [<[_ := _]> _ !! _] |- _ =>
               rewrite lookup_insert_ne in H by done
           end;
    simplify_map_eq; try done.
  all: destruct (d !! "document_verification") eqn:Hdv;
    [exfalso; eauto | done].
Qed.

(** What STAGES E to I make of a parsed reply: the verdict is the
    overridden verdict of the specification, the insufficiency list is
    stored under ["missing_documents"]. *)
Lemma override_checks_spec (fraud_score : Q) (docs : list string)
  (parsed : pyval) (r : pydict) :
  override_checks E fraud_score docs parsed = Return r ->
  exists d l,
    parsed = PDict d /\
    all_insufficient d = Return l /\
    r !! "missing_documents" = Some (PList l) /\
    r !! "verdict" = overridden_verdict fraud_score (d !! "verdict") l /\
    ((0.65 <= fraud_score)%Q /\ d !! "verdict" = Some (PStr "APPROVED") ->
     r !! "fraud_risk" = Some (PStr "HIGH")).
Proof.
  unfold override_checks.
  destruct (ensure_keys parsed) as [dE |] eqn:HE; [| discriminate].
  destruct (ensure_keys_spec _ _ HE) as (d & -> & _ & _ & HkeepE).
  cbn. destruct (fraud_override E fraud_score dE) as [dF |] eqn:HF;
    [| discriminate].
  destruct (fraud_override_spec _ _ _ HF) as (HkeepF & HFyes & HFno).
  cbn. destruct (pending_override dF) as [dG |] eqn:HG; [| discriminate].
  destruct (pending_override_spec _ _ HG)
    as (l & Hl & Hmissing & HkeepG & HGyes & HGno).
  cbn. destruct (enrich E _) as [dI |] eqn:HI; [| discriminate].
  pose proof (enrich_spec _ _ HI) as HkeepI.
  cbn. intros HR. pose proof (report_fraud_score_spec _ _ _ HR) as HkeepR.
  assert (forall k, k <> "claimant_message" -> k <> "fraud_score" ->
                    k <> "submitted_documents_echo" -> r !! k = dG !! k)
    as Hfinal.
  { intros k H1 H2 H3. rewrite HkeepR, HkeepI by done. by simplify_map_eq. }
  assert (dE !! "verdict" = d !! "verdict") as HvE by (by apply HkeepE).
  exists d, l. split; [done |].
  split.
  { rewrite <- (all_insufficient_ensure_keys d dE HE), <- Hl.
    symmetry. apply all_insufficient_ext; by apply HkeepF. }
  split; [by rewrite Hfinal |].
  rewrite !Hfinal by done. rewrite <- HvE.
  unfold overridden_verdict.
  destruct (is_approved (dE !! "verdict")) eqn:Happ.
  - apply is_approved_true in Happ.
    destruct (Qleb 0.65 fraud_score) eqn:Hfs.
    + apply Qleb_true in Hfs.
      destruct (HFyes (conj Hfs Happ)) as (HvF & HrF & _).
      split.
      * rewrite HGno; [done |]. intros [_ Hv]. congruence.
      * intros _. by rewrite HkeepG.
    + assert (dF = dE) as ->.
      { apply HFno. intros [Hle _]. apply Qleb_true in Hle. congruence. }
      split.
      * destruct l as [| x l]; [rewrite HGno; [done | by intros [? _]] |].
        by apply HGyes.
      * intros [Hle _]. apply Qleb_true in Hle. congruence.
  - assert (dE !! "verdict" <> Some (PStr "APPROVED")) as Hnot.
    { intros Hv. apply is_approved_true in Hv. congruence. }
    assert (dF = dE) as -> by (apply HFno; by intros [_ ?]).
    split; [apply HGno; by intros [_ ?] |].
    intros [_ Hv]. congruence.
Qed.

End Stages.

(** *** The endpoint *)

Section Endpoint.
Context (E : Env) (settings : Settings).

(** A run that reaches the grounded decision and answers has received a
    reply, parsed it and taken it through the override checks. *)
Lemma adjudicate_spec (st : Fraud.State) (request : ClaimRequest)
  (fraud_score : Q) (made : list Call) (resp : ClaimResponse) :
  response (adjudicate E st request fraud_score made) = Return resp ->
  exists raw parsed,
    generate_response_async E (claim_prompt E request) = Return raw /\
    parse_result E fraud_score raw = Return parsed /\
    override_checks E fraud_score (submitted_docs request) parsed
    = Return (result resp).
Proof.
  unfold adjudicate. cbv zeta.
  destruct (generate_response_async E _) as [raw |] eqn:Hraw;
    [| discriminate].
  cbn [response].
  destruct (parse_result E fraud_score raw) as [parsed |] eqn:Hparsed;
    [| discriminate].
  cbn. destruct (override_checks _ _ _ _) as [r |] eqn:Hr; [| discriminate].
  intros [= <-]. by exists raw, parsed.
Qed.



(** Every answered run either handed the claim to an investigator at the
    pre-filter or went through the override checks. *)
Lemma endpoint_answers (st : Fraud.State) (request : ClaimRequest)
  (resp : ClaimResponse) :
  response (process_claim_endpoint E settings st request) = Return resp ->
  exists fr,
    (Fraud.detect_fraud (fraud_env E) settings st (text_for_fraud request)
       None false).1 = Return fr /\
    ((Fraud.is_suspicious fr = true /\
      result resp
      = _build_under_investigation_response E fr (claim_data request)) \/
     (Fraud.is_suspicious fr = false /\
      exists raw parsed,
        generate_response_async E (claim_prompt E request) = Return raw /\
        parse_result E (Fraud.fraud_score fr) raw = Return parsed /\
        override_checks E (Fraud.fraud_score fr) (submitted_docs request)
          parsed = Return (result resp))).
Proof.
  unfold process_claim_endpoint.
  destruct (String.eqb _ ""); [discriminate |]. cbv zeta.
  destruct (Fraud.detect_fraud _ _ _ _ _ _).1 as [fr |]; [| discriminate].
  destruct (Fraud.is_suspicious fr) eqn:Hflag.
  - cbn. intros [= <-]. exists fr. split; [done |]. by left.
  - intros Hresp. exists fr. split; [done |]. right. split; [done |].
    by eapply adjudicate_spec.
Qed.

Lemma handoff_fields (fr : Fraud.FraudAssessment) (data : ClaimRequest) :
  _build_under_investigation_response E fr data !! "verdict"
  = Some (PStr "UNDER_INVESTIGATION") /\
  _build_under_investigation_response E fr data !! "fraud_risk"
  = Some (PStr "HIGH") /\
  _build_under_investigation_response E fr data !! "missing_documents"
  = Some (PList []).
Proof. repeat split; reflexivity. Qed.

End Endpoint.



(** *** The insufficiency list *)

Lemma dedup_keys_nil (xs : list pyval) : dedup_keys [] xs = [] <-> xs = [].
Proof. destruct xs; cbn; split; intros; done. Qed.

(** With the legacy field and the two fields of the document
    verification holding lists of hashable items, the list of STAGE G is
    the concatenation of the three, duplicates dropped; it is empty only
    when all three are. *)
Lemma all_insufficient_lists (d dv : pydict) (l1 l2 l3 : list pyval) :
  d !! "missing_documents" = Some (PList l1) ->
  d !! "document_verification" = Some (PDict dv) ->
  dv !! "declared_but_unverified" = Some (PList l2) ->
  dv !! "missing" = Some (PList l3) ->
  forallb hashable ((l1 ++ l2) ++ l3) = true ->
  all_insufficient d = Return (dedup_keys [] ((l1 ++ l2) ++ l3)) /\
  (dedup_keys [] ((l1 ++ l2) ++ l3) = [] <-> l1 = [] /\ l2 = [] /\ l3 = []).
Proof.
  intros H1 Hdv H2 H3 Hhash. split.
  - unfold all_insufficient, dict_get. rewrite H1, Hdv. cbn.
    rewrite H2, H3. cbn. by rewrite Hhash.
  - rewrite dedup_keys_nil. split.
    + intros Happ. apply app_eq_nil in Happ as [Happ ->].
      by apply app_eq_nil in Happ as [-> ->].
    + by intros (-> & -> & ->).
Qed.

Lemma overridden_verdict_not_approved (fraud_score : Q)
  (verdict : option pyval) (l : list pyval) :
  l <> [] ->
  overridden_verdict fraud_score verdict l <> Some (PStr "APPROVED").
Proof.
  intros Hl. unfold overridden_verdict.
  destruct (is_approved verdict) eqn:Happ.
  - destruct (Qleb 0.65 fraud_score); [discriminate |].
    destruct l; [done | discriminate].
  - intros Hv. apply is_approved_true in Hv. congruence.
Qed.

(** C1 as stated fails.  With a pre-filter score of 0.66, below the
    suspicion threshold 0.75 and above the override threshold 0.65, a
    grounded decision of APPROVED with one missing document ends as
    UNDER_INVESTIGATION, not as PENDING_DOCUMENTS. *)
Lemma approved_with_missing_document_is_investigated :
  Scenarios.approving_reply !! "verdict" = Some (PStr "APPROVED") /\
  (exists fr,
     (Fraud.detect_fraud Scenarios.alarming_env default_settings
        (Fraud.initial_state false) Scenarios.alarming_narrative None false).1
     = Return fr /\
     (Fraud.fraud_score fr == 0.66)%Q /\ Fraud.is_suspicious fr = false) /\
  exists resp,
    response
      (process_claim_endpoint
         (Scenarios.claim_env Scenarios.alarming_env "{}"
            (Return (PDict Scenarios.approving_reply)))
         default_settings (Fraud.initial_state false) Scenarios.alarming_request)
    = Return resp /\
    result resp !! "missing_documents"
    = Some (PList [PStr "Police report"]) /\
    result resp !! "verdict" = Some (PStr "UNDER_INVESTIGATION") /\
    result resp !! "verdict" <> Some (PStr "PENDING_DOCUMENTS").
Proof.
  split; [reflexivity |].
  split; [eexists; split; [reflexivity | split; [by vm_compute | reflexivity]] |].
  eexists. split; [reflexivity |]. split; [reflexivity |].
  split; [reflexivity | vm_compute; discriminate].
Qed.

(** C1, amended.  For every run that completes the override stage, the
    merged, deduplicated insufficiency list (the legacy
    [missing_documents] field, [declared_but_unverified] and [missing]) is
    stored under ["missing_documents"], and when it is not empty the final
    verdict is never APPROVED: a grounded decision of APPROVED becomes
    PENDING_DOCUMENTS when the pre-filter fraud score is below 0.65, and
    UNDER_INVESTIGATION, by the fraud override that runs first, when the
    score is at least 0.65.  The same holds for every answered run of the
    endpoint. *)
Theorem missing_documents_block_approval :
  (forall E fraud_score docs parsed r,
     override_checks E fraud_score docs parsed = Return r ->
     exists d l,
       parsed = PDict d /\
       all_insufficient d = Return l /\
       r !! "missing_documents" = Some (PList l) /\
       (l <> [] -> r !! "verdict" <> Some (PStr "APPROVED")) /\
       (l <> [] -> d !! "verdict" = Some (PStr "APPROVED") ->
        ((fraud_score < 0.65)%Q ->
         r !! "verdict" = Some (PStr "PENDING_DOCUMENTS")) /\
        ((0.65 <= fraud_score)%Q ->
         r !! "verdict" = Some (PStr "UNDER_INVESTIGATION")))) /\
  (forall d dv l1 l2 l3,
     d !! "missing_documents" = Some (PList l1) ->
     d !! "document_verification" = Some (PDict dv) ->
     dv !! "declared_but_unverified" = Some (PList l2) ->
     dv !! "missing" = Some (PList l3) ->
     forallb hashable ((l1 ++ l2) ++ l3) = true ->
     all_insufficient d = Return (dedup_keys [] ((l1 ++ l2) ++ l3)) /\
     (dedup_keys [] ((l1 ++ l2) ++ l3) = []
      <-> l1 = [] /\ l2 = [] /\ l3 = [])) /\
  (forall E settings st request resp l,
     response (process_claim_endpoint E settings st request) = Return resp ->
     result resp !! "missing_documents" = Some (PList l) ->
     l <> [] ->
     result resp !! "verdict" <> Some (PStr "APPROVED")).
Proof.
  split; [| split].
  - intros E fraud_score docs parsed r Hr.
    destruct (override_checks_spec E _ _ _ _ Hr)
      as (d & l & -> & Hl & Hmissing & Hverdict & _).
    exists d, l. repeat (split; [done |]). split.
    + intros Hne. rewrite Hverdict.
      by apply overridden_verdict_not_approved.
    + intros Hne Happ. rewrite Hverdict. unfold overridden_verdict.
      apply is_approved_true in Happ. rewrite Happ. split.
      * intros Hlt. apply Qleb_false in Hlt. rewrite Hlt.
        by destruct l.
      * intros Hle. apply Qleb_true in Hle. by rewrite Hle.
  - exact all_insufficient_lists.
  - intros E settings st request resp l Hresp Hmissing Hne.
    destruct (endpoint_answers E settings st request resp Hresp)
      as (fr & _ & [[_ Hpayload] | (_ & raw & parsed & _ & _ & Hchecks)]).
    + rewrite Hpayload in Hmissing.
      destruct (handoff_fields E fr (claim_data request)) as (_ & _ & Hm).
      rewrite Hm in Hmissing. by injection Hmissing as <-.
    + destruct (override_checks_spec E _ _ _ _ Hchecks)
        as (d & l' & _ & _ & Hmissing' & Hverdict & _).
      rewrite Hmissing' in Hmissing. injection Hmissing as ->.
      rewrite Hverdict. by apply overridden_verdict_not_approved.
Qed.

Lemma missing_documents_block_approval_witness :
  (exists resp,
     response
       (process_claim_endpoint
          (Scenarios.claim_env Scenarios.quiet_env "{}"
             (Return (PDict Scenarios.approving_reply)))
          default_settings (Fraud.initial_state false) Scenarios.request)
     = Return resp /\
     result resp !! "missing_documents"
     = Some (PList [PStr "Police report"]) /\
     result resp !! "verdict" = Some (PStr "PENDING_DOCUMENTS") /\
     result resp !! "verdict" <> Some (PStr "APPROVED")) /\
  all_insufficient Scenarios.verified_reply
  = Return [PStr "Police report"; PStr "Photographs"] /\
  exists r,
    override_checks
      (Scenarios.claim_env Scenarios.quiet_env "{}"
         (Return (PDict Scenarios.approving_reply)))
      0.1 ["Photographs"] (PDict Scenarios.verified_reply) = Return r /\
    r !! "verdict" = Some (PStr "PENDING_DOCUMENTS").
Proof.
  destruct missing_documents_block_approval as (Hchecks & Hlists & Hrun).
  split; [| split].
  - eexists. split; [reflexivity |]. split; [reflexivity |].
    split; [reflexivity |].
    apply (Hrun (Scenarios.claim_env Scenarios.quiet_env "{}"
                   (Return (PDict Scenarios.approving_reply)))
             default_settings (Fraud.initial_state false) Scenarios.request
             _ [PStr "Police report"] eq_refl eq_refl).
    discriminate.
  - apply (Hlists Scenarios.verified_reply Scenarios.verification
             [PStr "Police report"] [PStr "Photographs"]
             [PStr "Police report"] eq_refl eq_refl eq_refl eq_refl eq_refl).
  - eexists. split; [reflexivity |].
    destruct (Hchecks (Scenarios.claim_env Scenarios.quiet_env "{}"
                         (Return (PDict Scenarios.approving_reply)))
                0.1%Q ["Photographs"] (PDict Scenarios.verified_reply) _
                eq_refl)
      as (d & l & Hd & Hl & _ & _ & Hverdict).
    injection Hd as <-. injection Hl as <-.
    apply Hverdict; [discriminate | reflexivity | reflexivity].
Defined.

Lemma fraud_override_returns (E : Env) (fraud_score : Q) (d : pydict) :
  d !! "internal_notes" = None \/
  (exists s, d !! "internal_notes" = Some (PStr s)) ->
  exists d', fraud_override E fraud_score d = Return d'.
Proof.
  intros Hnotes. unfold fraud_override.
  destruct (Qleb 0.65 fraud_score && _); [| by eexists].
  cbv zeta. unfold dict_get. rewrite !lookup_insert_ne by done.
  destruct Hnotes as [-> | [s ->]]; cbn; by eexists.
Qed.

(** C2.  With a pre-filter fraud score of at least 0.65 and a parsed
    verdict of APPROVED, every run that completes the override checks ends
    with the verdict UNDER_INVESTIGATION and [fraud_risk = HIGH]; the
    override itself returns whenever the reply's [internal_notes] are a
    string or absent; and a reply whose verdict is not APPROVED passes the
    override unchanged.  The same holds for every answered run of the
    endpoint. *)
Theorem fraud_override_forces_investigation :
  (forall E fraud_score docs d r,
     (0.65 <= fraud_score)%Q ->
     d !! "verdict" = Some (PStr "APPROVED") ->
     override_checks E fraud_score docs (PDict d) = Return r ->
     r !! "verdict" = Some (PStr "UNDER_INVESTIGATION") /\
     r !! "fraud_risk" = Some (PStr "HIGH")) /\
  (forall E fraud_score d d',
     (0.65 <= fraud_score)%Q ->
     d !! "verdict" = Some (PStr "APPROVED") ->
     fraud_override E fraud_score d = Return d' ->
     d' !! "verdict" = Some (PStr "UNDER_INVESTIGATION") /\
     d' !! "fraud_risk" = Some (PStr "HIGH") /\
     d' !! "fraud_score" = Some (PNum fraud_score)) /\
  (forall E fraud_score d,
     d !! "internal_notes" = None \/
     (exists s, d !! "internal_notes" = Some (PStr s)) ->
     exists d', fraud_override E fraud_score d = Return d') /\
  (forall E fraud_score d,
     d !! "verdict" <> Some (PStr "APPROVED") ->
     fraud_override E fraud_score d = Return d) /\
  (forall E settings st request fr raw d resp,
     response (process_claim_endpoint E settings st request) = Return resp ->
     (Fraud.detect_fraud (fraud_env E) settings st (text_for_fraud request)
        None false).1 = Return fr ->
     Fraud.is_suspicious fr = false ->
     (0.65 <= Fraud.fraud_score fr)%Q ->
     generate_response_async E (claim_prompt E request) = Return raw ->
     parse_result E (Fraud.fraud_score fr) raw = Return (PDict d) ->
     d !! "verdict" = Some (PStr "APPROVED") ->
     result resp !! "verdict" = Some (PStr "UNDER_INVESTIGATION") /\
     result resp !! "fraud_risk" = Some (PStr "HIGH")).
Proof.
  assert (forall E fraud_score docs d r,
            (0.65 <= fraud_score)%Q ->
            d !! "verdict" = Some (PStr "APPROVED") ->
            override_checks E fraud_score docs (PDict d) = Return r ->
            r !! "verdict" = Some (PStr "UNDER_INVESTIGATION") /\
            r !! "fraud_risk" = Some (PStr "HIGH")) as Hchecks.
  { intros E fraud_score docs d r Hle Happ Hr.
    destruct (override_checks_spec E _ _ _ _ Hr)
      as (d0 & l & [= <-] & _ & _ & Hverdict & Hrisk).
    split; [| by apply Hrisk].
    rewrite Hverdict. unfold overridden_verdict.
    apply is_approved_true in Happ. rewrite Happ.
    apply Qleb_true in Hle. by rewrite Hle. }
  split; [exact Hchecks |]. split; [| split; [| split]].
  - intros E fraud_score d d' Hle Happ Hd'.
    by apply (fraud_override_spec E _ _ _ Hd').
  - exact fraud_override_returns.
  - intros E fraud_score d Hnot. unfold fraud_override.
    destruct (eq_str (dict_get d "verdict" PNone) "APPROVED") eqn:Hv.
    { apply verdict_is in Hv. congruence. }
    by rewrite andb_false_r.
  - intros E settings st request fr raw d resp Hresp Hfr Hflag Hle Hraw
      Hparsed Happ.
    destruct (endpoint_answers E settings st request resp Hresp)
      as (fr' & Hfr' & Hcases).
    rewrite Hfr in Hfr'. injection Hfr' as <-.
    destruct Hcases as [[Hyes _] | (_ & raw' & parsed & Hraw' & Hparsed' & Hr)];
      [congruence |].
    rewrite Hraw in Hraw'. injection Hraw' as <-.
    rewrite Hparsed in Hparsed'. injection Hparsed' as <-.
    by apply (Hchecks E _ _ d _ Hle Happ Hr).
Qed.

Lemma fraud_override_forces_investigation_witness :
  (0.65 <= 0.66)%Q /\
  Scenarios.approving_reply !! "verdict" = Some (PStr "APPROVED") /\
  (exists d',
     fraud_override
       (Scenarios.claim_env Scenarios.alarming_env "{}"
          (Return (PDict Scenarios.approving_reply)))
       0.66 Scenarios.approving_reply = Return d' /\
     d' !! "verdict" = Some (PStr "UNDER_INVESTIGATION") /\
     d' !! "fraud_risk" = Some (PStr "HIGH") /\
     d' !! "fraud_score" = Some (PNum 0.66)) /\
  (exists r,
     override_checks
       (Scenarios.claim_env Scenarios.alarming_env "{}"
          (Return (PDict Scenarios.approving_reply)))
       0.66 ["Photographs"] (PDict Scenarios.approving_reply) = Return r /\
     r !! "verdict" = Some (PStr "UNDER_INVESTIGATION")) /\
  fraud_override
    (Scenarios.claim_env Scenarios.alarming_env "{}"
       (Return (PDict Scenarios.approving_reply)))
    0.66 Scenarios.rejecting_reply = Return Scenarios.rejecting_reply.
Proof.
  assert (0.65 <= 0.66)%Q as Hle by (vm_compute; discriminate).
  destruct fraud_override_forces_investigation
    as (Hchecks & Hoverride & _ & Hother & _).
  split; [exact Hle |]. split; [reflexivity |].
  split; [| split].
  - eexists. split; [reflexivity |].
    apply (Hoverride (Scenarios.claim_env Scenarios.alarming_env "{}"
                        (Return (PDict Scenarios.approving_reply)))
             0.66%Q Scenarios.approving_reply _ Hle eq_refl eq_refl).
  - eexists. split; [reflexivity |].
    apply (Hchecks (Scenarios.claim_env Scenarios.alarming_env "{}"
                      (Return (PDict Scenarios.approving_reply)))
             0.66%Q ["Photographs"] Scenarios.approving_reply _ Hle eq_refl
             eq_refl).
  - apply Hother. discriminate.
Defined.

End ClaimFacts.

(** ** Rounding and sums *)

Module NumFacts.
Import Py PyFacts.

Lemma round_half_even_floor (x : Q) :
  (Qfloor x <= round_half_even x <= Qfloor x + 1)%Z.
Proof.
  unfold round_half_even.
  destruct (x - inject_Z (Qfloor x) ?= 1 # 2)%Q;
    [destruct (Z.even (Qfloor x)) | |]; lia.
Qed.

(** Rounding to the nearest integer is monotone. *)
Lemma round_half_even_mono (x y : Q) :
  (x <= y)%Q -> (round_half_even x <= round_half_even y)%Z.
Proof.
  intros Hxy.
  assert (Qfloor x <= Qfloor y)%Z as Hf by (by apply Qfloor_resp_le).
  destruct (Z.eq_dec (Qfloor x) (Qfloor y)) as [Heq | Hne].
  - unfold round_half_even. rewrite <- Heq.
    destruct (x - inject_Z (Qfloor x) ?= 1 # 2)%Q eqn:Hcx;
      destruct (y - inject_Z (Qfloor x) ?= 1 # 2)%Q eqn:Hcy;
      try (destruct (Z.even (Qfloor x))); try lia; exfalso;
      repeat match goal with
             | H : (_ ?= _)%Q = Eq |- _ => apply Qeq_alt in H
             | H : (_ ?= _)%Q = Lt |- _ => apply Qlt_alt in H
             | H : (_ ?= _)%Q = Gt |- _ => apply Qgt_alt in H
             end; lra.
  - pose proof (round_half_even_floor x). pose proof (round_half_even_floor y).
    lia.
Qed.

(** [round(x, n)] is monotone. *)
Lemma py_round_mono (x y : Q) (n : nat) :
  (x <= y)%Q -> (py_round x n <= py_round y n)%Q.
Proof.
  intros Hxy. unfold py_round.
  pose proof (scale_pos n) as Hs.
  set (s := inject_Z (10 ^ Z.of_nat n)%Z) in *.
  assert (round_half_even (x * s) <= round_half_even (y * s))%Z as Hr.
  { apply round_half_even_mono. nra. }
  rewrite Zle_Qle in Hr.
  apply Qle_shift_div_l; [done |].
  assert (inject_Z (round_half_even (x * s)) / s * s
          == inject_Z (round_half_even (x * s)))%Q as -> by (field; lra).
  done.
Qed.

(** [round] leaves a number with at most [n] decimals alone. *)
Lemma py_round_exact (k : Z) (n : nat) :
  (py_round (inject_Z k / inject_Z (10 ^ Z.of_nat n)) n
   == inject_Z k / inject_Z (10 ^ Z.of_nat n))%Q.
Proof.
  unfold py_round. pose proof (scale_pos n) as Hs.
  set (s := inject_Z (10 ^ Z.of_nat n)%Z) in *.
  assert (round_half_even (inject_Z k / s * s) = k) as ->; [| done].
  assert (inject_Z k / s * s == inject_Z k)%Q as Heq by (field; lra).
  rewrite (FraudFacts.round_half_even_proper _ _ Heq).
  unfold round_half_even. rewrite Qfloor_Z.
  assert ((inject_Z k - inject_Z k ?= 1 # 2)%Q = Lt) as ->; [| done].
  apply (proj1 (Qlt_alt _ _)). lra.
Qed.





End NumFacts.

(** ** Strings *)

Module TextFacts.
Import Py.

Lemma append_nil_l (s : string) : "" +:+ s = s.
Proof. reflexivity. Qed.

Lemma append_cons (a : ascii) (s t : string) :
  String a s +:+ t = String a (s +:+ t).
Proof. reflexivity. Qed.

Lemma append_nil_r (s : string) : s +:+ "" = s.
Proof.
  induction s as [| a s IH]; [done |]. by rewrite append_cons, IH.
Qed.

Lemma append_assoc (s t u : string) : (s +:+ t) +:+ u = s +:+ (t +:+ u).
Proof.
  induction s as [| a s IH]; [done |]. by rewrite !append_cons, IH.
Qed.

Lemma length_append (a b : string) :
  String.length (a +:+ b) = (String.length a + String.length b)%nat.
Proof.
  induction a as [| c a IH]; [done |].
  rewrite append_cons. cbn [String.length]. by rewrite IH.
Qed.

Lemma rev_app_spec (s t : string) :
  String.rev_app s t = String.rev s +:+ t.
Proof.
  unfold String.rev. revert t.
  induction s as [| a s IH]; intros t; [done |].
  cbn [String.rev_app]. rewrite (IH (String a t)), (IH (String a "")).
  by rewrite append_assoc, append_cons, append_nil_l.
Qed.

Lemma rev_cons (a : ascii) (s : string) :
  String.rev (String a s) = String.rev s +:+ String a "".
Proof. unfold String.rev at 1. cbn [String.rev_app]. apply rev_app_spec. Qed.

Lemma rev_append (s t : string) :
  String.rev (s +:+ t) = String.rev t +:+ String.rev s.
Proof.
  induction s as [| a s IH].
  - by rewrite append_nil_l, append_nil_r.
  - by rewrite append_cons, !rev_cons, IH, append_assoc.
Qed.

Lemma rev_involutive (s : string) : String.rev (String.rev s) = s.
Proof.
  induction s as [| a s IH]; [done |].
  by rewrite rev_cons, rev_append, IH.
Qed.

Lemma prefix_nil (s : string) : String.prefix "" s = true.
Proof. by destruct s. Qed.

Lemma prefix_append (p s : string) : String.prefix p (p +:+ s) = true.
Proof.
  induction p as [| a p IH]; [apply prefix_nil |].
  rewrite append_cons. cbn [String.prefix].
  by destruct (ascii_dec a a).
Qed.

Lemma prefix_of_prefix (p q t : string) :
  String.prefix (p +:+ q) t = true -> String.prefix p t = true.
Proof.
  revert t. induction p as [| a p IH]; intros t; [intros _; apply prefix_nil |].
  rewrite append_cons. destruct t as [| b t]; [done |].
  cbn [String.prefix]. destruct (ascii_dec a b); [apply IH | done].
Qed.

Lemma substring_all (s : string) : String.substring 0 (String.length s) s = s.
Proof. induction s as [| a s IH]; [done |]. cbn. by rewrite IH. Qed.

Lemma substring_take (x y : string) :
  String.substring 0 (String.length x) (x +:+ y) = x.
Proof.
  induction x as [| a x IH]; [by destruct y |].
  rewrite append_cons. cbn. by rewrite IH.
Qed.

Lemma substring_drop (p r : string) (m : nat) :
  String.substring (String.length p) m (p +:+ r) = String.substring 0 m r.
Proof.
  induction p as [| a p IH]; [done |].
  rewrite append_cons. cbn. apply IH.
Qed.

Lemma str_drop_append (p r : string) :
  str_drop (String.length p) (p +:+ r) = r.
Proof.
  unfold str_drop. rewrite substring_drop, length_append.
  replace (String.length p + String.length r - String.length p)%nat
    with (String.length r) by lia.
  apply substring_all.
Qed.

Lemma str_drop_end_append (x y : string) :
  str_drop_end (String.length y) (x +:+ y) = x.
Proof.
  unfold str_drop_end. rewrite length_append.
  replace (String.length x + String.length y - String.length y)%nat
    with (String.length x) by lia.
  apply substring_take.
Qed.

Lemma endswith_append (x y : string) : endswith y (x +:+ y) = true.
Proof. unfold endswith. rewrite rev_append. apply prefix_append. Qed.

(** *** Stripping white space *)

Lemma lstrip_idemp (s : string) : lstrip (lstrip s) = lstrip s.
Proof.
  induction s as [| a s IH]; [done |]. cbn [lstrip].
  destruct (Ascii.is_space a) eqn:Ha; [done |]. cbn [lstrip]. by rewrite Ha.
Qed.

Lemma lstrip_append (s t : string) :
  lstrip (s +:+ t)
  = match lstrip s with
    | "" => lstrip t
    | r => r +:+ t
    end.
Proof.
  induction s as [| a s IH]; [done |].
  rewrite append_cons. cbn [lstrip].
  destruct (Ascii.is_space a); [exact IH | by rewrite append_cons].
Qed.

Lemma lstrip_length (s : string) :
  (String.length (lstrip s) <= String.length s)%nat.
Proof.
  induction s as [| a s IH]; [done |]. cbn [lstrip].
  destruct (Ascii.is_space a); cbn [String.length]; lia.
Qed.

Lemma lstrip_same_length (s : string) :
  String.length (lstrip s) = String.length s -> lstrip s = s.
Proof.
  destruct s as [| a s]; [done |]. cbn [lstrip].
  destruct (Ascii.is_space a); [| done].
  pose proof (lstrip_length s). cbn [String.length]. lia.
Qed.

(** A string without trailing white space keeps that property when its
    leading white space is stripped. *)
Lemma lstrip_keeps_end (x : string) :
  lstrip (String.rev x) = String.rev x ->
  lstrip (String.rev (lstrip x)) = String.rev (lstrip x).
Proof.
  induction x as [| a x IH]; [done |].
  cbn [lstrip]. destruct (Ascii.is_space a) eqn:Ha; [| done].
  rewrite rev_cons, lstrip_append.
  destruct (lstrip (String.rev x)) as [| b r] eqn:Hl.
  - cbn [lstrip]. rewrite Ha. intros Hx.
    assert (String.length (String.rev x +:+ String a "") = 0%nat) as Hlen
      by (by rewrite <- Hx).
    rewrite length_append in Hlen. cbn in Hlen. lia.
  - intros Hx. apply IH. rewrite <- Hl. apply lstrip_same_length. rewrite Hl.
    assert (String.length (String b r +:+ String a "")
            = String.length (String.rev x +:+ String a "")) as Hlen
      by (by rewrite Hx).
    rewrite !length_append in Hlen. lia.
Qed.

Lemma str_strip_idemp (s : string) : str_strip (str_strip s) = str_strip s.
Proof.
  unfold str_strip.
  set (y := lstrip s).
  assert (lstrip y = y) as Hy by apply lstrip_idemp.
  set (u := lstrip (String.rev y)).
  assert (lstrip (String.rev u) = String.rev u) as Hu.
  { subst u. apply lstrip_keeps_end. by rewrite rev_involutive. }
  rewrite Hu, rev_involutive. subst u. by rewrite lstrip_idemp.
Qed.

(** Stripping ignores white space around the text. *)
Lemma str_strip_padded (a b : ascii) (s : string) :
  Ascii.is_space a = true -> Ascii.is_space b = true ->
  str_strip (String a (s +:+ String b "")) = str_strip s.
Proof.
  intros Ha Hb. unfold str_strip. cbn [lstrip]. rewrite Ha.
  rewrite lstrip_append.
  destruct (lstrip s) as [| c r] eqn:Hs.
  - cbn [lstrip]. by rewrite Hb.
  - rewrite rev_append. change (String.rev (String b "")) with (String b "").
    rewrite append_cons, append_nil_l. cbn [lstrip]. by rewrite Hb.
Qed.

(** A text that starts and ends with a character that is no white space
    is its own stripped form. *)
Lemma str_strip_tight (a b : ascii) (s : string) :
  Ascii.is_space a = false -> Ascii.is_space b = false ->
  str_strip (String a (s +:+ String b "")) = String a (s +:+ String b "").
Proof.
  intros Ha Hb. unfold str_strip. cbn [lstrip]. rewrite Ha.
  rewrite rev_cons, rev_append.
  change (String.rev (String b "")) with (String b "").
  rewrite !append_cons, append_nil_l. cbn [lstrip]. rewrite Hb.
  rewrite rev_cons, rev_append, rev_involutive.
  change (String.rev (String a "")) with (String a "").
  by rewrite !append_cons, append_nil_l.
Qed.

End TextFacts.

(** ** Confidence of the ensemble *)

Module ConfidenceFacts.
Import Py Config Fraud SpecWords PyFacts FraudFacts NumFacts.




Lemma half_is_rounded : (py_round 0.5 3 == 0.5)%Q.
Proof. by vm_compute. Qed.




End ConfidenceFacts.

(** ** What the ensemble can reach *)

Module EnsembleFacts.
Import Py Config Fraud SpecWords Contracts PyFacts FraudFacts NumFacts.

Section Invariant.
Context (P : FraudAssessment -> Prop) (E : Env).





End Invariant.







End EnsembleFacts.

(** ** Risk level and flag *)

Module LevelFacts.
Import Py Config Fraud SpecWords Contracts PyFacts FraudFacts NumFacts.





End LevelFacts.

(** ** Repeated texts *)

Module RepeatFacts.
Import Py Config Fraud SpecWords Contracts PyFacts FraudFacts NumFacts.

Lemma load_models_loaded (E : Env) (st : State) :
  (_load_models E st).1 = Return () ->
  models_loaded (_load_models E st).2 = true.
Proof.
  unfold _load_models. destruct (models_loaded st) eqn:Hl; [done |].
  by destruct (build_pipelines E).
Qed.

Lemma cache_get_keeps_loaded (E : Env) (st : State) (key : string) :
  models_loaded (cache_get E st key).2 = models_loaded st.
Proof.
  unfold cache_get. cbv zeta.
  destruct (live _ _ !! _); [done |]. cbn [redis_enabled set_memory_cache].
  destruct (_ && _); [| done]. cbn [redis_store set_memory_cache].
  by destruct (live _ _ !! _).
Qed.

Lemma cache_set_state (E : Env) (st : State) (key : string)
  (v : FraudAssessment) :
  models_loaded (cache_set E st key v) = models_loaded st /\
  memory_cache (cache_set E st key v) !! ("default:" +:+ key) = Some v.
Proof.
  unfold cache_set. cbv zeta. cbn [redis_enabled set_memory_cache].
  destruct (_ && _); cbn; by rewrite lookup_insert_eq.
Qed.

Lemma aggregate_explainability (E : Env) (settings : Settings) (st : State)
  (key text : string) (rs : list (outcome DetectionResult)) (shap : bool)
  (x : Q) :
  ensemble_score (collect rs).1 = Return x ->
  exists res,
    aggregate E settings st key text rs shap
      = (Return res, cache_set E st key res) /\
    explainability res
    = if shap then Some (_generate_shap_explanation text) else None.
Proof.
  intros Hx. unfold aggregate. cbv zeta. rewrite Hx.
  eexists. split; [reflexivity |]. done.
Qed.

(** A memory hit of a loaded detector answers the call. *)
Lemma detect_fraud_hit (E : Env) (settings : Settings) (st : State)
  (text : string) (metadata : option pydict) (shap : bool)
  (v : FraudAssessment) :
  models_loaded st = true ->
  memory_cache st !! ("default:" +:+ "fraud:" +:+ md5_hexdigest E text)
  = Some v ->
  ("default:" +:+ "fraud:" +:+ md5_hexdigest E text) ∉ memory_expired E ->
  (detect_fraud E settings st text metadata shap).1 = Return v.
Proof.
  intros Hloaded Hmem Hlive.
  unfold detect_fraud, detect_fraud_on, _load_models. rewrite Hloaded.
  cbv zeta. cbn [fst snd]. unfold detect_fraud_try, cache_get. cbv zeta.
  assert (live (memory_expired E) (memory_cache st)
            !! ("default:" +:+ "fraud:" +:+ md5_hexdigest E text) = Some v)
    as ->; [| done].
  unfold live. apply map_lookup_filter_Some. by split.
Qed.

(** X4.  After a freshly computed assessment, a later call on the same text
    is answered by that assessment for as long as the memory tier keeps the
    entry: the later call's metadata, its explainability flag, its settings
    and whatever its detectors would report play no part. *)
Theorem repeated_text_is_answered_from_cache :
  forall E E' settings settings' st text metadata metadata' shap shap' res,
    (_load_models E st).1 = Return () ->
    (cache_get E (_load_models E st).2
       ("fraud:" +:+ md5_hexdigest E text)).1 = None ->
    (detect_fraud E settings st text metadata shap).1 = Return res ->
    md5_hexdigest E' text = md5_hexdigest E text ->
    ("default:" +:+ "fraud:" +:+ md5_hexdigest E text) ∉ memory_expired E' ->
    (detect_fraud E' settings'
       (detect_fraud E settings st text metadata shap).2
       text metadata' shap').1 = Return res /\
    (shap = false -> explainability res = None).
Proof.
  intros E E' settings settings' st text metadata metadata' shap shap' res
    Hload Hmiss Hres Hmd5 Hlive.
  destruct (gather_detectors_succeed E text metadata)
    as (m & s & t & _ & _ & _ & Hgather).
  unfold detect_fraud in Hres |- * at 2.
  rewrite (detect_fraud_on_loaded _ _ _ _ _ _ Hload) in Hres |- *.
  rewrite (detect_fraud_try_miss _ _ _ _ _ _ Hmiss) in Hres |- *.
  cbn [fst snd] in Hres |- *.
  rewrite Hgather in Hres |- *.
  destruct (aggregate_explainability E settings
              (cache_get E (_load_models E st).2
                 ("fraud:" +:+ md5_hexdigest E text)).2
              ("fraud:" +:+ md5_hexdigest E text) text
              [Return (_pattern_based_detection E text); Return m; Return s;
               Return t] shap _
              (ensemble_score_four
                 (score (_pattern_based_detection E text)) (score m)
                 (score s) (score t)))
    as (res0 & Hagg & Hexplain).
  rewrite Hagg in Hres |- *. cbn [fst snd try_except] in Hres |- *.
  injection Hres as Hres.
  match goal with
  | |- context [cache_set E ?st0 ?key ?v] =>
      destruct (cache_set_state E st0 key v) as [Hl Hm]
  end.
  rewrite Hres in Hl, Hm, Hexplain |- *.
  split.
  - apply detect_fraud_hit.
    + rewrite Hl, cache_get_keeps_loaded. by apply load_models_loaded.
    + by rewrite Hmd5.
    + by rewrite Hmd5.
  - by intros ->.
Qed.

Lemma repeated_text_is_answered_from_cache_witness :
  exists res,
    (detect_fraud Scenarios.quiet_env default_settings (initial_state false)
       Scenarios.narrative None false).1 = Return res /\
    (detect_fraud Scenarios.alarming_env Scenarios.strict_settings
       (detect_fraud Scenarios.quiet_env default_settings
          (initial_state false) Scenarios.narrative None false).2
       Scenarios.narrative (Some ∅) true).1 = Return res /\
    explainability res = None.
Proof.
  eexists. split; [reflexivity |].
  destruct (repeated_text_is_answered_from_cache Scenarios.quiet_env
              Scenarios.alarming_env default_settings
              Scenarios.strict_settings (initial_state false)
              Scenarios.narrative None (Some ∅) false true _ eq_refl eq_refl
              eq_refl eq_refl (not_elem_of_empty _))
    as [Hagain Hplain].
  split; [exact Hagain | exact (Hplain eq_refl)].
Defined.

End RepeatFacts.

(** ** Base score *)

Module BaseScoreFacts.
Import Py Config Risk SpecWords PyFacts NumFacts.

Lemma py_min_nonneg (a b : Q) : (0 <= a)%Q -> (0 <= b)%Q -> (0 <= py_min a b)%Q.
Proof. intros Ha Hb. unfold py_min. destruct (Qlt_le_dec b a); lra. Qed.

Lemma clamp_ge (x lo hi c : Q) :
  (lo <= hi)%Q -> (c <= x)%Q -> (c <= hi)%Q -> (c <= py_min (py_max x lo) hi)%Q.
Proof.
  intros Hlh Hx Hc. unfold py_min, py_max.
  destruct (Qlt_le_dec x lo), (Qlt_le_dec hi _); lra.
Qed.

Lemma base_score_range (E : Env) (data : pydict) (policy_type : string)
  (b : BaseScore) :
  _calculate_base_risk_score E data policy_type = Return b ->
  exists s,
    bs_score b = Some s /\ (45 <= s <= 100)%Q /\
    (truthy (dict_get data "smoking" PNone) = true -> (95 <= s)%Q).
Proof.
  unfold _calculate_base_risk_score. cbv zeta.
  destruct (num_of (dict_get data "age" (PNum 0))) as [age | e];
    [| discriminate].
  cbn [mbind outcome_bind].
  assert (0 <= py_min (Qabs (age - (25 + 55) / 2) * 0.3) 15)%Q as Hp.
  { apply py_min_nonneg; [| lra].
    pose proof (Qabs_nonneg (age - (25 + 55) / 2)). nra. }
  set (p := py_min (Qabs (age - (25 + 55) / 2) * 0.3) 15) in *.
  destruct (Qltb 0 age && (Qltb age 25 || Qltb 55 age));
    destruct (existsb _ _);
    destruct (truthy (dict_get data "smoking" PNone));
    (destruct (truthy (dict_get data "claims_history" (PList [])));
     [destruct (py_len _) as [n | e]; [| discriminate];
      cbn [mbind outcome_bind mret outcome_ret];
      assert (0 <= py_min (inject_Z (Z.of_nat n * 5)) 20)%Q as Hc
        by (apply py_min_nonneg; [| lra];
            change 0%Q with (inject_Z 0); rewrite <- Zle_Qle; lia);
      set (c := py_min (inject_Z (Z.of_nat n * 5)) 20) in *
     | cbn [mbind outcome_bind mret outcome_ret]]);
    (destruct (num_of (dict_get data "credit_score" (PNum 650)))
       as [credit | e]; [| discriminate]);
    cbn [mbind outcome_bind mret outcome_ret];
    (destruct (Qltb credit 600); [| destruct (Qltb 750 credit)]);
    intros [= <-]; eexists; (split; [reflexivity |]); cbn [fst snd];
    (split; [split; [apply clamp_ge; lra | apply clamp_bounds; lra] |]);
    intros Hs; try discriminate; apply clamp_ge; lra.
Qed.
End BaseScoreFacts.

(** ** Underwriting score and decision *)

Module UnderwritingFacts.
Import Py Config Risk SpecWords Contracts PyFacts NumFacts BaseScoreFacts
  AssessFacts.

Section Assessor.
Context (E : Env) (settings : Settings).

(** The financial adjustment lies between -5 and 10. *)
Lemma financial_adjustment_range (st : State) (data : pydict) :
  financial_sound E ->
  exists a x,
    _analyze_financial_sentiment E st data = Return a /\
    risk_adjustment a = Some x /\ (-5 <= x <= 10)%Q.
Proof.
  intros Hsound. unfold _analyze_financial_sentiment.
  destruct (has_financial_analyzer st); cbn;
    [| eexists _, _; split; [reflexivity |]; split; [reflexivity | lra]].
  destruct (py_len _) as [n | e]; cbn;
    [| eexists _, _; split; [reflexivity |]; split; [reflexivity | lra]].
  destruct (financial_analyzer E _) as [[label sc] | e] eqn:Hfin; cbn;
    [| eexists _, _; split; [reflexivity |]; split; [reflexivity | lra]].
  destruct (Hsound _ _ _ Hfin) as [H0 H1].
  eexists _, _; split; [reflexivity |]; split; [reflexivity |].
  destruct (String.eqb label "negative"); [lra |].
  destruct (String.eqb label "positive"); lra.
Qed.

Lemma keyword_fold_nonneg (location : string) (ks : list string)
  (acc : Q * list string) :
  (0 <= acc.1)%Q -> (0 <= (foldl (keyword_step location) acc ks).1)%Q.
Proof.
  revert acc. induction ks as [| k ks IH]; intros acc Hacc; [done |].
  cbn. apply IH. unfold keyword_step.
  destruct (contains k location); cbn; lra.
Qed.

(** The external adjustment is never negative. *)
Lemma external_adjustment_nonneg (data : pydict) (a : Adjustment) :
  _assess_external_factors E data = Return a ->
  exists x, risk_adjustment a = Some x /\ (0 <= x)%Q.
Proof.
  unfold _assess_external_factors.
  destruct (py_lower _) as [loc | e]; [| discriminate].
  cbn [mbind outcome_bind mret outcome_ret]. cbv zeta.
  set (location := match loc with PStr s => s | _ => "" end).
  pose proof (keyword_fold_nonneg location
                ["coastal"; "flood"; "seismic"; "hurricane"; "tornado"]
                (0%Q, []) ltac:(cbn; lra)) as Hfold.
  intros [= <-]. eexists. split; [reflexivity |].
  cbn [foldl] in Hfold. destruct (_ && _); cbn [fst]; lra.
Qed.

(** The aggregate of components in their ranges. *)
Lemma aggregate_floor (base : BaseScore) (financial external : Adjustment)
  (fraud : option Fraud.FraudAssessment) (lo : Q) :
  (lo <= 100)%Q ->
  (lo + 5 <= default 50 (bs_score base))%Q ->
  (-5 <= default 0 (risk_adjustment financial))%Q ->
  (0 <= default 0 (risk_adjustment external))%Q ->
  (lo <= _aggregate_risk_score base financial external fraud)%Q.
Proof.
  intros Hlo Hb Hf He. unfold _aggregate_risk_score. cbv zeta.
  apply clamp_ge; [lra | | lra].
  destruct fraud as [f |]; [| lra].
  destruct (Qltb 0.5 (Fraud.fraud_score f)) eqn:Hx; [| lra].
  apply Qltb_true in Hx. nra.
Qed.

(** What a result of the scoring part is made of. *)
Lemma assess_risk_score_fields (nested : nested_call) (st : State)
  (structured_data : pydict) (policy_type : string)
  (coverage_amount : option Q) (enable_explainability : bool)
  (base_score : BaseScore) (financial external : Adjustment)
  (policy_context : string) (fraud_result : option Fraud.FraudAssessment)
  (r : RiskAssessment) :
  (assess_risk_score E settings nested st structured_data policy_type
     coverage_amount enable_explainability base_score financial external
     policy_context fraud_result).1 = Return r ->
  let final := _aggregate_risk_score base_score financial external
                 fraud_result in
  risk_score r = py_round final 2 /\
  decision r = (_make_underwriting_decision settings final).1 /\
  confidence r = Some (_make_underwriting_decision settings final).2 /\
  premium_estimate r
  = Some (_calculate_premium final (coverage_or_default coverage_amount)
            policy_type) /\
  error r = None /\ fraud_details r = None /\
  (exists recs,
     _generate_recommendations final structured_data = Return recs /\
     recommendations r = Some recs) /\
  (exists comp,
     _check_compliance structured_data policy_type = Return comp /\
     compliance r = Some comp).
Proof.
  unfold assess_risk_score. cbv zeta.
  destruct (_generate_detailed_assessment _ _ _ _ _); [| discriminate].
  destruct (_generate_recommendations _ _) as [recs |]; [| discriminate].
  destruct (_check_compliance _ _) as [comp |]; [| discriminate].
  destruct enable_explainability; cbn [fst].
  - destruct (_run_scenario_analysis _ _ _ _).1; [| discriminate].
    cbn. intros [= <-]. cbn. repeat (split; [reflexivity |]).
    split; eexists; split; reflexivity.
  - intros [= <-]. cbn. repeat (split; [reflexivity |]).
    split; eexists; split; reflexivity.
Qed.

(** A record that passes the recommendations and the compliance check
    has a numeric age and credit score and a sized claims history, so its
    base score was computed: the substitute [{"score": 50}] for a failed
    base-score task never reaches a regular result. *)
Lemma base_score_defined (data : pydict) (policy_type : string) (x : Q)
  (recs : list string) (comp : Compliance) :
  _generate_recommendations x data = Return recs ->
  _check_compliance data policy_type = Return comp ->
  exists b, _calculate_base_risk_score E data policy_type = Return b.
Proof.
  unfold _generate_recommendations, _check_compliance,
    _calculate_base_risk_score. cbv zeta.
  destruct (num_of (dict_get data "credit_score" (PNum 650)))
    as [credit |]; [| discriminate].
  cbn [mbind outcome_bind].
  destruct (py_len (dict_get data "claims_history" (PList [])))
    as [n |]; [| discriminate].
  intros _.
  destruct (num_of (dict_get data "age" (PNum 0))) as [age |];
    [| discriminate].
  intros _. cbn [mbind outcome_bind mret outcome_ret].
  destruct (truthy (dict_get data "claims_history" (PList [])));
    cbn [mbind outcome_bind mret outcome_ret]; by eexists.
Qed.

(** The two shapes of a result of the [try] block. *)
Lemma assess_risk_try_cases (nested : nested_call) (st : State)
  (applicant_data : pyval) (policy_type : string)
  (coverage_amount : option Q) (fraud_check explain : bool)
  (r : RiskAssessment) :
  financial_sound E ->
  (assess_risk_try E settings nested st applicant_data policy_type
     coverage_amount fraud_check explain).1 = Return r ->
  (exists f, r = fraud_rejection f /\ Fraud.is_suspicious f = true) \/
  (exists d final,
     _parse_applicant_data E applicant_data = Return d /\
     (40 <= final <= 100)%Q /\
     (truthy (dict_get d "smoking" PNone) = true -> (90 <= final)%Q) /\
     risk_score r = py_round final 2 /\
     decision r = (_make_underwriting_decision settings final).1 /\
     confidence r = Some (_make_underwriting_decision settings final).2 /\
     error r = None /\ fraud_details r = None).
Proof.
  intros Hsound. unfold assess_risk_try.
  destruct (_parse_applicant_data E applicant_data) as [d | e] eqn:Hparse;
    [| discriminate].
  cbv zeta.
  set (base := match _calculate_base_risk_score E d policy_type with
               | Return b => b
               | Raise _ => {| bs_score := Some 50%Q; bs_factors := None |}
               end).
  set (fin := match _analyze_financial_sentiment E st d with
              | Return a => a | Raise _ => empty_adjustment end).
  set (ext := match _assess_external_factors E d with
              | Return a => a | Raise _ => empty_adjustment end).
  assert (-5 <= default 0 (risk_adjustment fin))%Q as Hfin.
  { subst fin.
    destruct (financial_adjustment_range st d Hsound)
      as (a & x & -> & -> & Hx). cbn. lra. }
  assert (0 <= default 0 (risk_adjustment ext))%Q as Hext.
  { subst ext.
    destruct (_assess_external_factors E d) as [a | e] eqn:Ha; [| cbn; lra].
    destruct (external_adjustment_nonneg d a Ha) as (x & -> & Hx). done. }
  assert (forall st' ctx fraud,
            (assess_risk_score E settings nested st' d policy_type
               coverage_amount explain base fin ext ctx fraud).1
            = Return r ->
            exists d0 final,
              Return d = Return d0 /\
              (40 <= final <= 100)%Q /\
              (truthy (dict_get d0 "smoking" PNone) = true ->
               (90 <= final)%Q) /\
              risk_score r = py_round final 2 /\
              decision r = (_make_underwriting_decision settings final).1 /\
              confidence r
              = Some (_make_underwriting_decision settings final).2 /\
              error r = None /\ fraud_details r = None) as Hregular.
  { intros st' ctx fraud Hr.
    destruct (assess_risk_score_fields _ _ _ _ _ _ _ _ _ _ _ _ Hr)
      as (Hscore & Hdecision & Hconf & _ & Herr & Hdet
          & (recs & Hrecs & _) & (comp & Hcomp & _)).
    destruct (base_score_defined _ _ _ _ _ Hrecs Hcomp) as (b & Hb).
    destruct (base_score_range E d policy_type b Hb)
      as (s & Hs & [Hs45 Hs100] & Hsmoke).
    assert (base = b) as Hbase by (subst base; by rewrite Hb).
    exists d, (_aggregate_risk_score base fin ext fraud).
    split; [done |]. split; [split |].
    - apply aggregate_floor; rewrite ?Hbase, ?Hs; cbn; lra.
    - apply (aggregate_risk_score_percent base fin ext fraud).
    - split; [| done].
      intros Hyes. specialize (Hsmoke Hyes).
      apply aggregate_floor; rewrite ?Hbase, ?Hs; cbn; lra. }
  match goal with
  | |- (match ?fr with _ => _ end).1 = _ -> _ => destruct fr as [f |]
  end; [destruct (Fraud.is_suspicious f) eqn:Hflag |].
  - cbn. intros [= <-]. left. by exists f.
  - intros Hr. right. by apply Hregular in Hr.
  - intros Hr. right. by apply Hregular in Hr.
Qed.

End Assessor.

Lemma decision_above_approval (settings : Settings) (final : Q) :
  (inject_Z (auto_approve_threshold settings) < final)%Q ->
  (_make_underwriting_decision settings final).2 <> 0.95%Q.
Proof.
  intros Hlt. unfold _make_underwriting_decision.
  apply Qleb_false in Hlt. rewrite Hlt.
  repeat match goal with
         | |- context [if ?c then _ else _] => destruct c
         end; discriminate.
Qed.


Lemma assess_risk_cases (E E' : Env) (settings : Settings) (st : State)
  (data : pyval) (policy_type : string) (coverage : option Q)
  (fraud_check explain : bool) (r : RiskAssessment) :
  (assess_risk E E' settings st data policy_type coverage fraud_check
     explain).1 = Return r ->
  (exists e, r = fallback e) \/
  (assess_risk_try E settings (nested_assess_risk E' settings)
     (_load_models E st) data policy_type coverage fraud_check explain).1
  = Return r.
Proof.
  unfold assess_risk, assess_risk_with. cbv zeta. cbn [fst].
  destruct (assess_risk_try _ _ _ _ _ _ _ _ _).1 as [r' | e]; cbn.
  - intros [= <-]. by right.
  - intros [= <-]. left. by exists e.
Qed.

(** X5.  With a financial-sentiment model that reports probabilities, no
    assessment reports a risk score below 40: the base score is at least
    45, the financial adjustment at least -5, the other components are not
    negative, the fraud rejection reports 100 and the fallback 50.  With an
    approval threshold below 40, such as the default 30, the automatic
    approval with confidence 0.95 is therefore never given. *)
Theorem risk_score_is_at_least_40 :
  forall E E' settings st data policy_type coverage fraud_check explain r,
    financial_sound E ->
    (assess_risk E E' settings st data policy_type coverage fraud_check
       explain).1 = Return r ->
    (40 <= risk_score r)%Q /\
    ((auto_approve_threshold settings < 40)%Z ->
     confidence r <> Some 0.95%Q).
Proof.
  intros E E' settings st data policy_type coverage fraud_check explain r
    Hsound Hr.
  destruct (assess_risk_cases _ _ _ _ _ _ _ _ _ _ Hr) as [[e ->] | Htry].
  { split; [cbn; lra | discriminate]. }
  destruct (assess_risk_try_cases E settings _ _ _ _ _ _ _ _ Hsound Htry)
    as [(f & -> & _)
       | (d & final & _ & [Hlo Hhi] & _ & Hscore & _ & Hconf & _)].
  { split; [cbn; lra | discriminate]. }
  split.
  - rewrite Hscore.
    apply Qle_trans with (py_round 40 2); [by vm_compute |].
    by apply py_round_mono.
  - intros Happrove. rewrite Hconf. intros [= Heq].
    apply (decision_above_approval settings final); [| done].
    rewrite Zlt_Qlt in Happrove. change (inject_Z 40) with 40%Q in Happrove.
    lra.
Qed.


Lemma quiet_financial_sound :
  financial_sound (Scenarios.risk_env Scenarios.quiet_env).
Proof. intros text label sc [= <- <-]. unfold unit_interval. lra. Qed.

Lemma risk_score_is_at_least_40_witness :
  financial_sound (Scenarios.risk_env Scenarios.quiet_env) /\
  (auto_approve_threshold default_settings < 40)%Z /\
  exists r,
    (assess_risk (Scenarios.risk_env Scenarios.quiet_env)
       (Scenarios.risk_env Scenarios.quiet_env) default_settings
       (initial_state false) Scenarios.applicant "life" None true true).1
    = Return r /\
    (40 <= risk_score r)%Q /\ confidence r <> Some 0.95%Q.
Proof.
  split; [exact quiet_financial_sound |]. split; [reflexivity |].
  eassert ((assess_risk (Scenarios.risk_env Scenarios.quiet_env)
              (Scenarios.risk_env Scenarios.quiet_env) default_settings
              (initial_state false) Scenarios.applicant "life" None true
              true).1 = Return _) as Hrun
    by (vm_compute; reflexivity).
  eexists. split; [exact Hrun |].
  destruct (risk_score_is_at_least_40 _ _ _ _ _ _ _ _ _ _
              quiet_financial_sound Hrun) as [Hfloor Hconf].
  split; [exact Hfloor | exact (Hconf eq_refl)].
Defined.


End UnderwritingFacts.

(** ** Decision thresholds and premium *)

Module PricingFacts.
Import Py Config Risk SpecWords Contracts PyFacts NumFacts.

Lemma decision_cases (settings : Settings) (s : Q) :
  let A := inject_Z (auto_approve_threshold settings) in
  let R := inject_Z (auto_reject_threshold settings) in
  let m := inject_Z (requires_human_review_min settings) in
  let M := inject_Z (requires_human_review_max settings) in
  let d := (_make_underwriting_decision settings s).1 in
  ((s <= A)%Q /\ d = "APPROVE") \/
  ((A < s)%Q /\ (R <= s)%Q /\ d = "REJECT") \/
  ((A < s < R)%Q /\ (m <= s <= M)%Q /\ d = "MANUAL_REVIEW") \/
  ((A < s < R)%Q /\ (s < m)%Q /\ d = "APPROVE") \/
  ((A < s < R)%Q /\ (m <= s)%Q /\ (M < s)%Q /\ d = "REJECT").
Proof.
  cbv zeta. unfold _make_underwriting_decision.
  destruct (Qleb s _) eqn:H1;
    [apply Qleb_true in H1; by left |].
  apply Qleb_false in H1. right.
  destruct (Qleb _ s) eqn:H2;
    [apply Qleb_true in H2; by left |].
  apply Qleb_false in H2. right.
  destruct (Qleb (inject_Z (requires_human_review_min settings)) s) eqn:H3.
  - apply Qleb_true in H3.
    destruct (Qleb s (inject_Z (requires_human_review_max settings))) eqn:H4.
    + apply Qleb_true in H4. by left.
    + apply Qleb_false in H4. cbn [andb].
      destruct (Qltb s _) eqn:H5; [apply Qltb_true in H5; lra |].
      right. right. done.
  - apply Qleb_false in H3. cbn [andb].
    destruct (Qltb s _) eqn:H5; [| apply Qltb_false in H5; lra].
    right. left. done.
Qed.

(** X7.  For every configuration of the four thresholds, a higher risk
    score never receives a more lenient underwriting decision. *)
Theorem decision_is_monotone :
  forall settings s1 s2,
    (s1 <= s2)%Q ->
    (decision_rank (_make_underwriting_decision settings s1).1
     <= decision_rank (_make_underwriting_decision settings s2).1)%nat.
Proof.
  intros settings s1 s2 Hle.
  pose proof (decision_cases settings s1) as H1.
  pose proof (decision_cases settings s2) as H2.
  cbv zeta in H1, H2.
  destruct H1 as [[? ->] | [(? & ? & ->) | [(? & ? & ->)
                 | [(? & ? & ->) | (? & ? & ? & ->)]]]];
    destruct H2 as [[? ->] | [(? & ? & ->) | [(? & ? & ->)
                   | [(? & ? & ->) | (? & ? & ? & ->)]]]];
    cbn; try lia; exfalso; lra.
Qed.

Lemma decision_is_monotone_witness :
  (40 <= 84)%Q /\
  (decision_rank (_make_underwriting_decision default_settings 40).1
   <= decision_rank (_make_underwriting_decision default_settings 84).1)%nat.
Proof.
  assert (40 <= 84)%Q as Hle by (vm_compute; discriminate).
  split; [exact Hle |].
  exact (decision_is_monotone default_settings 40 84 Hle).
Defined.

Lemma base_rate_positive (policy_type : string) :
  (0 < default 1000 (base_rates !! policy_type))%Q.
Proof.
  destruct (base_rates !! policy_type) as [rate |] eqn:Hrate; [| by vm_compute].
  unfold base_rates in Hrate. apply elem_of_list_to_map_2 in Hrate.
  repeat (apply elem_of_cons in Hrate as [[= _ ->] | Hrate]; [by vm_compute |]).
  by apply elem_of_nil in Hrate.
Qed.

Lemma base_rate_fallback (policy_type : string) :
  policy_type ∉ ["life"; "health"; "auto"; "home"] ->
  base_rates !! policy_type = None.
Proof.
  intros Hnot. unfold base_rates. apply not_elem_of_list_to_map_1.
  cbn. exact Hnot.
Qed.

(** X8.  The premium grows with the risk: for a coverage amount that is not
    negative, a higher risk score never gives a lower annual or monthly
    premium or a lower risk multiplier, whatever the policy type; and a
    policy type outside life, health, auto and home is priced at the base
    rate 1000. *)
Theorem premium_grows_with_risk :
  forall policy_type coverage s1 s2,
    (0 <= coverage)%Q -> (s1 <= s2)%Q ->
    (annual (_calculate_premium s1 coverage policy_type)
     <= annual (_calculate_premium s2 coverage policy_type))%Q /\
    (monthly (_calculate_premium s1 coverage policy_type)
     <= monthly (_calculate_premium s2 coverage policy_type))%Q /\
    (risk_multiplier (_calculate_premium s1 coverage policy_type)
     <= risk_multiplier (_calculate_premium s2 coverage policy_type))%Q /\
    (policy_type ∉ ["life"; "health"; "auto"; "home"] ->
     base_rate (_calculate_premium s1 coverage policy_type) = 1000%Q).
Proof.
  intros policy_type coverage s1 s2 Hc Hs.
  unfold _calculate_premium. cbv zeta.
  cbn [annual monthly risk_multiplier base_rate].
  pose proof (base_rate_positive policy_type) as Hrate.
  set (rate := default 1000%Q (base_rates !! policy_type)) in *.
  assert (coverage / 100000 * rate * (1 + s1 / 100)
          <= coverage / 100000 * rate * (1 + s2 / 100))%Q as Hannual.
  { assert (0 <= coverage / 100000 * rate)%Q as Hk.
    { apply Qmult_le_0_compat; [| lra].
      apply Qle_shift_div_l; lra. }
    assert (1 + s1 / 100 <= 1 + s2 / 100)%Q as Hm.
    { apply Qplus_le_r. apply Qle_shift_div_l; [lra |].
      assert (s1 / 100 * 100 == s1)%Q as -> by (field; lra). lra. }
    nra. }
  split; [by apply py_round_mono |].
  split.
  { apply py_round_mono. apply Qle_shift_div_l; [lra |].
    assert (coverage / 100000 * rate * (1 + s1 / 100) / 12 * 12
            == coverage / 100000 * rate * (1 + s1 / 100))%Q as ->
      by (field; lra).
    done. }
  split.
  { apply py_round_mono. apply Qplus_le_r.
    apply Qle_shift_div_l; [lra |].
    assert (s1 / 100 * 100 == s1)%Q as -> by (field; lra). lra. }
  intros Hnot. subst rate. by rewrite (base_rate_fallback _ Hnot).
Qed.

Lemma premium_grows_with_risk_witness :
  (0 <= 250000)%Q /\ (40 <= 60)%Q /\
  (annual (_calculate_premium 40 250000 "boat")
   <= annual (_calculate_premium 60 250000 "boat"))%Q /\
  base_rate (_calculate_premium 40 250000 "boat") = 1000%Q.
Proof.
  assert (0 <= 250000)%Q as Hc by (vm_compute; discriminate).
  assert (40 <= 60)%Q as Hs by (vm_compute; discriminate).
  destruct (premium_grows_with_risk "boat" 250000 40 60 Hc Hs)
    as (Hannual & _ & _ & Hrate).
  split; [exact Hc |]. split; [exact Hs |]. split; [exact Hannual |].
  apply Hrate. vm_compute. intros Hin.
  repeat (apply elem_of_cons in Hin as [Heq | Hin]; [discriminate |]).
  by apply elem_of_nil in Hin.
Defined.

End PricingFacts.

(** ** Applicant records *)

Module ApplicantFacts.
Import Py Config Risk SpecWords Contracts PyFacts NumFacts UnderwritingFacts.

Lemma lower_ascii_idemp (a : ascii) :
  lower_ascii (lower_ascii a) = lower_ascii a.
Proof. destruct a as [[] [] [] [] [] [] [] []]; reflexivity. Qed.

Lemma str_lower_idemp (s : string) : str_lower (str_lower s) = str_lower s.
Proof.
  induction s as [| a s IH]; [done |].
  cbn [str_lower]. by rewrite lower_ascii_idemp, IH.
Qed.

Lemma py_lower_idemp (v w : pyval) :
  py_lower v = Return w -> py_lower w = Return w.
Proof.
  destruct v; try discriminate. cbn. intros [= <-]. cbn.
  by rewrite str_lower_idemp.
Qed.

Section Parsing.
Context (E : Env).

(** The record [_parse_applicant_data] builds. *)
Lemma parse_shape (data : pyval) (d : pydict) :
  _parse_applicant_data E data = Return d ->
  exists src gender occupation location,
    (forall src', data = PDict src' -> src = src') /\
    py_lower gender = Return gender /\
    py_lower occupation = Return occupation /\
    py_lower location = Return location /\
    d = list_to_map [
      ("age", dict_get src "age" (PNum 0));
      ("gender", gender);
      ("occupation", occupation);
      ("location", location);
      ("health_status", dict_get src "health_status" (PStr "unknown"));
      ("smoking", dict_get src "smoking" (PBool false));
      ("credit_score", dict_get src "credit_score" (PNum 650));
      ("claims_history", dict_get src "claims_history" (PList []));
      ("coverage_years", dict_get src "coverage_years" (PNum 0))].
Proof.
  unfold _parse_applicant_data. cbv zeta.
  match goal with
  | |- (as_dict ?v ≫= _) = _ -> _ =>
      destruct (as_dict v) as [src |] eqn:Hsrc
  end; [| discriminate].
  cbn [mbind outcome_bind].
  destruct (py_lower (dict_get src "gender" (PStr ""))) as [g |] eqn:Hg;
    [| discriminate].
  cbn [mbind outcome_bind].
  destruct (py_lower (dict_get src "occupation" (PStr ""))) as [o |] eqn:Ho;
    [| discriminate].
  cbn [mbind outcome_bind].
  destruct (py_lower (dict_get src "location" (PStr ""))) as [l |] eqn:Hl;
    [| discriminate].
  cbn [mbind outcome_bind mret outcome_ret]. intros [= <-].
  exists src, g, o, l.
  split; [intros src' ->; cbn in Hsrc; by injection Hsrc |].
  split; [by eapply py_lower_idemp |].
  split; [by eapply py_lower_idemp |].
  split; [by eapply py_lower_idemp | done].
Qed.

(** X9.  Parsing a parsed record changes nothing: the record that the
    scenario analysis hands back to [assess_risk] is read as it stands. *)
Theorem parsed_record_is_a_fixed_point :
  forall data d,
    _parse_applicant_data E data = Return d ->
    _parse_applicant_data E (PDict d) = Return d.
Proof.
  intros data d Hd.
  destruct (parse_shape data d Hd)
    as (src & g & o & l & _ & Hg & Ho & Hl & ->).
  unfold _parse_applicant_data. cbv zeta. cbn [as_dict mbind outcome_bind].
  match goal with
  | |- context [py_lower (dict_get ?m "gender" ?x)] =>
      change (dict_get m "gender" x) with g
  end.
  rewrite Hg. cbn [mbind outcome_bind].
  match goal with
  | |- context [py_lower (dict_get ?m "occupation" ?x)] =>
      change (dict_get m "occupation" x) with o
  end.
  rewrite Ho. cbn [mbind outcome_bind].
  match goal with
  | |- context [py_lower (dict_get ?m "location" ?x)] =>
      change (dict_get m "location" x) with l
  end.
  rewrite Hl. cbn [mbind outcome_bind mret outcome_ret].
  reflexivity.
Qed.

Lemma recommendations_nonempty (x : Q) (d : pydict) (recs : list string) :
  _generate_recommendations x d = Return recs -> recs <> [].
Proof.
  unfold _generate_recommendations. cbv zeta.
  destruct (num_of _) as [credit |]; [| discriminate].
  cbn [mbind outcome_bind].
  destruct (py_len _) as [n |]; [| discriminate].
  cbn [mbind outcome_bind mret outcome_ret]. intros [= <-].
  destruct (truthy _), (Qltb credit 700), (2 <? n)%nat, (Qltb 70 x); done.
Qed.

(** The compliance check of a parsed record whose source has no age. *)
Lemma compliance_without_age (src d : pydict) (policy_type : string)
  (c : Compliance) :
  src !! "age" = None ->
  _parse_applicant_data E (PDict src) = Return d ->
  _check_compliance d policy_type = Return c ->
  compliant c = false /\
  issues c = ["Applicant under minimum age (18)"] /\
  "Incomplete demographic data may impact compliance" ∈ warnings c.
Proof.
  intros Hage Hd.
  destruct (parse_shape _ d Hd)
    as (src0 & g & o & l & Hsrc & _ & _ & _ & ->).
  rewrite (Hsrc src eq_refl).
  assert (dict_get src "age" (PNum 0) = PNum 0) as ->
    by (unfold dict_get; by rewrite Hage).
  unfold _check_compliance. cbv zeta.
  repeat match goal with
         | |- context [dict_get (list_to_map ?kvs) "age" ?x] =>
             change (dict_get (list_to_map kvs) "age" x) with (PNum 0)
         end.
  cbn [num_of as_num mbind outcome_bind mret outcome_ret].
  assert (Qltb 0 18 = true) as -> by reflexivity.
  assert (truthy (PNum 0) = false) as -> by reflexivity.
  rewrite orb_true_r.
  intros [= <-]. cbn [compliant issues warnings].
  split; [done |]. split; [done |].
  by apply list_elem_of_singleton.
Qed.

End Parsing.

(** The parts of a regular result that come from the parsed record. *)
Lemma assess_risk_try_parts (E : Env) (settings : Settings)
  (nested : nested_call) (st : State) (data : pyval) (policy_type : string)
  (coverage : option Q) (fraud_check explain : bool) (r : RiskAssessment) :
  (assess_risk_try E settings nested st data policy_type coverage
     fraud_check explain).1 = Return r ->
  (exists f, r = fraud_rejection f) \/
  (exists d x,
     _parse_applicant_data E data = Return d /\
     (exists recs,
        _generate_recommendations x d = Return recs /\
        recommendations r = Some recs) /\
     (exists comp,
        _check_compliance d policy_type = Return comp /\
        compliance r = Some comp)).
Proof.
  unfold assess_risk_try.
  destruct (_parse_applicant_data E data) as [d | e]; [| discriminate].
  cbv zeta.
  match goal with
  | |- (match ?fr with _ => _ end).1 = _ -> _ => destruct fr as [f |]
  end; [destruct (Fraud.is_suspicious f) |].
  - cbn. intros [= <-]. left. by exists f.
  - intros Hr. right.
    destruct (assess_risk_score_fields _ _ _ _ _ _ _ _ _ _ _ _ _ _ Hr)
      as (_ & _ & _ & _ & _ & _ & Hrecs & Hcomp).
    eexists d, _. done.
  - intros Hr. right.
    destruct (assess_risk_score_fields _ _ _ _ _ _ _ _ _ _ _ _ _ _ Hr)
      as (_ & _ & _ & _ & _ & _ & Hrecs & Hcomp).
    eexists d, _. done.
Qed.

(** X10.  Whenever an assessment carries recommendations, the list is not
    empty. *)
Theorem recommendations_are_never_empty :
  forall E E' settings st data policy_type coverage fraud_check explain r
         recs,
    (assess_risk E E' settings st data policy_type coverage fraud_check
       explain).1 = Return r ->
    recommendations r = Some recs ->
    recs <> [].
Proof.
  intros E E' settings st data policy_type coverage fraud_check explain r
    recs Hr Hrecs.
  destruct (assess_risk_cases _ _ _ _ _ _ _ _ _ _ Hr) as [[e ->] | Htry];
    [discriminate |].
  destruct (assess_risk_try_parts _ _ _ _ _ _ _ _ _ _ Htry)
    as [[f ->] | (d & x & _ & (recs' & Hgen & Hsome) & _)];
    [discriminate |].
  rewrite Hsome in Hrecs. injection Hrecs as <-.
  by eapply recommendations_nonempty.
Qed.

(** X11.  An applicant record without an age is reported as not compliant:
    the missing age reads as 0, below the minimum age of 18, and the record
    also draws the warning for incomplete demographic data. *)
Theorem missing_age_is_not_compliant :
  forall E E' settings st src policy_type coverage fraud_check explain r c,
    src !! "age" = None ->
    (assess_risk E E' settings st (PDict src) policy_type coverage
       fraud_check explain).1 = Return r ->
    compliance r = Some c ->
    compliant c = false /\
    issues c = ["Applicant under minimum age (18)"] /\
    "Incomplete demographic data may impact compliance" ∈ warnings c.
Proof.
  intros E E' settings st src policy_type coverage fraud_check explain r c
    Hage Hr Hc.
  destruct (assess_risk_cases _ _ _ _ _ _ _ _ _ _ Hr) as [[e ->] | Htry];
    [discriminate |].
  destruct (assess_risk_try_parts _ _ _ _ _ _ _ _ _ _ Htry)
    as [[f ->] | (d & x & Hd & _ & (comp & Hcomp & Hsome))];
    [discriminate |].
  rewrite Hsome in Hc. injection Hc as <-.
  by eapply compliance_without_age.
Qed.

Lemma parsed_record_is_a_fixed_point_witness :
  exists d,
    Risk._parse_applicant_data (Scenarios.risk_env Scenarios.quiet_env)
      Scenarios.applicant = Return d /\
    Risk._parse_applicant_data (Scenarios.risk_env Scenarios.quiet_env)
      (PDict d) = Return d.
Proof.
  eassert (Risk._parse_applicant_data (Scenarios.risk_env Scenarios.quiet_env)
             Scenarios.applicant = Return _) as Hd by reflexivity.
  eexists. split; [exact Hd |].
  exact (parsed_record_is_a_fixed_point _ _ _ Hd).
Defined.

Lemma recommendations_are_never_empty_witness :
  exists r recs,
    (Risk.assess_risk (Scenarios.risk_env Scenarios.quiet_env)
       (Scenarios.risk_env Scenarios.quiet_env) default_settings
       (Risk.initial_state false) (PDict Cases.complete_record) "life" None
       false false).1 = Return r /\
    Risk.recommendations r = Some recs /\ recs <> [].
Proof.
  eassert ((Risk.assess_risk (Scenarios.risk_env Scenarios.quiet_env)
              (Scenarios.risk_env Scenarios.quiet_env) default_settings
              (Risk.initial_state false) (PDict Cases.complete_record) "life"
              None false false).1 = Return _) as Hrun
    by (vm_compute; reflexivity).
  eexists _, _. split; [exact Hrun |]. split; [reflexivity |].
  exact (recommendations_are_never_empty _ _ _ _ _ _ _ _ _ _ _
           Hrun eq_refl).
Defined.

Lemma missing_age_is_not_compliant_witness :
  Cases.ageless_record !! "age" = None /\
  exists r c,
    (Risk.assess_risk (Scenarios.risk_env Scenarios.quiet_env)
       (Scenarios.risk_env Scenarios.quiet_env) default_settings
       (Risk.initial_state false) (PDict Cases.ageless_record) "life" None
       false false).1 = Return r /\
    Risk.compliance r = Some c /\
    Risk.compliant c = false /\
    Risk.issues c = ["Applicant under minimum age (18)"] /\
    "Incomplete demographic data may impact compliance" ∈ Risk.warnings c.
Proof.
  assert (Cases.ageless_record !! "age" = None) as Hage
    by (vm_compute; reflexivity).
  split; [exact Hage |].
  eassert ((Risk.assess_risk (Scenarios.risk_env Scenarios.quiet_env)
              (Scenarios.risk_env Scenarios.quiet_env) default_settings
              (Risk.initial_state false) (PDict Cases.ageless_record) "life"
              None false false).1 = Return _) as Hrun
    by (vm_compute; reflexivity).
  eexists _, _. split; [exact Hrun |]. split; [reflexivity |].
  exact (missing_age_is_not_compliant _ _ _ _ _ _ _ _ _ _ _
           Hage Hrun eq_refl).
Defined.

End ApplicantFacts.

(** ** What-if endpoint *)

Module WhatIfFacts.
Import Py Config Risk WhatIf SpecWords Contracts PyFacts NumFacts AssessFacts
  UnderwritingFacts.

Section Endpoint.
Context (E : Env) (settings : Settings).

Lemma load_models_fraud_state (st : State) :
  fraud_state (_load_models E st) = fraud_state st.
Proof.
  unfold _load_models. destruct (models_loaded st); [done |].
  by destruct (build_financial_pipeline E).
Qed.

(** Without fraud check and scenario analysis, [assess_risk] leaves the
    fraud singletons alone. *)
Lemma assess_risk_plain_state (E' : Env) (st : State) (data : pyval)
  (policy_type : string) (coverage : option Q) :
  fraud_state
    (assess_risk E E' settings st data policy_type coverage false false).2
  = fraud_state st.
Proof.
  unfold assess_risk, assess_risk_with. cbv zeta. cbn [snd].
  rewrite <- (load_models_fraud_state st).
  generalize (_load_models E st). intros st'.
  unfold assess_risk_try.
  destruct (_parse_applicant_data E data) as [d | e]; [| done].
  cbv zeta. cbn [fst snd].
  unfold assess_risk_score. cbv zeta.
  destruct (_generate_detailed_assessment _ _ _ _ _); [| done].
  destruct (_generate_recommendations _ _); [| done].
  by destruct (_check_compliance _ _).
Qed.

(** X12.  The what-if endpoint never runs the fraud ensemble: the fraud
    singletons, model flag and caches, are after the request what they were
    before it. *)
Theorem what_if_leaves_fraud_state :
  forall st request,
    fraud_state (what_if_endpoint E settings st request).2 = fraud_state st.
Proof.
  intros st request. unfold what_if_endpoint, what_if_try. cbv zeta.
  cbn [snd].
  destruct (assess_risk E E settings st _ _ None false false).1 eqn:Ho;
    cbn [snd]; [| by rewrite assess_risk_plain_state].
  destruct (assess_risk E E settings _ (PDict (modified_data request)) _
              None false false).1;
    cbn [snd]; by rewrite !assess_risk_plain_state.
Qed.

Lemma assess_risk_parse_error (E' : Env) (st : State) (data : pyval)
  (policy_type : string) (coverage : option Q) (fc ex : bool) (e : exn) :
  _parse_applicant_data E data = Raise e ->
  (assess_risk E E' settings st data policy_type coverage fc ex).1
  = Return (fallback e).
Proof.
  intros He. unfold assess_risk.
  destruct (assess_risk_with_total E settings (nested_assess_risk E' settings)
              st data policy_type coverage fc ex)
    as (r & -> & _ & Hfallback).
  f_equal. apply Hfallback. by apply assess_risk_try_parse_error.
Qed.

Lemma assess_risk_returns (E' : Env) (st : State) (data : pyval)
  (policy_type : string) (coverage : option Q) (fc ex : bool) :
  exists r,
    (assess_risk E E' settings st data policy_type coverage fc ex).1
    = Return r.
Proof.
  unfold assess_risk.
  destruct (assess_risk_with_total E settings (nested_assess_risk E' settings)
              st data policy_type coverage fc ex) as (r & Hr & _).
  by exists r.
Qed.

(** X13.  A what-if request one of whose records cannot be parsed is
    answered with status 500 and the text ['premium_estimate']: the
    assessment of that record is the error fallback, which carries no
    premium, and the lookup of the premium fails. A request that is
    answered carries two assessments with premiums, and the reported
    changes are their differences. *)
Theorem what_if_needs_two_premiums :
  forall st request,
    (forall e,
       _parse_applicant_data E (PDict (original_data request)) = Raise e \/
       _parse_applicant_data E (PDict (modified_data request)) = Raise e ->
       (what_if_endpoint E settings st request).1
       = Raise (Exn (HTTPException 500) "'premium_estimate'")) /\
    (forall res,
       (what_if_endpoint E settings st request).1 = Return res ->
       exists po pm,
         premium_estimate (original res) = Some po /\
         premium_estimate (modified res) = Some pm /\
         risk_score_delta (changes res)
         = (risk_score (modified res) - risk_score (original res))%Q /\
         premium_delta_annual (changes res) = (annual pm - annual po)%Q /\
         premium_delta_monthly (changes res)
         = (monthly pm - monthly po)%Q /\
         (decision_changed (changes res) = false
          <-> decision (original res) = decision (modified res))).
Proof.
  intros st request. split.
  - intros e He. unfold what_if_endpoint, what_if_try. cbv zeta. cbn [fst].
    destruct He as [He | He].
    + rewrite (assess_risk_parse_error E st _ _ None false false e He).
      destruct (assess_risk_returns E
                  (assess_risk E E settings st
                     (PDict (original_data request)) (policy_type request)
                     None false false).2
                  (PDict (modified_data request)) (policy_type request)
                  None false false) as (rm & ->).
      cbn [fst]. unfold premium_estimate_of.
      destruct (premium_estimate rm); reflexivity.
    + destruct (assess_risk_returns E st (PDict (original_data request))
                  (policy_type request) None false false) as (ro & ->).
      rewrite (assess_risk_parse_error E _ _ _ None false false e He).
      reflexivity.
  - intros res. unfold what_if_endpoint, what_if_try. cbv zeta. cbn [fst].
    destruct (assess_risk E E settings st _ _ None false false).1
      as [ro |]; [| discriminate].
    destruct (assess_risk E E settings _ (PDict (modified_data request)) _
                None false false).1 as [rm |]; [| discriminate].
    cbn [fst]. unfold premium_estimate_of.
    destruct (premium_estimate rm) as [pm |] eqn:Hpm; [| discriminate].
    destruct (premium_estimate ro) as [po |] eqn:Hpo; [| discriminate].
    intros [= <-]. exists po, pm. cbn.
    repeat (split; [done |]).
    rewrite negb_false_iff. apply String.eqb_eq.
Qed.

End Endpoint.

Lemma what_if_needs_two_premiums_witness :
  Risk._parse_applicant_data (Scenarios.risk_env Scenarios.quiet_env)
    (PDict (WhatIf.modified_data Cases.what_if_request))
  = Raise (Exn AttributeError "object has no attribute 'lower'") /\
  (WhatIf.what_if_endpoint (Scenarios.risk_env Scenarios.quiet_env)
     default_settings (Risk.initial_state false) Cases.what_if_request).1
  = Raise (Exn (HTTPException 500) "'premium_estimate'").
Proof.
  eassert (Risk._parse_applicant_data (Scenarios.risk_env Scenarios.quiet_env)
             (PDict (WhatIf.modified_data Cases.what_if_request))
           = Raise _) as Hbad by (vm_compute; reflexivity).
  split; [exact Hbad |].
  exact (proj1 (what_if_needs_two_premiums
                  (Scenarios.risk_env Scenarios.quiet_env) default_settings
                  (Risk.initial_state false) Cases.what_if_request)
           _ (or_intror Hbad)).
Defined.

End WhatIfFacts.

(** ** Claim intake *)

Module IntakeFacts.
Import Py Config Claim Schema SpecWords Contracts PyFacts NumFacts ClaimFacts.


Lemma to_http_is_http (e : exn) :
  exists code, exn_class (to_http e) = HTTPException code.
Proof.
  unfold to_http. destruct e as [[] msg]; cbn; eauto.
Qed.

Lemma to_http_500 (e : exn) :
  (forall code, exn_class e <> HTTPException code) ->
  to_http e
  = Exn (HTTPException 500) ("Claims processing failed: " +:+ exn_msg e).
Proof.
  intros Hnot. unfold to_http. destruct e as [[] msg]; cbn; try done.
  by destruct (Hnot status_code).
Qed.

(** X15.  Every failure of the endpoint is an [HTTPException]: the refusal
    of an empty narrative with status 400, or the exception of a
    collaborator or of a later stage, which is passed on when it is an
    [HTTPException] and otherwise wrapped with status 500 and the text
    "Claims processing failed: ...". *)
Theorem claim_failures_are_http :
  forall E settings st request e,
    response (process_claim_endpoint E settings st request) = Raise e ->
    (exists code, exn_class e = HTTPException code) /\
    (e = Exn (HTTPException 400) "claim_description cannot be empty." \/
     exists cause,
       e = to_http cause /\
       ((forall code, exn_class cause <> HTTPException code) ->
        e = Exn (HTTPException 500)
              ("Claims processing failed: " +:+ exn_msg cause))).
Proof.
  intros E settings st request e.
  assert (forall cause, e = to_http cause ->
            (exists code, exn_class e = HTTPException code) /\
            (e = Exn (HTTPException 400) "claim_description cannot be empty."
             \/ exists cause,
                  e = to_http cause /\
                  ((forall code, exn_class cause <> HTTPException code) ->
                   e = Exn (HTTPException 500)
                         ("Claims processing failed: " +:+ exn_msg cause))))
    as Hwrapped.
  { intros cause ->. split; [apply to_http_is_http |].
    right. exists cause. split; [done | apply to_http_500]. }
  unfold process_claim_endpoint.
  destruct (String.eqb _ "").
  { cbn. intros [= <-]. split; [by eexists | by left]. }
  cbv zeta.
  destruct (Fraud.detect_fraud _ _ _ _ _ _).1 as [fr | e0].
  2: { cbn. intros [= <-]. by apply Hwrapped with e0. }
  destruct (Fraud.is_suspicious fr); [discriminate |].
  unfold adjudicate. cbv zeta.
  destruct (generate_response_async E _) as [raw | e0].
  2: { cbn. intros [= <-]. by apply Hwrapped with e0. }
  cbn [response].
  match goal with
  | |- match ?final with _ => _ end = _ -> _ =>
      destruct final as [r | e0]
  end; [discriminate |].
  intros [= <-]. by apply Hwrapped with e0.
Qed.


Lemma claim_failures_are_http_witness :
  exists e,
    Claim.response
      (Claim.process_claim_endpoint Cases.unloadable_claim_env
         default_settings (Fraud.initial_state false) Scenarios.request)
    = Raise e /\
    exn_class e = HTTPException 500.
Proof.
  eassert (Claim.response
             (Claim.process_claim_endpoint Cases.unloadable_claim_env
                default_settings (Fraud.initial_state false)
                Scenarios.request) = Raise _) as Hrun
    by (vm_compute; reflexivity).
  eexists. split; [exact Hrun |].
  destruct (claim_failures_are_http _ _ _ _ _ Hrun)
    as [_ [Hblank | (cause & Hcause & _)]]; reflexivity.
Defined.

End IntakeFacts.

(** ** Adjudication stages *)

Module AdjudicationFacts.
Import Py Config Claim SpecWords Contracts PyFacts NumFacts TextFacts
  ClaimFacts.

Section Stages.
Context (E : Env).



(** The reported score is at least the pre-filter score. *)
Lemma override_checks_score (fraud_score : Q) (docs : list string)
  (parsed : pyval) (r : pydict) :
  override_checks E fraud_score docs parsed = Return r ->
  exists x, r !! "fraud_score" = Some (PNum x) /\
            (py_round fraud_score 3 <= x)%Q.
Proof.
  unfold override_checks.
  destruct (ensure_keys parsed) as [dE |]; [| discriminate].
  cbn [mbind outcome_bind].
  destruct (fraud_override E fraud_score dE) as [dF |]; [| discriminate].
  cbn [mbind outcome_bind].
  destruct (pending_override dF) as [dG |]; [| discriminate].
  cbn [mbind outcome_bind]. cbv zeta.
  destruct (enrich E _) as [dI |]; [| discriminate].
  cbn [mbind outcome_bind]. unfold report_fraud_score.
  destruct (num_of _) as [reported |]; [| discriminate].
  cbn [mbind outcome_bind mret outcome_ret]. intros [= <-].
  eexists. split; [by rewrite lookup_insert_eq |].
  apply py_round_mono. by destruct (py_max_spec fraud_score reported).
Qed.




End Stages.


(** X17.  Every answer reports a fraud score at least as high as the
    rounded score of the pre-filter: the score of the reply can raise the
    reported score and never lowers it. *)
Theorem reported_score_covers_prefilter :
  forall E settings st request resp,
    response (process_claim_endpoint E settings st request) = Return resp ->
    exists fr x,
      (Fraud.detect_fraud (fraud_env E) settings st (text_for_fraud request)
         None false).1 = Return fr /\
      result resp !! "fraud_score" = Some (PNum x) /\
      (py_round (Fraud.fraud_score fr) 3 <= x)%Q.
Proof.
  intros E settings st request resp Hresp.
  destruct (endpoint_answers E settings st request resp Hresp)
    as (fr & Hfr & [[_ ->] | (_ & raw & parsed & _ & _ & Hchecks)]).
  - exists fr, (py_round (Fraud.fraud_score fr) 3).
    split; [done |]. split; [reflexivity | lra].
  - destruct (override_checks_score E _ _ _ _ Hchecks) as (x & Hx & Hle).
    by exists fr, x.
Qed.




Lemma reported_score_covers_prefilter_witness :
  exists resp fr x,
    Claim.response
      (Claim.process_claim_endpoint Cases.approving_env default_settings
         (Fraud.initial_state false) Scenarios.request) = Return resp /\
    (Fraud.detect_fraud (Claim.fraud_env Cases.approving_env)
       default_settings (Fraud.initial_state false)
       (Claim.text_for_fraud Scenarios.request) None false).1 = Return fr /\
    Claim.result resp !! "fraud_score" = Some (PNum x) /\
    (py_round (Fraud.fraud_score fr) 3 <= x)%Q.
Proof.
  eassert (Claim.response
             (Claim.process_claim_endpoint Cases.approving_env
                default_settings (Fraud.initial_state false)
                Scenarios.request) = Return _) as Hrun by reflexivity.
  destruct (reported_score_covers_prefilter _ _ _ _ _ Hrun)
    as (fr & x & Hfr & Hx & Hle).
  eexists _, fr, x. split; [exact Hrun |]. split; [exact Hfr |].
  split; [exact Hx | exact Hle].
Defined.



End AdjudicationFacts.

(** ** Cache manager *)

Module CacheFacts.
Import Py Cache Contracts TextFacts.

Lemma lookup_live {V} (gone : gset string) (m : gmap string V) (k : string)
  (v : V) :
  live gone m !! k = Some v <-> m !! k = Some v /\ k ∉ gone.
Proof. unfold live. apply map_lookup_filter_Some. Qed.

Lemma lookup_live_None {V} (gone : gset string) (m : gmap string V)
  (k : string) :
  m !! k = None -> live gone m !! k = None.
Proof.
  intros Hk. unfold live. apply map_lookup_filter_None. left. done.
Qed.

Lemma lookup_live_gone {V} (gone : gset string) (m : gmap string V)
  (k : string) :
  k ∈ gone -> live gone m !! k = None.
Proof.
  intros Hk. unfold live. apply map_lookup_filter_None. right.
  intros v _ Hnot. by apply Hnot.
Qed.

(** *** Writing and reading *)

Lemma set_memory_lookup (E : Env) (st : State) (key : string) (value : pyval)
  (namespace : string) :
  memory (set E st key value namespace).2 !! _generate_key key namespace
  = Some value /\
  redis_enabled (set E st key value namespace).2 = redis_enabled st.
Proof.
  unfold set. cbv zeta. cbn [snd set_memory redis_enabled].
  destruct (redis_enabled st) eqn:Hon;
    [destruct (json_dumps E value); [destruct (redis_set_fails E) |] |];
    cbn; (split; [by rewrite lookup_insert_eq | done]).
Qed.

Lemma set_redis_lookup (E : Env) (st : State) (key : string) (value : pyval)
  (namespace serialized : string) :
  redis_enabled st = true ->
  json_dumps E value = Return serialized ->
  redis_set_fails E = false ->
  redis (set E st key value namespace).2 !! _generate_key key namespace
  = Some serialized.
Proof.
  intros Hon Hdumps Hset. unfold set. cbv zeta.
  cbn [snd set_memory redis_enabled]. rewrite Hon, Hdumps, Hset.
  cbn. by rewrite lookup_insert_eq.
Qed.

(** X20.  A value that was set is read back for as long as the memory tier
    keeps it, whatever happens in Redis; once the memory tier has dropped
    it, it is read back from Redis as the decoder reads the stored text,
    and copied into the memory tier again. *)
Theorem cached_value_is_read_back :
  forall E E' st key namespace value,
    (_generate_key key namespace ∉ memory_expired E' ->
     (get E' (set E st key value namespace).2 key namespace).1
     = Some value) /\
    (forall serialized decoded,
       redis_enabled st = true ->
       json_dumps E value = Return serialized ->
       serialized <> "" ->
       redis_set_fails E = false ->
       _generate_key key namespace ∈ memory_expired E' ->
       _generate_key key namespace ∉ redis_expired E' ->
       redis_get_fails E' = false ->
       json_loads E' serialized = Return decoded ->
       (get E' (set E st key value namespace).2 key namespace).1
       = Some decoded /\
       memory (get E' (set E st key value namespace).2 key namespace).2
         !! _generate_key key namespace = Some decoded).
Proof.
  intros E E' st key namespace value.
  destruct (set_memory_lookup E st key value namespace) as [Hmem Hon'].
  split.
  - intros Hlive. unfold get. cbv zeta.
    assert (live (memory_expired E')
              (memory (set E st key value namespace).2)
              !! _generate_key key namespace = Some value) as ->; [| done].
    by apply lookup_live.
  - intros serialized decoded Hon Hdumps Hne Hset Hgone Hkept Hget Hloads.
    pose proof (set_redis_lookup E st key value namespace serialized
                  Hon Hdumps Hset) as Hred.
    unfold get. cbv zeta.
    rewrite (lookup_live_gone _ _ _ Hgone).
    cbn [redis_enabled set_memory]. rewrite Hon', Hon, Hget.
    cbn [redis set_memory].
    assert (live (redis_expired E')
              (redis (set E st key value namespace).2)
              !! _generate_key key namespace = Some serialized) as ->
      by (by apply lookup_live).
    apply String.eqb_neq in Hne. rewrite Hne, Hloads.
    cbn. by rewrite lookup_insert_eq.
Qed.

(** *** Deleting *)

(** X21.  [delete] always reports success. When Redis is not in use or the
    Redis deletion succeeds, the key misses afterwards; when the Redis
    deletion fails, the failure is only logged, and a later [get] reads the
    entry Redis still holds and puts it back into the memory tier. *)
Theorem deleted_key_may_come_back :
  forall E E' st key namespace,
    (delete E st key namespace).1 = true /\
    (redis_enabled st = false \/ redis_delete_fails E = false ->
     (get E' (delete E st key namespace).2 key namespace).1 = None) /\
    (forall serialized value,
       redis_enabled st = true ->
       redis_delete_fails E = true ->
       redis st !! _generate_key key namespace = Some serialized ->
       serialized <> "" ->
       _generate_key key namespace ∉ redis_expired E' ->
       redis_get_fails E' = false ->
       json_loads E' serialized = Return value ->
       (get E' (delete E st key namespace).2 key namespace).1 = Some value).
Proof.
  intros E E' st key namespace. split; [done |].
  set (ck := _generate_key key namespace).
  assert (live (memory_expired E')
            (base.delete ck (live (memory_expired E) (memory st))) !! ck
          = None) as Hmem.
  { apply lookup_live_None. by rewrite lookup_delete_eq. }
  split.
  - intros Hoff. unfold get, delete. cbv zeta. fold ck.
    cbn [snd set_memory redis_enabled memory].
    destruct (redis_enabled st) eqn:Hon; cbn [andb].
    + destruct Hoff as [? | Hdel]; [done |]. rewrite Hdel. cbn [negb].
      cbn [memory set_redis set_memory]. rewrite Hmem.
      cbn [redis_enabled set_redis set_memory]. rewrite Hon.
      destruct (redis_get_fails E'); [done |].
      cbn [redis set_redis set_memory].
      assert (live (redis_expired E') (base.delete ck (redis st)) !! ck
              = None) as ->; [| done].
      apply lookup_live_None. by rewrite lookup_delete_eq.
    + cbn [memory set_memory]. rewrite Hmem.
      cbn [redis_enabled set_memory]. by rewrite Hon.
  - intros serialized value Hon Hdel Hred Hne Hkept Hget Hloads.
    unfold get, delete. cbv zeta. fold ck.
    cbn [snd set_memory redis_enabled memory].
    rewrite Hon, Hdel. cbn [andb negb memory set_memory]. rewrite Hmem.
    cbn [redis_enabled set_memory]. rewrite Hon, Hget.
    cbn [redis set_memory].
    assert (live (redis_expired E') (redis st) !! ck = Some serialized)
      as -> by (by apply lookup_live).
    apply String.eqb_neq in Hne. by rewrite Hne, Hloads.
Qed.

(** *** Namespaces *)






Lemma cached_value_is_read_back_witness :
  (Cache.get (Cases.cache_env ∅ false)
     (Cache.set (Cases.cache_env ∅ false) Cases.redis_state "k" (PNum 1)
        "fraud").2 "k" "fraud").1 = Some (PNum 1) /\
  (Cache.get (Cases.cache_env {["fraud:k"]} false)
     (Cache.set (Cases.cache_env ∅ false) Cases.redis_state "k" (PNum 1)
        "fraud").2 "k" "fraud").1 = Some (PStr "[1]").
Proof.
  destruct (cached_value_is_read_back (Cases.cache_env ∅ false)
              (Cases.cache_env ∅ false) Cases.redis_state "k" "fraud"
              (PNum 1)) as [Hkept _].
  destruct (cached_value_is_read_back (Cases.cache_env ∅ false)
              (Cases.cache_env {["fraud:k"]} false) Cases.redis_state "k"
              "fraud" (PNum 1)) as [_ Hdropped].
  split; [apply Hkept; apply not_elem_of_empty |].
  assert ("[1]" <> "") as Hne by discriminate.
  assert (Cache._generate_key "k" "fraud"
          ∈ Cache.memory_expired (Cases.cache_env {["fraud:k"]} false))
    as Hgone.
  { change ("fraud:k" ∈ ({["fraud:k"]} : gset string)).
    by apply elem_of_singleton_2. }
  exact (proj1 (Hdropped "[1]" (PStr "[1]") eq_refl eq_refl Hne eq_refl Hgone
                  (not_elem_of_empty _) eq_refl eq_refl)).
Defined.

Lemma deleted_key_may_come_back_witness :
  (Cache.get (Cases.cache_env ∅ false)
     (Cache.delete (Cases.cache_env ∅ false)
        (Cache.set (Cases.cache_env ∅ false) Cases.redis_state "k" (PNum 1)
           "fraud").2 "k" "fraud").2 "k" "fraud").1 = None /\
  (Cache.get (Cases.cache_env ∅ false)
     (Cache.delete (Cases.cache_env ∅ true)
        (Cache.set (Cases.cache_env ∅ false) Cases.redis_state "k" (PNum 1)
           "fraud").2 "k" "fraud").2 "k" "fraud").1 = Some (PStr "[1]").
Proof.
  split.
  - apply (proj1 (proj2 (deleted_key_may_come_back
                           (Cases.cache_env ∅ false) (Cases.cache_env ∅ false)
                           _ "k" "fraud"))).
    by right.
  - assert ("[1]" <> "") as Hne by discriminate.
    assert (Cache.redis
              (Cache.set (Cases.cache_env ∅ false) Cases.redis_state "k"
                 (PNum 1) "fraud").2
              !! Cache._generate_key "k" "fraud" = Some "[1]") as Hheld
      by (vm_compute; reflexivity).
    exact (proj2 (proj2 (deleted_key_may_come_back
                           (Cases.cache_env ∅ true) (Cases.cache_env ∅ false)
                           (Cache.set (Cases.cache_env ∅ false)
                              Cases.redis_state "k" (PNum 1) "fraud").2
                           "k" "fraud"))
             "[1]" (PStr "[1]") eq_refl eq_refl Hheld Hne
             (not_elem_of_empty _) eq_refl eq_refl).
Defined.


End CacheFacts.

(** ** Markdown fences *)

Module FenceFacts.
Import Py Claim TextFacts.

Section Decoder.
Context (E : Env).

Lemma clean_json_tail (body : string) :
  (if endswith "```" (nl +:+ body +:+ nl +:+ "```")
   then str_drop_end 3 (nl +:+ body +:+ nl +:+ "```")
   else nl +:+ body +:+ nl +:+ "```")
  = nl +:+ body +:+ nl.
Proof.
  assert (nl +:+ body +:+ nl +:+ "```" = (nl +:+ body +:+ nl) +:+ "```")
    as -> by (by rewrite !append_assoc).
  rewrite endswith_append.
  apply (str_drop_end_append (nl +:+ body +:+ nl) "```").
Qed.

Lemma str_strip_lines (body : string) :
  str_strip (nl +:+ body +:+ nl) = str_strip body.
Proof. by apply str_strip_padded. Qed.

Lemma clean_json_fenced (lang body : string) :
  lang = "json" \/ lang = "" ->
  _clean_json E ("```" +:+ lang +:+ nl +:+ body +:+ nl +:+ "```")
  = json_loads E (str_strip body).
Proof.
  intros Hlang. unfold _clean_json. cbv zeta. f_equal.
  rewrite <- (str_strip_lines body), <- (clean_json_tail body).
  f_equal.
  set (rest := nl +:+ body +:+ nl +:+ "```").
  assert (str_strip ("```" +:+ lang +:+ rest) = "```" +:+ lang +:+ rest)
    as ->.
  { assert ("```" +:+ lang +:+ rest
            = String "`" (("``" +:+ lang +:+ nl +:+ body +:+ nl +:+ "``")
                          +:+ String "`" "")) as ->;
      [| by apply str_strip_tight].
    subst rest. rewrite !append_assoc. reflexivity. }
  cbn [foldl]. unfold strip_fence, startswith.
  destruct Hlang as [-> | ->].
  - change ("```" +:+ "json" +:+ rest) with ("```json" +:+ rest).
    rewrite (prefix_append "```json" rest).
    rewrite (str_drop_append "```json" rest).
    by assert (String.prefix "```" rest = false) as -> by reflexivity.
  - change ("```" +:+ "" +:+ rest) with ("```" +:+ rest).
    assert (String.prefix "```json" ("```" +:+ rest) = false) as ->
      by reflexivity.
    rewrite (prefix_append "```" rest).
    by rewrite (str_drop_append "```" rest).
Qed.

(** X23.  The decoder reads the same JSON text whether the reply of the
    language model is wrapped in a markdown fence, with or without the
    [json] tag, or not: the fence lines and the white space around the text
    are dropped before [json.loads] is called. *)
Theorem fenced_reply_is_unwrapped :
  forall body raw,
    _clean_json E ("```json" +:+ nl +:+ body +:+ nl +:+ "```")
    = json_loads E (str_strip body) /\
    _clean_json E ("```" +:+ nl +:+ body +:+ nl +:+ "```")
    = json_loads E (str_strip body) /\
    (startswith "```" (str_strip raw) = false ->
     endswith "```" (str_strip raw) = false ->
     _clean_json E raw = json_loads E (str_strip raw)).
Proof.
  intros body raw. split; [| split].
  - apply (clean_json_fenced "json" body). by left.
  - apply (clean_json_fenced "" body). by right.
  - intros Hstart Hend. unfold _clean_json. cbv zeta. f_equal.
    cbn [foldl]. unfold strip_fence.
    assert (startswith "```json" (str_strip raw) = false) as ->.
    { destruct (startswith "```json" (str_strip raw)) eqn:Hp; [| done].
      unfold startswith in Hp, Hstart.
      apply (prefix_of_prefix "```" "json") in Hp. congruence. }
    rewrite Hstart, Hend. apply str_strip_idemp.
Qed.

End Decoder.

Lemma fenced_reply_is_unwrapped_witness :
  startswith "```" (str_strip " {} ") = false /\
  endswith "```" (str_strip " {} ") = false /\
  Claim._clean_json Cases.approving_env " {} "
  = Claim.json_loads Cases.approving_env "{}".
Proof.
  assert (startswith "```" (str_strip " {} ") = false) as Hstart
    by reflexivity.
  assert (endswith "```" (str_strip " {} ") = false) as Hend by reflexivity.
  split; [exact Hstart |]. split; [exact Hend |].
  exact (proj2 (proj2 (fenced_reply_is_unwrapped
                         Cases.approving_env "" " {} ")) Hstart Hend).
Defined.

End FenceFacts.

(** ** The pre-filter under the default threshold *)

Module DefaultsFacts.
Import Py Config SpecWords Contracts PyFacts NumFacts EnsembleFacts.







End DefaultsFacts.

(** ** Token chunking *)

Module ChunkFacts.
Import Py Chunking.







End ChunkFacts.
